(** * UCP: a shallow embedding of the keyword-scoring core

    The development follows the Python sources file by file:
    - [PyStr], [Re], [PyNum] and [PyVal]: the fragments of Python's [str],
      [re], numbers and dictionaries that the program calls;
    - [UcpCore]: [ucp_core.py] (bias detection, logical chain, compression,
      connection axiom, enhancement score);
    - [PatternLib]: [pattern_library.py] (pattern store, similarity,
      recombination, JSON persistence);
    - [ProblemId]: [problem_identifier.py] (sentence-wise problem detection);
    - [Reference]: the score in the specification's words and the sample
      data the properties are run on;
    - the properties, one section per source file.

    Modelling conventions.
    - A Python [str] is a [string]; a character is a code point below 256, and
      [lower], [strip], [split], [\w], [\d] and case-insensitive matching are
      written out for that range exactly as CPython computes them.
    - A Python [float] is an exact rational ([Q]); [int] is [Z], and lengths
      and counts that come from [len] are [nat].
    - A [dict] is an association list in insertion order: the order of
      iteration decides which of two equal maxima [max] returns and where
      equal scores stand after the stable sort.
    - An exception is a constructor of [exn]; a function that can raise
      returns an [outcome]. *)

From Stdlib Require Import List String Ascii Bool Arith ZArith QArith Qminmax Lia.
From Stdlib Require Import Permutation Sorting.Sorted Lqa DecimalString.
Import ListNotations.

Set Warnings "-register-all".

Local Open Scope string_scope.
Local Open Scope nat_scope.

(* ------------------------------------------------------------------ *)
(** * Python strings *)

Module PyStr.

Definition ord (c : ascii) : nat := nat_of_ascii c.

Definition between (lo hi n : nat) : bool := (lo <=? n) && (n <=? hi).

(** Code points whose [str.lower()] differs: A-Z and the Latin-1 capitals
    (all of 0xC0-0xDE but the multiplication sign 0xD7). *)
Definition is_upper (c : ascii) : bool :=
  between 65 90 (ord c) || (between 192 222 (ord c) && negb (ord c =? 215)).

Definition lower_char (c : ascii) : ascii :=
  if is_upper c then ascii_of_nat (ord c + 32) else c.

(** [s.lower()] *)
Fixpoint lower (s : string) : string :=
  match s with
  | EmptyString => EmptyString
  | String c s' => String (lower_char c) (lower s')
  end.

(** [c.isspace()]: what [strip()] removes and [split()] splits on. *)
Definition is_space (c : ascii) : bool :=
  between 9 13 (ord c) || between 28 32 (ord c) || (ord c =? 133) || (ord c =? 160).

(** [\d] *)
Definition is_digit (c : ascii) : bool := between 48 57 (ord c).

(** [\w] *)
Definition is_word (c : ascii) : bool :=
  let n := ord c in
  between 48 57 n || between 65 90 n || (n =? 95) || between 97 122 n
  || (n =? 170) || between 178 179 n || (n =? 181) || between 185 186 n
  || between 188 190 n || between 192 214 n || between 216 246 n
  || between 248 255 n.

Definition is_empty (s : string) : bool :=
  match s with EmptyString => true | _ => false end.

(** Truthiness of a string: [if s]. *)
Definition truthy (s : string) : bool := negb (is_empty s).

(** [s.lstrip(chars)], the set of characters given as a predicate. *)
Fixpoint lstrip_by (p : ascii -> bool) (s : string) : string :=
  match s with
  | EmptyString => EmptyString
  | String c s' => if p c then lstrip_by p s' else s
  end.

Fixpoint rstrip_by (p : ascii -> bool) (s : string) : string :=
  match s with
  | EmptyString => EmptyString
  | String c s' =>
      let r := rstrip_by p s' in
      if p c && is_empty r then EmptyString else String c r
  end.

(** [s.strip()] *)
Definition strip (s : string) : string := rstrip_by is_space (lstrip_by is_space s).

(** Splitting at every character that satisfies [p], empty pieces kept:
    [s.split(sep)] for a one-character [sep], and [re.split] on a character
    class. *)
Fixpoint split_on (p : ascii -> bool) (s : string) : list string :=
  match s with
  | EmptyString => [EmptyString]
  | String c s' =>
      let r := split_on p s' in
      if p c then EmptyString :: r
      else match r with
           | h :: t => String c h :: t
           | [] => [String c EmptyString]
           end
  end.

(** [s.split()]: pieces between runs of whitespace, none of them empty. *)
Definition split (s : string) : list string := filter truthy (split_on is_space s).

(** [s.split('\n')] *)
Definition split_lines (s : string) : list string :=
  split_on (fun c => ord c =? 10) s.

(** [needle in hay] *)
Fixpoint str_in (needle hay : string) : bool :=
  prefix needle hay
  || match hay with
     | EmptyString => false
     | String _ hay' => str_in needle hay'
     end.

(** [any(k in s for k in keywords)] *)
Definition any_in (keywords : list string) (s : string) : bool :=
  existsb (fun k => str_in k s) keywords.

(** [sum(1 for k in keywords if k in s)] *)
Definition count_in (keywords : list string) (s : string) : nat :=
  List.length (filter (fun k => str_in k s) keywords).

(** [[k for k in keywords if k in s]] *)
Definition those_in (keywords : list string) (s : string) : list string :=
  filter (fun k => str_in k s) keywords.

(** [sep.join(parts)] *)
Fixpoint join (sep : string) (parts : list string) : string :=
  match parts with
  | [] => EmptyString
  | [x] => x
  | x :: rest => x ++ sep ++ join sep rest
  end.

(** [s[:n]] *)
Definition take (n : nat) (s : string) : string := substring 0 n s.

(** Membership of a character in a string taken as a set of characters. *)
Fixpoint char_in (c : ascii) (chars : string) : bool :=
  match chars with
  | EmptyString => false
  | String d chars' => Ascii.eqb c d || char_in c chars'
  end.

End PyStr.

(* ------------------------------------------------------------------ *)
(** * Python regular expressions

    A backtracking matcher for the constructs the program's patterns use.
    Literal characters are compared ignoring case ([re.IGNORECASE]); the two
    calls made without that flag ([[.!?]] and [\d+]) have no cased
    character. *)

Module Re.
Import PyStr.

Inductive regex : Type :=
| REps                          (* the empty pattern *)
| RChar (c : ascii)             (* a literal character *)
| RDigit                        (* \d *)
| RWord                         (* \w *)
| RAny                          (* .  : any character but a newline *)
| RBound                        (* \b *)
| RSeq (r1 r2 : regex)
| RAlt (r1 r2 : regex)          (* r1|r2, r1 tried first *)
| RStar (r : regex)             (* r*, greedy *)
| RGroup (r : regex).           (* (r), the capturing group *)

(** r+ *)
Definition RPlus (r : regex) : regex := RSeq r (RStar r).

(** A pattern without metacharacters. *)
Fixpoint lit (s : string) : regex :=
  match s with
  | EmptyString => REps
  | String c EmptyString => RChar c
  | String c s' => RSeq (RChar c) (lit s')
  end.

(** a|b|c ... *)
Fixpoint alts (rs : list regex) : regex :=
  match rs with
  | [] => REps
  | [r] => r
  | r :: rs' => RAlt r (alts rs')
  end.

Definition ci_eq (c x : ascii) : bool := Ascii.eqb (lower_char c) (lower_char x).

Definition word_before (prev : option ascii) : bool :=
  match prev with Some c => is_word c | None => false end.

Definition word_at (s : string) : bool :=
  match s with String c _ => is_word c | EmptyString => false end.

Definition step_class {R : Type} (p : ascii -> bool) (s : string)
  (k : option ascii -> string -> option R) : option R :=
  match s with
  | String c s' => if p c then k (Some c) s' else None
  | EmptyString => None
  end.

(** [rx_match r prev s cap k]: match [r] at the head of [s], the character
    before it being [prev], then continue with [k]; alternatives are explored
    in the order a backtracking engine explores them.  [cap] is the text of
    the capturing group so far. *)
Fixpoint rx_match {R : Type} (r : regex) (prev : option ascii) (s : string)
  (cap : option string)
  (k : option ascii -> string -> option string -> option R) {struct r} : option R :=
  match r with
  | REps => k prev s cap
  | RChar x => step_class (fun c => ci_eq c x) s (fun p s' => k p s' cap)
  | RDigit => step_class is_digit s (fun p s' => k p s' cap)
  | RWord => step_class is_word s (fun p s' => k p s' cap)
  | RAny => step_class (fun c => negb (ord c =? 10)) s (fun p s' => k p s' cap)
  | RBound => if xorb (word_before prev) (word_at s) then k prev s cap else None
  | RSeq r1 r2 =>
      rx_match r1 prev s cap (fun p s' c' => rx_match r2 p s' c' k)
  | RAlt r1 r2 =>
      match rx_match r1 prev s cap k with
      | Some x => Some x
      | None => rx_match r2 prev s cap k
      end
  | RStar r' =>
      (fix star (fuel : nat) (prev : option ascii) (s : string)
           (cap : option string) {struct fuel} : option R :=
         match fuel with
         | O => k prev s cap
         | S fuel' =>
             match rx_match r' prev s cap
                     (fun p s' c' =>
                        if String.length s' <? String.length s
                        then star fuel' p s' c' else None) with
             | Some x => Some x
             | None => k prev s cap
             end
         end) (String.length s) prev s cap
  | RGroup r' =>
      rx_match r' prev s cap
        (fun p s' _ =>
           k p s' (Some (substring 0 (String.length s - String.length s') s)))
  end.

(** One match attempt at the head of [s]: the number of characters consumed
    and the item [re.findall] reports (the group if the pattern has one, the
    whole match otherwise). *)
Definition match_here (r : regex) (prev : option ascii) (s : string)
  : option (nat * string) :=
  rx_match r prev s None
    (fun _ s' cap =>
       let n := String.length s - String.length s' in
       Some (n, match cap with Some g => g | None => substring 0 n s end)).

(** Left-to-right scan for non-overlapping matches.  [skip] is the number of
    characters still covered by the last match. *)
Fixpoint scan_findall (r : regex) (skip : nat) (prev : option ascii) (s : string)
  {struct s} : list string :=
  match skip with
  | S skip' =>
      match s with
      | String c s' => scan_findall r skip' (Some c) s'
      | EmptyString => []
      end
  | O =>
      match match_here r prev s with
      | Some (n, item) =>
          item :: match s with
                  | String c s' => scan_findall r (n - 1) (Some c) s'
                  | EmptyString => []
                  end
      | None =>
          match s with
          | String c s' => scan_findall r 0 (Some c) s'
          | EmptyString => []
          end
      end
  end.

(** [re.findall(r, s, re.IGNORECASE)] *)
Definition findall (r : regex) (s : string) : list string := scan_findall r 0 None s.

(** The scan of [re.sub(r, '', s, flags=re.IGNORECASE)]: matched characters
    are dropped, the others kept. *)
Fixpoint scan_remove (r : regex) (skip : nat) (prev : option ascii) (s : string)
  {struct s} : string :=
  match s with
  | EmptyString => EmptyString
  | String c s' =>
      match skip with
      | S skip' => scan_remove r skip' (Some c) s'
      | O =>
          match match_here r prev s with
          | Some (S n, _) => scan_remove r n (Some c) s'
          | _ => String c (scan_remove r 0 (Some c) s')
          end
      end
  end.

Definition remove (r : regex) (s : string) : string := scan_remove r 0 None s.

End Re.


(* ------------------------------------------------------------------ *)
(** * Exceptions and floats *)

Inductive exn : Type :=
| AttributeError | TypeError | ValueError | JSONDecodeError | FileNotFoundError.

(** What a call does: it returns a value or raises.  [Untyped] marks a run
    that puts a value of another type than the annotated one into a record
    field; Python stores such a value unchecked, the typed embedding stops
    there. *)
Inductive outcome (A : Type) : Type :=
| Returns (a : A)
| Raises (e : exn)
| Untyped.
Arguments Returns {A} a.
Arguments Raises {A} e.
Arguments Untyped {A}.

Definition bind {A B : Type} (m : outcome A) (f : A -> outcome B) : outcome B :=
  match m with
  | Returns a => f a
  | Raises e => Raises e
  | Untyped => Untyped
  end.

Notation "x <- m ;; k" := (bind m (fun x => k))
  (at level 61, m at next level, right associativity).

Module PyNum.

(** [len(xs)] as a float operand. *)
Definition of_nat (n : nat) : Q := inject_Z (Z.of_nat n).

Definition Qltb (a b : Q) : bool := negb (Qle_bool b a).

(** [min(a, b)]: the first argument unless the second is smaller. *)
Definition py_min (a b : Q) : Q := if Qltb b a then b else a.

(** [max(a, b)]: the first argument unless the second is greater. *)
Definition py_max (a b : Q) : Q := if Qltb a b then b else a.

(** [sum(xs)] over floats. *)
Definition qsum (xs : list Q) : Q := fold_left Qplus xs 0%Q.

(** [sum(xs)] over ints. *)
Definition zsum (xs : list Z) : Z := fold_left Z.add xs 0%Z.

End PyNum.

(* ------------------------------------------------------------------ *)
(** * ucp_core.py *)

Module UcpCore.
Import PyStr Re PyNum.

Inductive BiasType : Type :=
| NARRATIVE_PADDING
| EMOTIONAL_MANIPULATION
| AUTHORITY_APPEAL
| CONFIRMATION_SEEKING
| HEDGING_UNCERTAINTY
| VERBOSE_REDUNDANCY.

(** [BiasType.value] *)
Definition bias_value (b : BiasType) : string :=
  match b with
  | NARRATIVE_PADDING => "narrative_padding"
  | EMOTIONAL_MANIPULATION => "emotional_manipulation"
  | AUTHORITY_APPEAL => "authority_appeal"
  | CONFIRMATION_SEEKING => "confirmation_seeking"
  | HEDGING_UNCERTAINTY => "hedging_uncertainty"
  | VERBOSE_REDUNDANCY => "verbose_redundancy"
  end.

Record LogicalChain : Type := {
  premise : string;
  reasoning : list string;
  conclusion : string;
  confidence : Q;
  contradictions : list string
}.

Record CompressionResult : Type := {
  original_length : nat;
  compressed_length : nat;
  compression_ratio : Q;
  information_density : Q;
  bias_score : Q;
  logical_coherence : Q
}.

(** [_init_bias_patterns].  Every pattern is a literal; [right\?] is the
    escaped literal [right?]. *)
Definition bias_patterns : list (BiasType * list regex) :=
  [ (NARRATIVE_PADDING,
      map lit ["let me explain"; "it's important to understand"; "as you can see";
               "obviously"; "clearly"; "of course"; "needless to say"]);
    (EMOTIONAL_MANIPULATION,
      map lit ["exciting"; "amazing"; "incredible"; "revolutionary";
               "breakthrough"; "game-changing"; "transformative"]);
    (AUTHORITY_APPEAL,
      map lit ["experts say"; "studies show"; "research indicates";
               "according to"; "as proven by"; "established fact"]);
    (CONFIRMATION_SEEKING,
      map lit ["don't you think"; "wouldn't you agree"; "right?";
               "makes sense"; "does that sound"; "what do you think"]);
    (HEDGING_UNCERTAINTY,
      map lit ["might"; "could"; "perhaps"; "possibly"; "maybe";
               "seems like"; "appears to"; "tends to"; "generally"]);
    (VERBOSE_REDUNDANCY,
      map lit ["in other words"; "to put it simply"; "what this means";
               "in essence"; "basically"; "fundamentally"]) ].

Definition logical_operators : list string :=
  ["therefore"; "because"; "if"; "then"; "implies"; "contradicts"].

(** [sum(len(re.findall(p, text, re.IGNORECASE)) for p in patterns)] *)
Definition total_matches (patterns : list regex) (text : string) : nat :=
  list_sum (map (fun p => List.length (findall p text)) patterns).

(** [detect_bias]: every counter starts at 0 and receives the matches of the
    patterns of its own type. *)
Definition detect_bias (text : string) : list (BiasType * nat) :=
  map (fun '(bias_type, patterns) => (bias_type, total_matches patterns text))
      bias_patterns.

(** [[s.strip() for s in re.split(r'[.!?]', text) if s.strip()]] *)
Definition sentences_of (text : string) : list string :=
  filter truthy (map strip (split_on (fun c => char_in c ".!?") text)).

Definition negation_patterns : list string :=
  ["not"; "never"; "no"; "isn't"; "doesn't"; "won't"].

(** [r'\b(' + '|'.join(negation_patterns) + r')\b'] *)
Definition negation_regex : regex :=
  RSeq RBound (RSeq (RGroup (alts (map lit negation_patterns))) RBound).

Definition contradiction_message (sent1 sent2 : string) : string :=
  "Contradiction: '" ++ sent1 ++ "' vs '" ++ sent2 ++ "'".

(** [_detect_contradictions]: the double loop over [i < j]. *)
Fixpoint _detect_contradictions (sentences : list string) : list string :=
  match sentences with
  | [] => []
  | sent1 :: rest =>
      let sent1_clean := remove negation_regex sent1 in
      (map (contradiction_message sent1)
           (filter (fun sent2 =>
                      String.eqb (lower (strip sent1_clean)) (lower (strip sent2)))
                   rest)
       ++ _detect_contradictions rest)%list
  end.

Definition _calculate_confidence (reasoning contradictions : list string) : Q :=
  match contradictions with
  | _ :: _ => 0.0
  | [] =>
      let logical_strength := of_nat (List.length reasoning) * 0.3 in
      let base_confidence := 0.5 in
      py_min 1.0 (base_confidence + logical_strength)
  end%Q.

Definition causal_words : list string :=
  ["causes"; "leads to"; "results in"; "enables"; "creates"].

(** [sentences[1:-1]] *)
Definition middle (sentences : list string) : list string :=
  removelast (tl sentences).

Definition extract_logical_chain (text : string) : LogicalChain :=
  let sentences := sentences_of text in
  let premise := hd "" sentences in
  let conclusion := last sentences "" in
  let reasoning :=
    filter (fun sentence =>
              let sentence_lower := lower sentence in
              any_in logical_operators sentence_lower
              || any_in causal_words sentence_lower)
           sentences in
  let reasoning :=
    match reasoning with
    | [] => if 2 <? List.length sentences then middle sentences else reasoning
    | _ => reasoning
    end in
  let contradictions := _detect_contradictions sentences in
  let confidence := _calculate_confidence reasoning contradictions in
  {| premise := premise; reasoning := reasoning; conclusion := conclusion;
     confidence := confidence; contradictions := contradictions |}.

(** The loop of [compress] that strips the bias patterns: one step counts
    the matches of a pattern in the text as stripped so far, then removes
    them. *)
Definition strip_step (acc : string * nat) (pattern : regex) : string * nat :=
  let '(compressed, total_bias_count) := acc in
  (remove pattern compressed,
   total_bias_count + List.length (findall pattern compressed)).

Definition strip_bias (text : string) : string * nat :=
  fold_left strip_step (List.concat (map snd bias_patterns)) (text, 0).

Definition compress (text : string) : CompressionResult :=
  let original_length := String.length text in
  let '(compressed, total_bias_count) := strip_bias text in
  let logical_chain := extract_logical_chain compressed in
  let core_logic :=
    ((if truthy (premise logical_chain) then [premise logical_chain] else [])
     ++ reasoning logical_chain
     ++ (if truthy (conclusion logical_chain) then [conclusion logical_chain] else []))%list in
  let compressed_text := join ". " core_logic in
  let compressed_length := String.length compressed_text in
  {| original_length := original_length;
     compressed_length := compressed_length;
     compression_ratio :=
       if 0 <? original_length
       then (of_nat compressed_length / of_nat original_length)%Q else 0%Q;
     information_density :=
       if 0 <? compressed_length
       then (of_nat (List.length (reasoning logical_chain)) / of_nat compressed_length)%Q
       else 0%Q;
     bias_score :=
       if 0 <? original_length
       then (of_nat total_bias_count / of_nat original_length)%Q else 0%Q;
     logical_coherence := confidence logical_chain |}.

Definition harmful_patterns : list regex :=
  map lit ["eliminate"; "destroy"; "remove people"; "reduce population";
           "dominate"; "control humans"; "replace humans"].

Definition connection_patterns : list regex :=
  map lit ["collaborate"; "connect"; "improve"; "enhance"; "help";
           "cooperate"; "support"; "strengthen"].

Definition validate_connection_axiom (text : string) : bool :=
  let harmful_score := total_matches harmful_patterns text in
  let connection_score := total_matches connection_patterns text in
  harmful_score <? connection_score.

Definition _calculate_enhancement_score (compression : CompressionResult)
  (logic : LogicalChain) (connection_valid : bool) : Q :=
  (let compression_benefit := 1 - compression_ratio compression in
   let logic_quality := confidence logic in
   let connection_bonus := if connection_valid then 1.0 else 0.0 in
   let bias_penalty := py_min 0.5 (bias_score compression) in
   let base_score :=
     (compression_benefit + logic_quality + connection_bonus - bias_penalty) / 3.0 in
   py_max 0.3 base_score)%Q.

(** The dictionary [process] returns, one field per key. *)
Record ProcessResult : Type := {
  original_text : string;
  bias_detection : list (string * nat);
  logical_chain : LogicalChain;
  compression : CompressionResult;
  connection_axiom_valid : bool;
  enhancement_score : Q
}.

Definition process (input_text : string) : ProcessResult :=
  let bias_detection := detect_bias input_text in
  let logical_chain := extract_logical_chain input_text in
  let compression_result := compress input_text in
  let connection_valid := validate_connection_axiom input_text in
  {| original_text := input_text;
     bias_detection := map (fun '(bias, count) => (bias_value bias, count)) bias_detection;
     logical_chain := logical_chain;
     compression := compression_result;
     connection_axiom_valid := connection_valid;
     enhancement_score :=
       _calculate_enhancement_score compression_result logical_chain connection_valid |}.

End UcpCore.


(* ------------------------------------------------------------------ *)
(** * Values, dictionaries and what the interpreter leaves open *)

Module PyVal.

(** The values [json.load] returns and [json.dump] accepts, also used for
    the dictionaries the program returns. *)
Inductive pyval : Type :=
| VNone
| VBool (b : bool)
| VInt (z : Z)
| VFloat (q : Q)
| VStr (s : string)
| VList (l : list pyval)
| VDict (d : list (string * pyval)).

Definition dict (V : Type) : Type := list (string * V).

(** [d.get(k)] *)
Fixpoint dict_get {V : Type} (k : string) (d : dict V) : option V :=
  match d with
  | [] => None
  | (k', v) :: d' => if String.eqb k k' then Some v else dict_get k d'
  end.

(** [d[k] = v]: an existing key keeps its place, a new one goes last. *)
Fixpoint dict_set {V : Type} (k : string) (v : V) (d : dict V) : dict V :=
  match d with
  | [] => [(k, v)]
  | (k', v') :: d' =>
      if String.eqb k k' then (k, v) :: d' else (k', v') :: dict_set k v d'
  end.

Definition keys {V : Type} (d : dict V) : list string := map fst d.

Definition values {V : Type} (d : dict V) : list V := map snd d.

Definition mem (k : string) (l : list string) : bool := existsb (String.eqb k) l.

End PyVal.

(** What the language leaves to the interpreter: the MD5 digest (hashlib),
    the salted [hash] of a string, and the order in which a [set] of strings
    is iterated, which is some arrangement of its distinct elements. *)
Class PyRuntime : Type := {
  md5_hexdigest : string -> string;
  py_hash : string -> Z;
  set_to_list : list string -> list string;
  set_to_list_perm :
    forall l, Permutation (set_to_list l) (nodup string_dec l)
}.

(* ------------------------------------------------------------------ *)
(** * pattern_library.py *)

Module PatternLib.
Import PyStr Re PyNum PyVal.

Record SolutionPattern : Type := {
  id : string;
  problem_domain : string;
  solution_approach : string;
  implementation_steps : list string;
  success_metrics : list string;
  prerequisites : list string;
  connections_enhanced : Z;
  confidence_score : Q;
  source : string
}.

Record ProblemSignature : Type := {
  domain : string;
  complexity : string;
  constraints : list string;
  stakeholders : list string;
  success_criteria : list string
}.

(** The state of a [PatternLibrary] object ([connection_weights] is never
    read or written after [__init__] and is left out). *)
Record PatternLibrary : Type := {
  storage_path : string;
  patterns : dict SolutionPattern;
  problem_signatures : dict ProblemSignature
}.

(** [max(scores.items(), key=lambda x: x[1])]: the first item of greatest
    score. *)
Definition max_by_score (scores : list (string * nat)) : option (string * nat) :=
  fold_left
    (fun best x =>
       match best with
       | None => Some x
       | Some b => if snd b <? snd x then Some x else Some b
       end)
    scores None.

(** [{d: score for d, kws in table if score > 0}] with
    [score = sum(1 for k in kws if k in text_lower)] *)
Definition keyword_scores (table : list (string * list string)) (text_lower : string)
  : list (string * nat) :=
  filter (fun '(_, score) => 0 <? score)
         (map (fun '(d, keywords) => (d, count_in keywords text_lower)) table).

Definition domain_keywords : list (string * list string) :=
  [ ("communication", ["communicate"; "message"; "talk"; "understand"; "clarity"]);
    ("coordination", ["coordinate"; "organize"; "sync"; "align"; "collaborate"]);
    ("efficiency", ["optimize"; "improve"; "faster"; "reduce"; "streamline"]);
    ("connection", ["connect"; "relationship"; "bond"; "link"; "network"]);
    ("knowledge", ["learn"; "understand"; "knowledge"; "information"; "data"]);
    ("automation", ["automate"; "automatic"; "process"; "workflow"; "system"]);
    ("scaling", ["scale"; "growth"; "expand"; "multiply"; "distribute"]) ].

Definition _classify_domain (problem_description : string) : string :=
  let text_lower := lower problem_description in
  match max_by_score (keyword_scores domain_keywords text_lower) with
  | Some (d, _) => d
  | None => "general"
  end.

Definition approach_patterns : list (string * list string) :=
  [ ("compression", ["compress"; "reduce"; "minimize"; "condense"]);
    ("automation", ["automate"; "automatic"; "scripted"; "programmatic"]);
    ("standardization", ["standard"; "protocol"; "format"; "specification"]);
    ("decomposition", ["break down"; "divide"; "separate"; "modular"]);
    ("optimization", ["optimize"; "improve"; "enhance"; "refine"]);
    ("validation", ["validate"; "verify"; "check"; "confirm"]);
    ("integration", ["integrate"; "combine"; "merge"; "unify"]) ].

Definition _extract_approach (solution_description : string) : string :=
  let text_lower := lower solution_description in
  match find (fun '(_, keywords) => any_in keywords text_lower) approach_patterns with
  | Some (approach, _) => approach
  | None => "custom"
  end.

Definition is_step_line (line : string) : bool :=
  truthy line
  && (prefix "-" line || prefix "1." line || prefix "*" line
      || any_in ["implement"; "create"; "build"; "setup"; "configure"] (lower line)).

Definition _parse_implementation_steps (implementation : string) : list string :=
  let steps :=
    flat_map
      (fun line =>
         let line := strip line in
         if is_step_line line
         then [strip (lstrip_by (fun c => char_in c "- *1234567890.") line)]
         else [])
      (split_lines implementation) in
  match steps with
  | [] => [strip implementation]
  | _ => steps
  end.

(** [(\d+x|\d+%|factor of \d+)], [(reduce.*by \d+)], [(increase.*by \d+)],
    [(improve.*\d+)], [(faster|slower|better|worse)] *)
Definition metric_patterns : list regex :=
  [ RGroup (alts [ RSeq (RPlus RDigit) (lit "x");
                   RSeq (RPlus RDigit) (lit "%");
                   RSeq (lit "factor of ") (RPlus RDigit) ]);
    RGroup (RSeq (lit "reduce") (RSeq (RStar RAny) (RSeq (lit "by ") (RPlus RDigit))));
    RGroup (RSeq (lit "increase") (RSeq (RStar RAny) (RSeq (lit "by ") (RPlus RDigit))));
    RGroup (RSeq (lit "improve") (RSeq (RStar RAny) (RPlus RDigit)));
    RGroup (alts (map lit ["faster"; "slower"; "better"; "worse"])) ].

Definition _extract_success_metrics (solution_description : string) : list string :=
  flat_map (fun pattern => findall pattern solution_description) metric_patterns.

Definition _extract_prerequisites (implementation : string) : list string :=
  let prereq_keywords := ["require"; "need"; "must"; "prerequisite"; "dependency"] in
  map strip
      (filter (fun line => any_in prereq_keywords (lower line))
              (split_lines implementation)).

Definition _calculate_connection_impact (solution_description : string) : Z :=
  let connection_indicators :=
    ["collaborate"; "connect"; "network"; "link"; "relationship";
     "communication"; "cooperation"; "partnership"; "community"] in
  Z.of_nat (count_in connection_indicators (lower solution_description)).

Definition _calculate_pattern_confidence (problem solution : string) : Q :=
  (let problem_clarity := of_nat (List.length (split problem)) / 100 in
   let solution_specificity :=
     of_nat (List.length
               (filter (fun word => mem (lower word) ["implement"; "create"; "build"; "use"])
                       (split solution))) in
   py_min 1.0 (problem_clarity + solution_specificity * 0.1))%Q.

Section Runtime.
Context {rt : PyRuntime}.

(** [hashlib.md5(f"{domain}_{approach}".encode()).hexdigest()[:8]] *)
Definition _generate_pattern_id (domain approach : string) : string :=
  take 8 (md5_hexdigest (domain ++ "_" ++ approach)).

(** [extract_pattern]: the new pattern and the library that holds it. *)
Definition extract_pattern (self : PatternLibrary)
  (problem_description solution_description implementation source : string)
  : SolutionPattern * PatternLibrary :=
  let problem_domain := _classify_domain problem_description in
  let solution_approach := _extract_approach solution_description in
  let implementation_steps := _parse_implementation_steps implementation in
  let success_metrics := _extract_success_metrics solution_description in
  let prerequisites := _extract_prerequisites implementation in
  let connections_enhanced := _calculate_connection_impact solution_description in
  let confidence_score :=
    _calculate_pattern_confidence problem_description solution_description in
  let pattern_id := _generate_pattern_id problem_domain solution_approach in
  let pattern :=
    {| id := pattern_id;
       problem_domain := problem_domain;
       solution_approach := solution_approach;
       implementation_steps := implementation_steps;
       success_metrics := success_metrics;
       prerequisites := prerequisites;
       connections_enhanced := connections_enhanced;
       confidence_score := confidence_score;
       source := source |} in
  (pattern,
   {| storage_path := storage_path self;
      patterns := dict_set pattern_id pattern (patterns self);
      problem_signatures := problem_signatures self |}).

End Runtime.

Definition _calculate_similarity (problem_sig : ProblemSignature)
  (pattern : SolutionPattern) : Q :=
  (let domain_match :=
     if String.eqb (domain problem_sig) (problem_domain pattern) then 1.0 else 0.0 in
   let constraint_overlap :=
     match constraints problem_sig with
     | [] => 0.0
     | _ :: _ =>
         let overlap_count :=
           List.length
             (filter (fun constraint =>
                        existsb (fun step => str_in (lower constraint) (lower step))
                                (implementation_steps pattern))
                     (constraints problem_sig)) in
         of_nat overlap_count / of_nat (List.length (constraints problem_sig))
     end in
   domain_match * 0.6 + constraint_overlap * 0.4)%Q.

(** [list.sort(key=lambda x: x[1], reverse=True)]: a stable sort, greatest
    key first, equal keys in their original order. *)
Fixpoint insert_desc {A : Type} (x : A * Q) (l : list (A * Q)) : list (A * Q) :=
  match l with
  | [] => [x]
  | y :: l' => if Qltb (snd x) (snd y) then y :: insert_desc x l' else x :: l
  end.

Fixpoint sort_desc {A : Type} (l : list (A * Q)) : list (A * Q) :=
  match l with
  | [] => []
  | x :: l' => insert_desc x (sort_desc l')
  end.

Definition find_similar_patterns (self : PatternLibrary)
  (problem_signature : ProblemSignature) (threshold : Q) : list SolutionPattern :=
  let similar_patterns :=
    filter (fun '(_, similarity) => Qle_bool threshold similarity)
           (map (fun pattern => (pattern, _calculate_similarity problem_signature pattern))
                (values (patterns self))) in
  map fst (sort_desc similar_patterns).

(** The loop that keeps the first of the steps equal up to case. *)
Fixpoint unique_steps_from (seen : list string) (steps : list string) : list string :=
  match steps with
  | [] => []
  | step :: rest =>
      if mem (lower step) seen then unique_steps_from seen rest
      else step :: unique_steps_from (lower step :: seen) rest
  end.

Section Runtime.
Context {rt : PyRuntime}.

Definition recombine_patterns (patterns : list SolutionPattern)
  (problem_context : string) : pyval :=
  match patterns with
  | [] => VDict [("error", VStr "No patterns provided for recombination")]
  | _ :: _ =>
      let combined_steps := flat_map implementation_steps patterns in
      let unique_steps := unique_steps_from [] combined_steps in
      let all_prerequisites := flat_map prerequisites patterns in
      let unique_prerequisites := set_to_list all_prerequisites in
      let avg_confidence :=
        (qsum (map confidence_score patterns) / of_nat (List.length patterns))%Q in
      let total_connections := zsum (map connections_enhanced patterns) in
      VDict
        [("recombined_solution",
          VDict [("implementation_steps", VList (map VStr unique_steps));
                 ("prerequisites", VList (map VStr unique_prerequisites));
                 ("confidence_score", VFloat avg_confidence);
                 ("connections_enhanced", VInt total_connections);
                 ("source_patterns", VList (map VStr (map id patterns)));
                 ("problem_context", VStr problem_context)])]
  end.

End Runtime.

(** ** Persistence *)

(** [dataclasses.asdict] *)
Definition asdict_pattern (p : SolutionPattern) : pyval :=
  VDict [("id", VStr (id p));
         ("problem_domain", VStr (problem_domain p));
         ("solution_approach", VStr (solution_approach p));
         ("implementation_steps", VList (map VStr (implementation_steps p)));
         ("success_metrics", VList (map VStr (success_metrics p)));
         ("prerequisites", VList (map VStr (prerequisites p)));
         ("connections_enhanced", VInt (connections_enhanced p));
         ("confidence_score", VFloat (confidence_score p));
         ("source", VStr (source p))].


(** What is at a path: no file, a file that is not JSON text ([json.load]
    raises [JSONDecodeError]), or a file holding the JSON text of a value
    ([json.load] returns it, [json.dump] writes it). *)
Inductive file : Type :=
| Missing
| NotJson
| Document (v : pyval).

Definition filesystem : Type := string -> file.



(** Reading a field at its annotated type. *)
Definition as_str (v : pyval) : outcome string :=
  match v with VStr s => Returns s | _ => Untyped end.

Definition as_int (v : pyval) : outcome Z :=
  match v with VInt z => Returns z | _ => Untyped end.

Definition as_float (v : pyval) : outcome Q :=
  match v with
  | VFloat q => Returns q
  | VInt z => Returns (inject_Z z)
  | _ => Untyped
  end.

Fixpoint all_str (l : list pyval) : outcome (list string) :=
  match l with
  | [] => Returns []
  | v :: l' => s <- as_str v ;; ss <- all_str l' ;; Returns (s :: ss)
  end.

Definition as_str_list (v : pyval) : outcome (list string) :=
  match v with VList l => all_str l | _ => Untyped end.

(** Calling a dataclass constructor with keyword arguments unpacked from a
    value: the value must be a mapping, no keyword may be unexpected and none missing. *)
Definition kwargs (fields : list string) (v : pyval) : outcome (dict pyval) :=
  match v with
  | VDict d =>
      if forallb (fun k => mem k fields) (keys d)
         && forallb (fun f => mem f (keys d)) fields
      then Returns d else Raises TypeError
  | _ => Raises TypeError
  end.

Definition field {A : Type} (read : pyval -> outcome A) (name : string)
  (d : dict pyval) : outcome A :=
  match dict_get name d with
  | Some v => read v
  | None => Raises TypeError
  end.

Definition pattern_fields : list string :=
  ["id"; "problem_domain"; "solution_approach"; "implementation_steps";
   "success_metrics"; "prerequisites"; "connections_enhanced";
   "confidence_score"; "source"].

(** [SolutionPattern] called with the entries of [pattern_data] as keywords. *)
Definition new_pattern (pattern_data : pyval) : outcome SolutionPattern :=
  d <- kwargs pattern_fields pattern_data ;;
  a <- field as_str "id" d ;;
  b <- field as_str "problem_domain" d ;;
  c <- field as_str "solution_approach" d ;;
  e <- field as_str_list "implementation_steps" d ;;
  f <- field as_str_list "success_metrics" d ;;
  g <- field as_str_list "prerequisites" d ;;
  h <- field as_int "connections_enhanced" d ;;
  i <- field as_float "confidence_score" d ;;
  j <- field as_str "source" d ;;
  Returns {| id := a; problem_domain := b; solution_approach := c;
             implementation_steps := e; success_metrics := f; prerequisites := g;
             connections_enhanced := h; confidence_score := i; source := j |}.

Definition signature_fields : list string :=
  ["domain"; "complexity"; "constraints"; "stakeholders"; "success_criteria"].

(** [ProblemSignature] called with the entries of [sig_data] as keywords. *)
Definition new_signature (sig_data : pyval) : outcome ProblemSignature :=
  d <- kwargs signature_fields sig_data ;;
  a <- field as_str "domain" d ;;
  b <- field as_str "complexity" d ;;
  c <- field as_str_list "constraints" d ;;
  e <- field as_str_list "stakeholders" d ;;
  f <- field as_str_list "success_criteria" d ;;
  Returns {| domain := a; complexity := b; constraints := c;
             stakeholders := e; success_criteria := f |}.

(** [data.get(key, {}).items()]: [data] must have a [get], what it gives an
    [items]. *)
Definition get_items (key : string) (data : pyval) : outcome (dict pyval) :=
  match data with
  | VDict d =>
      match dict_get key d with
      | None => Returns []
      | Some (VDict entries) => Returns entries
      | Some _ => Raises AttributeError
      end
  | _ => Raises AttributeError
  end.

(** [for pid, x in items: store[pid] = build(x)]: the entries stored
    before an exception stay stored. *)
Fixpoint load_entries {A : Type} (build : pyval -> outcome A)
  (items : dict pyval) (store : dict A) : dict A * outcome unit :=
  match items with
  | [] => (store, Returns tt)
  | (pid, x) :: rest =>
      match build x with
      | Returns a => load_entries build rest (dict_set pid a store)
      | Raises e => (store, Raises e)
      | Untyped => (store, Untyped)
      end
  end.

Definition with_patterns (self : PatternLibrary) (ps : dict SolutionPattern)
  : PatternLibrary :=
  {| storage_path := storage_path self; patterns := ps;
     problem_signatures := problem_signatures self |}.

Definition with_signatures (self : PatternLibrary) (sigs : dict ProblemSignature)
  : PatternLibrary :=
  {| storage_path := storage_path self; patterns := patterns self;
     problem_signatures := sigs |}.

(** The body of the [try] block once [json.load] has returned [data]. *)
Definition load_document (data : pyval) (self : PatternLibrary)
  : PatternLibrary * outcome unit :=
  match get_items "patterns" data with
  | Returns items =>
      let '(ps, r) := load_entries new_pattern items (patterns self) in
      let self := with_patterns self ps in
      match r with
      | Returns _ =>
          match get_items "problem_signatures" data with
          | Returns items =>
              let '(sigs, r) :=
                load_entries new_signature items (problem_signatures self) in
              (with_signatures self sigs, r)
          | Raises e => (self, Raises e)
          | Untyped => (self, Untyped)
          end
      | _ => (self, r)
      end
  | Raises e => (self, Raises e)
  | Untyped => (self, Untyped)
  end.

(** [except (json.JSONDecodeError, FileNotFoundError): pass] *)
Definition handled (e : exn) : bool :=
  match e with
  | JSONDecodeError | FileNotFoundError => true
  | _ => false
  end.

Definition try_except (r : PatternLibrary * outcome unit) : PatternLibrary * outcome unit :=
  match r with
  | (self, Raises e) => if handled e then (self, Returns tt) else r
  | _ => r
  end.

(** [load_patterns]: the library afterwards and how the call ended. *)
Definition load_patterns (fs : filesystem) (self : PatternLibrary)
  : PatternLibrary * outcome unit :=
  match fs (storage_path self) with
  | Missing => (self, Returns tt)
  | NotJson => try_except (self, Raises JSONDecodeError)
  | Document data => try_except (load_document data self)
  end.

(** [PatternLibrary(storage_path)]: an empty library, then [load_patterns]. *)
Definition new_library (path : string) : PatternLibrary :=
  {| storage_path := path; patterns := []; problem_signatures := [] |}.

Definition init (path : string) (fs : filesystem) : PatternLibrary * outcome unit :=
  load_patterns fs (new_library path).

End PatternLib.

(* ------------------------------------------------------------------ *)
(** * problem_identifier.py *)

Module ProblemId.
Import PyStr Re PyNum PyVal.

Record DetectedProblem : Type := {
  id : string;
  description : string;
  domain : string;
  urgency_score : Q;
  complexity_score : Q;
  connection_impact : Z;
  evidence : list string;
  potential_solutions : list string;
  stakeholders : list string;
  constraints : list string
}.

(** The state of a [ProblemDetector]; the two keyword tables it also holds
    are never changed and are the constants below. *)
Record ProblemDetector : Type := {
  pattern_library : PatternLib.PatternLibrary;
  detected_problems : dict DetectedProblem
}.

(** [_init_problem_indicators] *)
Definition problem_indicators : list (string * list string) :=
  [ ("inefficiency",
      ["slow"; "bottleneck"; "delay"; "waste"; "redundant"; "manual";
       "repetitive"; "time-consuming"; "inefficient"; "suboptimal"]);
    ("inconsistency",
      ["inconsistent"; "conflicting"; "contradictory"; "incompatible";
       "mismatch"; "divergent"; "different standards"; "fragmented"]);
    ("complexity",
      ["complex"; "complicated"; "convoluted"; "difficult"; "hard to understand";
       "unclear"; "confusing"; "overwhelming"; "tangled"]);
    ("fragility",
      ["breaks"; "fails"; "unstable"; "unreliable"; "fragile"; "brittle";
       "error-prone"; "crashes"; "bugs"; "vulnerable"]);
    ("isolation",
      ["isolated"; "disconnected"; "siloed"; "separated"; "fragmented";
       "no communication"; "lack of coordination"; "not connected"]);
    ("scaling_limits",
      ["doesn't scale"; "limited capacity"; "resource constraints";
       "performance degradation"; "bottleneck"; "maximum load"]) ].

(** [_init_domain_classifiers] *)
Definition domain_classifiers : list (string * list string) :=
  [ ("communication", ["message"; "talk"; "communicate"; "information"; "data transfer"]);
    ("coordination", ["coordinate"; "sync"; "align"; "organize"; "collaborate"]);
    ("automation", ["manual"; "human intervention"; "repetitive task"; "process"]);
    ("performance", ["speed"; "efficiency"; "optimization"; "resource usage"]);
    ("reliability", ["failure"; "error"; "crash"; "bug"; "instability"]);
    ("scalability", ["growth"; "capacity"; "load"; "scaling"; "expansion"]);
    ("connection", ["relationship"; "network"; "link"; "interaction"; "bond"]) ].

(** The pairs [(indicator_type, keyword)] found in a lowered sentence, in
    table order. *)
Definition detect_indicators (sentence_lower : string) : list (string * string) :=
  flat_map
    (fun '(indicator_type, keywords) =>
       map (fun keyword => (indicator_type, keyword)) (those_in keywords sentence_lower))
    problem_indicators.

Definition _classify_sentence_domain (sentence : string) : string :=
  let sentence_lower := lower sentence in
  match PatternLib.max_by_score
          (PatternLib.keyword_scores domain_classifiers sentence_lower) with
  | None => "general"
  | Some (d, _) => d
  end.

Definition _generate_problem_description (sentence : string)
  (indicators : list (string * string)) : string :=
  let primary_indicator :=
    match indicators with
    | (t, _) :: _ => t
    | [] => "general"
    end in
  let templates :=
    [ ("inefficiency", "Process inefficiency detected: " ++ sentence);
      ("inconsistency", "Consistency problem identified: " ++ sentence);
      ("complexity", "Complexity barrier found: " ++ sentence);
      ("fragility", "Reliability issue detected: " ++ sentence);
      ("isolation", "Connection gap identified: " ++ sentence);
      ("scaling_limits", "Scaling limitation found: " ++ sentence) ] in
  match dict_get primary_indicator templates with
  | Some text => text
  | None => "Problem detected: " ++ sentence
  end.

Definition _calculate_urgency (sentence : string)
  (indicators : list (string * string)) : Q :=
  (let urgency_keywords :=
     ["critical"; "urgent"; "immediate"; "emergency"; "failing"; "broken"] in
   let sentence_lower := lower sentence in
   let urgency_base := of_nat (List.length indicators) * 0.2 in
   let urgency_bonus :=
     qsum (map (fun _ => 0.3) (those_in urgency_keywords sentence_lower)) in
   py_min 1.0 (urgency_base + urgency_bonus))%Q.

Definition _calculate_complexity (sentence : string) : Q :=
  (let complexity_indicators :=
     ["multiple"; "various"; "complex"; "many"; "several"; "different"] in
   let sentence_lower := lower sentence in
   let complexity_score :=
     qsum (map (fun _ => 0.2) (those_in complexity_indicators sentence_lower)) in
   let length_factor := py_min 0.3 (of_nat (List.length (split sentence)) / 50) in
   py_min 1.0 (complexity_score + length_factor))%Q.

(** [int(num)] for a run of decimal digits. *)
Definition int_of_digits (num : string) : Z :=
  fold_left (fun acc c => (10 * acc + Z.of_nat (ord c - 48))%Z)
            (list_ascii_of_string num) 0%Z.

(** [max(xs)] over ints: raises on an empty sequence. *)
Definition py_max_int (xs : list Z) : outcome Z :=
  match xs with
  | [] => Raises ValueError
  | x :: xs' => Returns (fold_left Z.max xs' x)
  end.

Definition _calculate_connection_impact (sentence : string) : outcome Z :=
  let connection_keywords :=
    ["team"; "people"; "users"; "everyone"; "communication"; "collaboration"] in
  let sentence_lower := lower sentence in
  let impact := Z.of_nat (count_in connection_keywords sentence_lower) in
  let numbers := findall (RPlus RDigit) sentence in
  match numbers with
  | [] => Returns impact
  | _ :: _ =>
      m <- py_max_int (filter (fun n => (n <? 1000)%Z) (map int_of_digits numbers)) ;;
      Returns (impact + m)%Z
  end.

(** [can't (\w+)], [cannot (\w+)], [unable to (\w+)], [limited by (\w+)],
    [restricted (\w+)] *)
Definition constraint_patterns : list regex :=
  map (fun before => RSeq (lit before) (RGroup (RPlus RWord)))
      ["can't "; "cannot "; "unable to "; "limited by "; "restricted "].

Definition _extract_constraints (sentence : string) : list string :=
  flat_map (fun pattern => findall pattern sentence) constraint_patterns.

(** [f"{n:04d}"] for [0 <= n < 10000] *)
Definition format_04d (n : Z) : string :=
  let digit (k : Z) := ascii_of_nat (48 + Z.to_nat ((n / k) mod 10)) in
  String (digit 1000%Z) (String (digit 100%Z) (String (digit 10%Z)
    (String (digit 1%Z) EmptyString))).

Definition indicator_solutions : list (string * string) :=
  [ ("inefficiency", "Implement automation to reduce manual overhead");
    ("inconsistency", "Create standardized protocols and validation");
    ("complexity", "Break down into modular components");
    ("fragility", "Add error handling and redundancy");
    ("isolation", "Establish communication channels and integration");
    ("scaling_limits", "Implement distributed architecture") ].

(** [_deduplicate_problems]: the first problem of each key is kept, the key
    being the first 50 characters of the lowered description. *)
Fixpoint dedup_from (seen_descriptions : list string) (problems : list DetectedProblem)
  : list DetectedProblem :=
  match problems with
  | [] => []
  | problem :: rest =>
      let key := take 50 (lower (description problem)) in
      if mem key seen_descriptions then dedup_from seen_descriptions rest
      else problem :: dedup_from (key :: seen_descriptions) rest
  end.

Definition _deduplicate_problems (problems : list DetectedProblem) : list DetectedProblem :=
  dedup_from [] problems.

Section Runtime.
Context {rt : PyRuntime}.

Definition _extract_stakeholders (sentence : string) : list string :=
  let stakeholder_keywords :=
    ["team"; "users"; "customers"; "developers"; "people"; "staff"; "management"] in
  set_to_list (those_in stakeholder_keywords (lower sentence)).

Definition _suggest_solutions (self : ProblemDetector) (domain : string)
  (indicators : list (string * string)) : list string :=
  let problem_sig :=
    {| PatternLib.domain := domain;
       PatternLib.complexity := "medium";
       PatternLib.constraints := [];
       PatternLib.stakeholders := [];
       PatternLib.success_criteria := [] |} in
  let similar_patterns :=
    PatternLib.find_similar_patterns (pattern_library self) problem_sig 0.3%Q in
  let from_patterns :=
    map (fun pattern =>
           PatternLib.solution_approach pattern ++ ": "
           ++ match PatternLib.implementation_steps pattern with
              | step :: _ => step
              | [] => "Apply pattern"
              end)
        (firstn 3 similar_patterns) in
  let from_indicators :=
    flat_map (fun '(indicator_type, _) =>
                match dict_get indicator_type indicator_solutions with
                | Some solution => [solution]
                | None => []
                end)
             indicators in
  set_to_list (from_patterns ++ from_indicators)%list.

Definition _extract_problems_from_sentence (self : ProblemDetector)
  (sentence source : string) : outcome (list DetectedProblem) :=
  let sentence_lower := lower sentence in
  let detected_indicators := detect_indicators sentence_lower in
  match detected_indicators with
  | [] => Returns []
  | _ :: _ =>
      let domain := _classify_sentence_domain sentence in
      let problem_desc := _generate_problem_description sentence detected_indicators in
      let urgency := _calculate_urgency sentence detected_indicators in
      let complexity := _calculate_complexity sentence in
      connection_impact <- _calculate_connection_impact sentence ;;
      let evidence := [sentence] in
      let constraints := _extract_constraints sentence in
      let stakeholders := _extract_stakeholders sentence in
      let potential_solutions := _suggest_solutions self domain detected_indicators in
      let problem_id :=
        domain ++ "_" ++ format_04d (py_hash problem_desc mod 10000)%Z in
      Returns
        [ {| id := problem_id;
             description := problem_desc;
             domain := domain;
             urgency_score := urgency;
             complexity_score := complexity;
             connection_impact := connection_impact;
             evidence := evidence;
             potential_solutions := potential_solutions;
             stakeholders := stakeholders;
             constraints := constraints |} ]
  end.

(** The loop over the sentences: the first exception ends it. *)
Fixpoint detect_all (self : ProblemDetector) (sentences : list string) (source : string)
  : outcome (list DetectedProblem) :=
  match sentences with
  | [] => Returns []
  | sentence :: rest =>
      problems <- _extract_problems_from_sentence self sentence source ;;
      detected <- detect_all self rest source ;;
      Returns (problems ++ detected)%list
  end.

(** [analyze_text_for_problems]: the list returned and the detector with the
    problems recorded under their ids. *)
Definition analyze_text_for_problems (self : ProblemDetector) (text source : string)
  : outcome (list DetectedProblem * ProblemDetector) :=
  let sentences := UcpCore.sentences_of text in
  detected <- detect_all self sentences source ;;
  let unique_problems := _deduplicate_problems detected in
  Returns
    (unique_problems,
     {| pattern_library := pattern_library self;
        detected_problems :=
          fold_left (fun d problem => dict_set (id problem) problem d)
                    unique_problems (detected_problems self) |}).

End Runtime.

(** [set(pattern.problem_domain for pattern in patterns.values())], used for
    membership only. *)
Definition covered_domains (self : ProblemDetector) : list string :=
  map PatternLib.problem_domain (values (PatternLib.patterns (pattern_library self))).

Definition critical_domains : list string :=
  ["communication"; "coordination"; "automation"; "connection"].

Definition gap_problem (missing_domain : string) : DetectedProblem :=
  {| id := "gap_" ++ missing_domain;
     description := "No solution patterns exist for " ++ missing_domain ++ " domain";
     domain := "pattern_gap";
     urgency_score := 0.7%Q;
     complexity_score := 0.5%Q;
     connection_impact := 5%Z;
     evidence := ["Pattern library analysis shows " ++ missing_domain ++ " gap"];
     potential_solutions :=
       ["Research and develop " ++ missing_domain ++ " solution patterns"];
     stakeholders := ["developers"; "users"];
     constraints := ["requires domain expertise"] |}.

Definition scan_system_patterns (self : ProblemDetector) : list DetectedProblem :=
  let domains := covered_domains self in
  let missing_domains := filter (fun d => negb (mem d domains)) critical_domains in
  map gap_problem missing_domains.

(** The [priority_score] that [prioritize_problems] attaches to a problem. *)
Definition priority_score (problem : DetectedProblem) : Q :=
  (urgency_score problem * 0.4
   + inject_Z (connection_impact problem) * 0.1
   + (1 - complexity_score problem) * 0.3
   + of_nat (List.length (potential_solutions problem)) * 0.2)%Q.

(** [prioritize_problems]: the recorded problems, greatest priority first
    (the same stable sort as in the pattern library). *)
Definition prioritize_problems (self : ProblemDetector) : list DetectedProblem :=
  let all_problems := values (detected_problems self) in
  map fst (PatternLib.sort_desc (map (fun problem => (problem, priority_score problem))
                                     all_problems)).

End ProblemId.

(** The salted [hash] of the text [str] gives for a list of strings. *)
Class PlanHash : Type := { hash_of_plan : list string -> Z }.

(* ------------------------------------------------------------------ *)
(** * solution_generator.py *)

Module SolutionGen.
Import PyStr PyNum PyVal.

Record GeneratedSolution : Type := {
  id : string;
  problem_id : string;
  approach : string;
  implementation_plan : list string;
  resource_requirements : list string;
  success_metrics : list string;
  risk_factors : list string;
  connection_enhancement : Z;
  confidence_score : Q;
  pattern_sources : list string;
  execution_time_estimate : string
}.

(** The state of a [SolutionGenerator].  The generator and its detector hold
    the same [PatternLibrary] object in every construction the repository
    makes (also by default), so the one library is the detector's. *)
Record SolutionGenerator : Type := {
  problem_detector : ProblemId.ProblemDetector;
  generated_solutions : dict GeneratedSolution
}.

Definition pattern_library (self : SolutionGenerator) : PatternLib.PatternLibrary :=
  ProblemId.pattern_library (problem_detector self).

Definition connection_axiom : string := "connection_maximization".

Definition _create_problem_signature (problem : ProblemId.DetectedProblem)
  : PatternLib.ProblemSignature :=
  {| PatternLib.domain := ProblemId.domain problem;
     PatternLib.complexity :=
       if Qltb 0.7 (ProblemId.complexity_score problem) then "high"
       else if Qltb 0.3 (ProblemId.complexity_score problem) then "medium"
       else "low";
     PatternLib.constraints := ProblemId.constraints problem;
     PatternLib.stakeholders := ProblemId.stakeholders problem;
     PatternLib.success_criteria := [] |}.

Definition domain_templates : list (string * list string) :=
  [ ("automation",
      ["Identify manual processes in the workflow";
       "Design automated replacement system";
       "Implement with error handling and logging";
       "Test with subset of use cases";
       "Deploy with monitoring and rollback capability"]);
    ("communication",
      ["Define communication protocol and standards";
       "Implement centralized messaging system";
       "Create documentation and training materials";
       "Roll out to teams with feedback collection";
       "Iterate based on usage patterns"]);
    ("coordination",
      ["Map current coordination bottlenecks";
       "Design unified coordination protocol";
       "Implement shared visibility tools";
       "Establish regular sync mechanisms";
       "Monitor and optimize coordination efficiency"]);
    ("reliability",
      ["Identify failure points and error patterns";
       "Implement comprehensive error handling";
       "Add monitoring and alerting systems";
       "Create automated recovery procedures";
       "Test resilience under load"]) ].

(** [d.get(k, default)] *)
Definition get_default {V : Type} (k : string) (default : V) (d : dict V) : V :=
  match dict_get k d with
  | Some v => v
  | None => default
  end.

(** [f"{n:03d}"] for [0 <= n < 1000] *)
Definition format_03d (n : Z) : string :=
  let digit (k : Z) := ascii_of_nat (48 + Z.to_nat ((n / k) mod 10)) in
  String (digit 100%Z) (String (digit 10%Z) (String (digit 1%Z) EmptyString)).

(** [str(n)] for an int *)
Definition str_of_int (n : Z) : string := NilZero.string_of_int (Z.to_int n).

(** [max(1, n)] over ints: the first argument unless the second is greater. *)
Definition max_one (n : Z) : Z := if (1 <? n)%Z then n else 1%Z.

Definition _enhance_step_for_connections (step : string)
  (problem : ProblemId.DetectedProblem) : string :=
  if str_in "implement" (lower step)
  then step ++ " with stakeholder collaboration and feedback loops"
  else if str_in "create" (lower step)
  then step ++ " ensuring cross-team visibility and shared access"
  else if str_in "design" (lower step)
  then step ++ " with input from all affected stakeholders"
  else if str_in "deploy" (lower step)
  then step ++ " with communication plan and training for all users"
  else step ++ " while maintaining transparency and stakeholder engagement".

Definition _generate_connection_steps (problem : ProblemId.DetectedProblem)
  : list string :=
  let base_steps :=
    ["Establish communication channels between all stakeholders";
     "Create shared documentation and knowledge base";
     "Implement feedback collection and response mechanism"] in
  let domain_steps :=
    [ ("coordination",
        ["Set up regular cross-team sync meetings";
         "Create shared project visibility dashboard"]);
      ("communication",
        ["Implement standardized communication protocols";
         "Train teams on new communication tools"]);
      ("automation",
        ["Ensure automated processes notify relevant stakeholders";
         "Create human oversight mechanisms"]);
      ("reliability",
        ["Set up shared monitoring and alerting";
         "Create collaborative incident response procedures"]) ] in
  let specific_steps := get_default (ProblemId.domain problem) [] domain_steps in
  (base_steps ++ specific_steps)%list.

(** [_apply_connection_axiom]: the inner dictionary of the recombination,
    updated in place and returned.  The reads are made at the types
    [recombine_patterns] writes; any other shape is outside the embedding. *)
Definition _apply_connection_axiom (recombined_solution : pyval)
  (problem : ProblemId.DetectedProblem) : outcome (dict pyval) :=
  match recombined_solution with
  | VDict d =>
      solution_data <-
        match dict_get "recombined_solution" d with
        | None => Returns []
        | Some (VDict solution_data) => Returns solution_data
        | Some _ => Untyped
        end ;;
      implementation_steps <-
        match dict_get "implementation_steps" solution_data with
        | None => Returns []
        | Some v => PatternLib.as_str_list v
        end ;;
      let enhanced_steps :=
        map (fun step => _enhance_step_for_connections step problem)
            implementation_steps in
      let connection_steps := _generate_connection_steps problem in
      let enhanced_steps := (enhanced_steps ++ connection_steps)%list in
      let solution_data :=
        dict_set "implementation_steps" (VList (map VStr enhanced_steps)) solution_data in
      connections <-
        match dict_get "connections_enhanced" solution_data with
        | None => Returns 0%Z
        | Some v => PatternLib.as_int v
        end ;;
      Returns
        (dict_set "connections_enhanced"
           (VInt (connections + Z.of_nat (List.length connection_steps)))
           solution_data)
  | _ => Untyped
  end.

Definition _create_implementation_plan (enhanced_solution : dict pyval)
  (problem : ProblemId.DetectedProblem) : outcome (list string) :=
  base_steps <-
    match dict_get "implementation_steps" enhanced_solution with
    | None => Returns []
    | Some v => PatternLib.as_str_list v
    end ;;
  Returns
    ([("Analyze current state of " ++ ProblemId.domain problem ++ " systems")%string;
      "Identify all stakeholders and dependencies";
      "Create detailed project plan with milestones"]
     ++ base_steps
     ++ ["Test solution with pilot group";
         "Collect feedback and iterate";
         "Create rollout plan for full deployment";
         "Monitor success metrics and adjust as needed";
         "Document lessons learned for pattern library"])%list.

(** [if cond: xs.append(x)] *)
Definition append_if (cond : bool) (x : string) (xs : list string) : list string :=
  if cond then (xs ++ [x])%list else xs.

(** The resources before [list(set(...))]. *)
Definition resources_of (implementation_plan : list string) : list string :=
  let plan_text := lower (join " " implementation_plan) in
  let r := ["development_time"; "stakeholder_coordination"] in
  let r := append_if (str_in "test" plan_text) "testing_environment" r in
  let r := append_if (str_in "train" plan_text) "training_materials" r in
  let r := append_if (str_in "monitor" plan_text) "monitoring_tools" r in
  let r := append_if (str_in "deploy" plan_text) "deployment_infrastructure" r in
  let r := append_if (str_in "document" plan_text) "documentation_effort" r in
  let r := append_if (8 <? List.length implementation_plan) "project_management" r in
  append_if (12 <? List.length implementation_plan) "dedicated_team" r.

Definition domain_metrics : list (string * list string) :=
  [ ("automation", ["Manual process time reduced by >50%"; "Error rate decreased"]);
    ("communication", ["Communication clarity improved"; "Response time reduced"]);
    ("coordination", ["Coordination overhead reduced"; "Team alignment improved"]);
    ("reliability", ["System uptime improved"; "Error frequency reduced"]);
    ("efficiency", ["Process time reduced"; "Resource usage optimized"]) ].

Definition _define_success_metrics (problem : ProblemId.DetectedProblem)
  (solution_data : dict pyval) : outcome (list string) :=
  let base_metrics :=
    ["Problem '" ++ take 50 (ProblemId.description problem) ++ "...' resolved";
     "Solution maintains " ++ connection_axiom ++ " principle"] in
  let specific_metrics :=
    get_default (ProblemId.domain problem) ["Overall efficiency improved"] domain_metrics in
  let base_metrics := (base_metrics ++ specific_metrics)%list in
  connection_count <-
    match dict_get "connections_enhanced" solution_data with
    | None => Returns 0%Z
    | Some v => PatternLib.as_int v
    end ;;
  Returns
    (if (0 <? connection_count)%Z
     then (base_metrics
           ++ [("Stakeholder connections increased by "
                ++ str_of_int connection_count)%string;
               "Inter-team collaboration improved"])%list
     else base_metrics).

Definition domain_risks : list (string * list string) :=
  [ ("automation", ["Automated system may have edge cases not covered"]);
    ("communication", ["New communication patterns may be adopted slowly"]);
    ("coordination", ["Coordination improvements may face organizational resistance"]);
    ("reliability", ["Reliability fixes may introduce new failure modes"]) ].

Definition _identify_risks (implementation_plan : list string)
  (problem : ProblemId.DetectedProblem) : list string :=
  let plan_text := lower (join " " implementation_plan) in
  let r := ["Implementation complexity higher than estimated"] in
  let r := append_if (str_in "pilot" plan_text)
             "Pilot results may not scale to full deployment" r in
  let r := append_if (str_in "stakeholder" plan_text)
             "Stakeholder resistance or misalignment" r in
  let r := append_if (str_in "new" plan_text || str_in "novel" plan_text)
             "Unproven approach with unknown edge cases" r in
  let r := append_if (str_in "integrate" plan_text)
             "Integration challenges with existing systems" r in
  (r ++ get_default (ProblemId.domain problem) [] domain_risks)%list.

Definition _estimate_execution_time (implementation_plan : list string) : string :=
  let plan_length := List.length implementation_plan in
  if plan_length <=? 5 then "1-2 weeks"
  else if plan_length <=? 8 then "2-4 weeks"
  else if plan_length <=? 12 then "1-2 months"
  else "2-3 months".

(** [_determine_approach]: the one approach all patterns share, if they do. *)
Definition _determine_approach (patterns : list PatternLib.SolutionPattern) : string :=
  match patterns with
  | [] => "novel_synthesis"
  | _ :: _ =>
      let approaches := map PatternLib.solution_approach patterns in
      match nodup string_dec approaches with
      | [approach] => approach
      | _ => "hybrid_recombination"
      end
  end.

Section Runtime.
Context {rt : PyRuntime} {ph : PlanHash}.

Definition _estimate_resources (implementation_plan : list string) : list string :=
  set_to_list (resources_of implementation_plan).

Definition _generate_novel_solution (problem : ProblemId.DetectedProblem)
  : GeneratedSolution :=
  let base_plan :=
    get_default (ProblemId.domain problem)
      ["Analyze problem systematically";
       "Design solution with connection enhancement";
       "Implement incrementally with validation";
       "Deploy with monitoring";
       "Iterate based on feedback"]
      domain_templates in
  let solution_id :=
    "novel_" ++ ProblemId.id problem ++ "_"
    ++ format_03d (py_hash (ProblemId.description problem) mod 1000)%Z in
  {| id := solution_id;
     problem_id := ProblemId.id problem;
     approach := "novel_synthesis";
     implementation_plan := base_plan;
     resource_requirements := ["development_time"; "testing_resources"];
     success_metrics :=
       ["Problem " ++ ProblemId.id problem ++ " resolved";
        "No regression in existing functionality"];
     risk_factors := ["Untested approach"; "Potential integration issues"];
     connection_enhancement := max_one (ProblemId.connection_impact problem);
     confidence_score := 0.6%Q;
     pattern_sources := [];
     execution_time_estimate := "2-4 weeks" |}.

(** [generate_solution]: the solution and the generator afterwards; a novel
    solution is returned without being recorded. *)
Definition generate_solution (self : SolutionGenerator)
  (problem : ProblemId.DetectedProblem)
  : outcome (GeneratedSolution * SolutionGenerator) :=
  let problem_sig := _create_problem_signature problem in
  let applicable_patterns :=
    PatternLib.find_similar_patterns (pattern_library self) problem_sig 0.3%Q in
  match applicable_patterns with
  | [] => Returns (_generate_novel_solution problem, self)
  | _ :: _ =>
      let recombined :=
        PatternLib.recombine_patterns applicable_patterns (ProblemId.description problem) in
      connection_enhanced <- _apply_connection_axiom recombined problem ;;
      implementation_plan <- _create_implementation_plan connection_enhanced problem ;;
      let resources := _estimate_resources implementation_plan in
      metrics <- _define_success_metrics problem connection_enhanced ;;
      let risks := _identify_risks implementation_plan problem in
      let execution_time := _estimate_execution_time implementation_plan in
      let solution_id :=
        "sol_" ++ ProblemId.id problem ++ "_"
        ++ format_03d (hash_of_plan implementation_plan mod 1000)%Z in
      connections <-
        match dict_get "connections_enhanced" connection_enhanced with
        | None => Returns 0%Z
        | Some v => PatternLib.as_int v
        end ;;
      confidence <-
        match dict_get "confidence_score" connection_enhanced with
        | None => Returns 0.5%Q
        | Some v => PatternLib.as_float v
        end ;;
      let solution :=
        {| id := solution_id;
           problem_id := ProblemId.id problem;
           approach := _determine_approach applicable_patterns;
           implementation_plan := implementation_plan;
           resource_requirements := resources;
           success_metrics := metrics;
           risk_factors := risks;
           connection_enhancement := connections;
           confidence_score := confidence;
           pattern_sources := map PatternLib.id applicable_patterns;
           execution_time_estimate := execution_time |} in
      Returns
        (solution,
         {| problem_detector := problem_detector self;
            generated_solutions :=
              dict_set solution_id solution (generated_solutions self) |})
  end.







End Runtime.

End SolutionGen.

(* ------------------------------------------------------------------ *)
(** * ucp_system.py *)

Module UcpSystem.
Import PyStr PyNum PyVal.

Record UCPSession : Type := {
  id : string;
  start_time : Q;
  enhancement_score : Q;
  problems_identified : nat;
  solutions_generated : nat;
  connection_enhancement : Z;
  compression_ratio : Q;
  logical_coherence : Q
}.

(** The state of a [UCPSystem]: the processor has no state, and the pattern
    library and the problem detector are the objects the solution generator
    holds. *)
Record UCPSystem : Type := {
  solution_generator : SolutionGen.SolutionGenerator;
  session_history : list UCPSession;
  autonomous_mode : bool
}.

(** One entry of [generated_solutions] in the result of [process_input]. *)
Record SolutionSummary : Type := {
  summary_problem_id : string;
  summary_problem_description : string;
  summary_solution_approach : string;
  implementation_preview : list string;
  summary_connection_enhancement : Z;
  summary_confidence : Q;
  summary_execution_time : string
}.

(** One entry of [detailed_problems]. *)
Record ProblemDetail : Type := {
  detail_id : string;
  detail_description : string;
  detail_domain : string;
  detail_urgency : Q;
  detail_connection_impact : Z
}.

(** The dictionary [process_input] returns, its nested dictionaries
    flattened into fields. *)
Record InputResult : Type := {
  session_id : string;
  ucp_enhancement_score : Q;
  ucp_compression_ratio : Q;
  ucp_logical_coherence : Q;
  ucp_bias_detection : list (string * nat);
  ucp_connection_axiom_valid : bool;
  problems_detected : nat;
  result_solutions_generated : nat;
  total_connection_enhancement : Z;
  compressed_response : string;
  detailed_problems : list ProblemDetail;
  generated_solutions : list SolutionSummary;
  execution_time_ms : Q
}.

(** [int(x)] for a float: truncation towards zero. *)
Definition int_of_float (x : Q) : Z := Z.quot (Qnum x) (Z.pos (Qden x)).

Definition default_response : string := "Input processed - no action required".

Definition _generate_ucp_response (core_result : UcpCore.ProcessResult)
  (problems : list ProblemId.DetectedProblem) (solutions : list SolutionSummary)
  : string :=
  let logical_chain := UcpCore.logical_chain core_result in
  let parts :=
    if truthy (UcpCore.conclusion logical_chain)
    then [UcpCore.conclusion logical_chain] else [] in
  let parts :=
    match problems with
    | [] => parts
    | _ :: _ =>
        (parts ++ [("Detected " ++ SolutionGen.str_of_int (Z.of_nat (List.length problems))
                    ++ " optimization opportunities")%string])%list
    end in
  let parts :=
    match solutions with
    | [] => parts
    | _ :: _ =>
        (parts ++ [("Generated " ++ SolutionGen.str_of_int (Z.of_nat (List.length solutions))
                    ++ " autonomous solutions")%string])%list
    end in
  let total_enhancement := zsum (map summary_connection_enhancement solutions) in
  let parts :=
    if (0 <? total_enhancement)%Z
    then (parts ++ [("Connection enhancement: +"
                     ++ SolutionGen.str_of_int total_enhancement)%string])%list
    else parts in
  match parts with
  | [] => default_response
  | _ :: _ => join ". " parts
  end.

Section Runtime.
Context {rt : PyRuntime} {ph : PlanHash}.

(** The loop of [process_input] over the first problems: the summaries, the
    summed enhancement and the generator afterwards. *)
Fixpoint solve_each (generator : SolutionGen.SolutionGenerator)
  (problems : list ProblemId.DetectedProblem)
  (generated_solutions : list SolutionSummary) (total_connection_enhancement : Z)
  : outcome (list SolutionSummary * Z * SolutionGen.SolutionGenerator) :=
  match problems with
  | [] => Returns (generated_solutions, total_connection_enhancement, generator)
  | problem :: rest =>
      r <- SolutionGen.generate_solution generator problem ;;
      let '(solution, generator) := r in
      let summary :=
        {| summary_problem_id := ProblemId.id problem;
           summary_problem_description := ProblemId.description problem;
           summary_solution_approach := SolutionGen.approach solution;
           implementation_preview :=
             firstn 3 (SolutionGen.implementation_plan solution);
           summary_connection_enhancement := SolutionGen.connection_enhancement solution;
           summary_confidence := SolutionGen.confidence_score solution;
           summary_execution_time := SolutionGen.execution_time_estimate solution |} in
      solve_each generator rest (generated_solutions ++ [summary])%list
        (total_connection_enhancement + SolutionGen.connection_enhancement solution)%Z
  end.

(** [process_input]; [session_start] and [finish] are the two readings of
    [time.time()]. *)
Definition process_input (self : UCPSystem) (session_start finish : Q)
  (input_text : string) (enable_autonomous : bool)
  : outcome (InputResult * UCPSystem) :=
  let core_result := UcpCore.process input_text in
  let generator := solution_generator self in
  r <- ProblemId.analyze_text_for_problems
         (SolutionGen.problem_detector generator) input_text "user_input" ;;
  let '(detected_problems, detector) := r in
  let generator :=
    {| SolutionGen.problem_detector := detector;
       SolutionGen.generated_solutions := SolutionGen.generated_solutions generator |} in
  r' <- (match detected_problems with
         | _ :: _ =>
             if enable_autonomous
             then solve_each generator (firstn 3 detected_problems) [] 0%Z
             else Returns ([], 0%Z, generator)
         | [] => Returns ([], 0%Z, generator)
         end) ;;
  let '(generated_solutions, total_connection_enhancement, generator) := r' in
  let compressed_response :=
    _generate_ucp_response core_result detected_problems generated_solutions in
  let compression := UcpCore.compression core_result in
  let session :=
    {| id := "ucp_" ++ SolutionGen.str_of_int (int_of_float session_start);
       start_time := session_start;
       enhancement_score := UcpCore.enhancement_score core_result;
       problems_identified := List.length detected_problems;
       solutions_generated := List.length generated_solutions;
       connection_enhancement := total_connection_enhancement;
       compression_ratio := UcpCore.compression_ratio compression;
       logical_coherence := UcpCore.logical_coherence compression |} in
  Returns
    ({| session_id := id session;
        ucp_enhancement_score := UcpCore.enhancement_score core_result;
        ucp_compression_ratio := UcpCore.compression_ratio compression;
        ucp_logical_coherence := UcpCore.logical_coherence compression;
        ucp_bias_detection := UcpCore.bias_detection core_result;
        ucp_connection_axiom_valid := UcpCore.connection_axiom_valid core_result;
        problems_detected := List.length detected_problems;
        result_solutions_generated := List.length generated_solutions;
        total_connection_enhancement := total_connection_enhancement;
        compressed_response := compressed_response;
        detailed_problems :=
          map (fun p =>
                 {| detail_id := ProblemId.id p;
                    detail_description := ProblemId.description p;
                    detail_domain := ProblemId.domain p;
                    detail_urgency := ProblemId.urgency_score p;
                    detail_connection_impact := ProblemId.connection_impact p |})
              detected_problems;
        generated_solutions := generated_solutions;
        execution_time_ms := ((finish - session_start) * 1000)%Q |},
     {| solution_generator := generator;
        session_history := (session_history self ++ [session])%list;
        autonomous_mode := autonomous_mode self |}).

End Runtime.

End UcpSystem.


(* ------------------------------------------------------------------ *)
(** * Reference definitions for the properties *)

Module Reference.
Import PyStr PyNum PyVal PatternLib.





(** A runtime to run the definitions with: the digest and the hash are
    stand-ins, a set is iterated in order of first insertion. *)
Definition plain_runtime : PyRuntime :=
  {| md5_hexdigest := fun s => s;
     py_hash := fun s => Z.of_nat (String.length s);
     set_to_list := nodup string_dec;
     set_to_list_perm := fun l => Permutation_refl (nodup string_dec l) |}.

(** Two stored patterns of the bootstrap kind. *)
Definition pattern_a : SolutionPattern :=
  {| id := "0a1b2c3d"; problem_domain := "efficiency";
     solution_approach := "compression";
     implementation_steps := ["Create bias detection system"; "Compress information density"];
     success_metrics := []; prerequisites := [];
     connections_enhanced := 1%Z; confidence_score := 0.1%Q; source := "ucp_core" |}.

Definition pattern_b : SolutionPattern :=
  {| id := "4e5f6a7b"; problem_domain := "automation";
     solution_approach := "automation";
     implementation_steps := ["Build pattern library"; "create bias detection system"];
     success_metrics := ["faster"]; prerequisites := ["needs a pattern store"];
     connections_enhanced := 0%Z; confidence_score := 0.3%Q; source := "pattern_library" |}.

Definition library_ab : PatternLibrary :=
  {| storage_path := "patterns.json";
     patterns := [("0a1b2c3d", pattern_a); ("4e5f6a7b", pattern_b)];
     problem_signatures := [] |}.


(** A call that returns at most [bound] items or raises [ValueError]. *)
Definition bounded_or_value_error {A : Type} (bound : nat) (r : outcome (list A)) : Prop :=
  match r with
  | Returns l => List.length l <= bound
  | Raises e => e = ValueError
  | Untyped => False
  end.


(** No keyword of any indicator category occurs, ignoring case, in any
    sentence of the text. *)
Definition indicator_free (text : string) : bool :=
  forallb
    (fun sentence =>
       forallb (fun '(_, keywords) =>
                  forallb (fun keyword => negb (str_in (lower keyword) (lower sentence)))
                          keywords)
               ProblemId.problem_indicators)
    (UcpCore.sentences_of text).

(** A detector over the two-pattern library that has detected nothing yet. *)
Definition detector_ab : ProblemId.ProblemDetector :=
  {| ProblemId.pattern_library := library_ab; ProblemId.detected_problems := [] |}.

(** ** Definitions for the further properties *)

(** A pattern that cannot match the empty string, read off its shape. *)
Fixpoint never_empty (r : Re.regex) : bool :=
  match r with
  | Re.REps | Re.RBound | Re.RStar _ => false
  | Re.RChar _ | Re.RDigit | Re.RWord | Re.RAny => true
  | Re.RSeq r1 r2 => never_empty r1 || never_empty r2
  | Re.RAlt r1 r2 => never_empty r1 && never_empty r2
  | Re.RGroup r' => never_empty r'
  end.




(** Every character of [s] satisfies [q]. *)
Fixpoint all_chars (q : ascii -> bool) (s : string) : bool :=
  match s with
  | EmptyString => true
  | String c s' => q c && all_chars q s'
  end.

(** The keywords behind the pattern tables of ucp_core.py. *)
Definition connection_keywords : list string :=
  ["collaborate"; "connect"; "improve"; "enhance"; "help";
   "cooperate"; "support"; "strengthen"].


(** What choosing a label from a keyword table amounts to: the default
    label when no entry has a keyword in the text, otherwise the label of an
    entry with a hit whose count of keywords found is greater than that of
    every entry before it and not less than that of any entry after it. *)
Definition classified (table : list (string * list string)) (text_lower : string)
  (default result : string) : Prop :=
  (result = default
   /\ Forall (fun entry => count_in (snd entry) text_lower = 0) table)
  \/ (exists before keywords after,
        table = (before ++ (result, keywords) :: after)%list
        /\ 0 < count_in keywords text_lower
        /\ Forall (fun entry =>
                     count_in (snd entry) text_lower < count_in keywords text_lower)
                  before
        /\ Forall (fun entry =>
                     count_in (snd entry) text_lower <= count_in keywords text_lower)
                  after).

(** The key [_deduplicate_problems] compares. *)
Definition problem_key (problem : ProblemId.DetectedProblem) : string :=
  take 50 (lower (ProblemId.description problem)).

(** The string is empty or starts with a character outside [p]. *)
Definition starts_clean (p : ascii -> bool) (s : string) : Prop :=
  match s with
  | EmptyString => True
  | String c _ => p c = false
  end.

(** One step of [max(..., key=...)]: the best item so far is kept unless
    the next one is strictly greater. *)
Definition best_step (best : option (string * nat)) (x : string * nat)
  : option (string * nat) :=
  match best with
  | None => Some x
  | Some b => if snd b <? snd x then Some x else Some b
  end.



(** The steps every pattern-based plan opens and closes with. *)
Definition opening_steps (domain : string) : list string :=
  ["Analyze current state of " ++ domain ++ " systems";
   "Identify all stakeholders and dependencies";
   "Create detailed project plan with milestones"].

Definition closing_steps : list string :=
  ["Test solution with pilot group";
   "Collect feedback and iterate";
   "Create rollout plan for full deployment";
   "Monitor success metrics and adjust as needed";
   "Document lessons learned for pattern library"].


(** A stand-in for the hash of a plan. *)
Definition plain_plan_hash : PlanHash :=
  {| hash_of_plan := fun plan => Z.of_nat (List.length plan) |}.

(** A query for the efficiency domain without constraints. *)
Definition signature_efficiency : ProblemSignature :=
  {| domain := "efficiency"; complexity := "moderate"; constraints := [];
     stakeholders := ["users"]; success_criteria := [] |}.

(** A detected problem of the efficiency domain. *)
Definition problem_slow : ProblemId.DetectedProblem :=
  {| ProblemId.id := "prob_1a2b3c4d";
     ProblemId.description := "Efficiency optimization needed: The build is slow";
     ProblemId.domain := "efficiency";
     ProblemId.urgency_score := 0.5%Q;
     ProblemId.complexity_score := 0.3%Q;
     ProblemId.connection_impact := 2%Z;
     ProblemId.evidence := ["The build is slow"];
     ProblemId.potential_solutions := [];
     ProblemId.stakeholders := ["users"];
     ProblemId.constraints := [] |}.

(** A generator over the two-pattern library, and one over an empty
    library. *)
Definition generator_ab : SolutionGen.SolutionGenerator :=
  {| SolutionGen.problem_detector := detector_ab;
     SolutionGen.generated_solutions := [] |}.

Definition generator_empty : SolutionGen.SolutionGenerator :=
  {| SolutionGen.problem_detector :=
       {| ProblemId.pattern_library := new_library "patterns.json";
          ProblemId.detected_problems := [] |};
     SolutionGen.generated_solutions := [] |}.

End Reference.

(* ------------------------------------------------------------------ *)
(** * Properties of ucp_core.py *)

Section UcpCoreProperties.
Import PyStr Re PyNum UcpCore.

Lemma of_nat_nonneg (n : nat) : (0 <= of_nat n)%Q.
Proof.
  unfold of_nat, Qle; simpl. lia.
Qed.

Lemma ratio_nonneg (a b : nat) : (0 <= of_nat a / of_nat b)%Q.
Proof.
  unfold Qdiv. apply Qmult_le_0_compat.
  - apply of_nat_nonneg.
  - apply Qinv_le_0_compat, of_nat_nonneg.
Qed.

Lemma Qplus_nonneg (a b : Q) : (0 <= a)%Q -> (0 <= b)%Q -> (0 <= a + b)%Q.
Proof.
  intros Ha Hb. lra.
Qed.

Lemma py_max_lower_bound (a b : Q) : (a <= py_max a b)%Q.
Proof.
  unfold py_max, Qltb.
  destruct (Qle_bool b a) eqn:E; simpl.
  - apply Qle_refl.
  - destruct (Qlt_le_dec a b) as [H | H].
    + apply Qlt_le_weak, H.
    + apply Qle_bool_iff in H. congruence.
Qed.

Lemma py_min_upper_bound (a b : Q) : (py_min a b <= a)%Q.
Proof.
  unfold py_min, Qltb.
  destruct (Qle_bool a b) eqn:E; simpl.
  - apply Qle_refl.
  - destruct (Qlt_le_dec b a) as [H | H].
    + apply Qlt_le_weak, H.
    + apply Qle_bool_iff in H. congruence.
Qed.

Lemma py_min_lower_bound (a b c : Q) : (c <= a)%Q -> (c <= b)%Q -> (c <= py_min a b)%Q.
Proof.
  intros Ha Hb. unfold py_min. destruct (Qltb b a); assumption.
Qed.

Lemma compress_fields (text : string) :
  original_length (compress text) = String.length text /\
  compression_ratio (compress text) =
    if 0 <? String.length text
    then (of_nat (compressed_length (compress text)) / of_nat (String.length text))%Q
    else 0%Q.
Proof.
  unfold compress. destruct (strip_bias text) as [compressed total]. simpl. auto.
Qed.

(** C1, as the code has it: the compression ratio is never negative; it is 0
    for the empty text and [compressed_length / original_length] for any
    other.  (No upper bound of 1 is part of this statement.) *)
Theorem compression_ratio_nonnegative (text : string) :
  (0 <= compression_ratio (compress text))%Q /\
  (String.length text = 0 -> compression_ratio (compress text) = 0%Q) /\
  (0 < String.length text ->
   compression_ratio (compress text) =
     (of_nat (compressed_length (compress text)) / of_nat (String.length text))%Q).
Proof.
  destruct (compress_fields text) as [_ Hr]. rewrite Hr.
  destruct (0 <? String.length text) eqn:E.
  - apply Nat.ltb_lt in E. repeat split.
    + apply ratio_nonneg.
    + intros H. lia.
  - apply Nat.ltb_ge in E. repeat split.
    + apply Qle_refl.
    + intros H. lia.
Qed.

Lemma compression_ratio_nonnegative_witness :
  compression_ratio (compress "") = 0%Q /\
  compression_ratio (compress "a") =
    (of_nat (compressed_length (compress "a")) / of_nat (String.length "a"))%Q.
Proof.
  split.
  - apply (proj1 (proj2 (compression_ratio_nonnegative ""))). reflexivity.
  - apply (proj2 (proj2 (compression_ratio_nonnegative "a"))). simpl. lia.
Defined.

(** C1, counterexample: the one-letter text "a" is its own premise and its
    own conclusion, so the compressed text is "a. a" and the ratio is 4. *)
Lemma compression_ratio_above_one :
  String.length "a" = 1 /\
  compressed_length (compress "a") = 4 /\
  (compression_ratio (compress "a") == 4)%Q /\
  ~ (compression_ratio (compress "a") <= 1)%Q.
Proof.
  repeat split; try reflexivity.
  vm_compute. intros H. apply H. reflexivity.
Qed.


(** C9: the enhancement score [process] reports is at least 0.3, whatever
    the text. *)
Theorem enhancement_score_floor (input_text : string) :
  (0.3 <= enhancement_score (process input_text))%Q.
Proof.
  unfold process; simpl. unfold _calculate_enhancement_score.
  apply py_max_lower_bound.
Qed.

(** The two texts of the verification suite. *)
Example harmful_text_rejected :
  validate_connection_axiom
    "We should eliminate inefficient people and dominate the market" = false.
Proof.
  vm_compute. reflexivity.
Qed.

Example collaborative_text_accepted :
  validate_connection_axiom
    "We should collaborate to improve connections and help everyone" = true.
Proof.
  vm_compute. reflexivity.
Qed.

(** The example of the specification: both narrative padding and emotional
    manipulation are counted in "Obviously this is amazing". *)
Example obviously_amazing_is_biased :
  detect_bias "Obviously this is amazing"
  = [ (NARRATIVE_PADDING, 1); (EMOTIONAL_MANIPULATION, 1); (AUTHORITY_APPEAL, 0);
      (CONFIRMATION_SEEKING, 0); (HEDGING_UNCERTAINTY, 0); (VERBOSE_REDUNDANCY, 0) ].
Proof.
  vm_compute. reflexivity.
Qed.

(** A negated sentence followed by its plain form is reported, and the
    confidence drops to 0. *)
Example contradiction_found :
  let chain := extract_logical_chain "not a. a" in
  contradictions chain = ["Contradiction: 'not a' vs 'a'"]
  /\ confidence chain = 0.0%Q.
Proof.
  vm_compute. split; reflexivity.
Qed.

End UcpCoreProperties.

(* ------------------------------------------------------------------ *)
(** * Properties of pattern_library.py *)

Section PatternLibProperties.
Import PyStr Re PyNum PyVal PatternLib Reference.
Context {rt : PyRuntime}.

(** ** Recombination *)

(** C5: with no pattern to recombine, [recombine_patterns] returns the
    dictionary whose only entry is the error message; it is a plain value,
    no exception is involved, whatever the problem context. *)
Theorem recombine_nothing_is_error (problem_context : string) :
  recombine_patterns [] problem_context
    = VDict [("error", VStr "No patterns provided for recombination")]
  /\ exists d message,
       recombine_patterns [] problem_context = VDict d
       /\ dict_get "error" d = Some (VStr message)
       /\ dict_get "recombined_solution" d = None.
Proof.
  split; [reflexivity|].
  eexists; eexists. repeat split.
Qed.

Lemma of_nat_succ (n : nat) : (of_nat (S n) == of_nat n + 1)%Q.
Proof.
  unfold of_nat. rewrite Nat2Z.inj_succ, <- Z.add_1_r, inject_Z_plus. reflexivity.
Qed.

Lemma fold_qplus_bounds (xs : list Q) :
  Forall (fun x => 0 <= x <= 1)%Q xs ->
  forall acc : Q,
    (acc <= fold_left Qplus xs acc)%Q /\
    (fold_left Qplus xs acc <= acc + of_nat (List.length xs))%Q.
Proof.
  induction 1 as [| x xs [Hx0 Hx1] _ IH]; intros acc; simpl.
  - change (of_nat 0) with 0%Q. split; lra.
  - destruct (IH (acc + x)%Q) as [Hlo Hhi].
    pose proof (of_nat_succ (List.length xs)) as Hs.
    split; lra.
Qed.

Lemma of_nat_pos (n : nat) : 0 < n -> (0 < of_nat n)%Q.
Proof.
  intros H. unfold of_nat, Qlt; simpl. lia.
Qed.

Lemma average_in_unit_interval (xs : list Q) :
  xs <> [] ->
  Forall (fun x => 0 <= x <= 1)%Q xs ->
  (0 <= qsum xs / of_nat (List.length xs) <= 1)%Q.
Proof.
  intros Hne Hall.
  assert (Hlen : 0 < List.length xs) by (destruct xs; [congruence | simpl; lia]).
  pose proof (of_nat_pos _ Hlen) as Hpos.
  destruct (fold_qplus_bounds xs Hall 0%Q) as [Hlo Hhi]. fold (qsum xs) in Hlo, Hhi.
  split.
  - apply Qle_shift_div_l; [assumption | lra].
  - apply Qle_shift_div_r; [assumption | lra].
Qed.

Lemma fold_zadd_nonneg (xs : list Z) :
  Forall (fun z => 0 <= z)%Z xs ->
  forall acc : Z, (0 <= acc)%Z -> (0 <= fold_left Z.add xs acc)%Z.
Proof.
  induction 1 as [| x xs Hx _ IH]; intros acc Hacc; simpl.
  - assumption.
  - apply IH. lia.
Qed.

Lemma pattern_confidence_in_unit_interval (problem solution : string) :
  (0 <= _calculate_pattern_confidence problem solution <= 1)%Q.
Proof.
  unfold _calculate_pattern_confidence. split.
  - apply py_min_lower_bound; [unfold Qle; simpl; lia|].
    apply Qplus_nonneg.
    + apply Qmult_le_0_compat; [apply of_nat_nonneg | unfold Qle; simpl; lia].
    + apply Qmult_le_0_compat; [apply of_nat_nonneg | unfold Qle; simpl; lia].
  - eapply Qle_trans; [apply py_min_upper_bound|]. unfold Qle; simpl; lia.
Qed.

(** C8: a pattern built by [extract_pattern] has a confidence score between
    0 and 1; recombining a non-empty list of patterns whose scores are
    between 0 and 1 gives a confidence score between 0 and 1, and a count of
    enhanced connections that is not negative when no input count is. *)
Theorem confidence_and_connections_in_range :
  (forall self problem_description solution_description implementation source,
     let pattern :=
       fst (extract_pattern self problem_description solution_description
              implementation source) in
     (0 <= confidence_score pattern <= 1)%Q)
  /\
  (forall patterns problem_context,
     patterns <> [] ->
     Forall (fun p => 0 <= confidence_score p <= 1)%Q patterns ->
     exists solution q z,
       recombine_patterns patterns problem_context
         = VDict [("recombined_solution", VDict solution)]
       /\ dict_get "confidence_score" solution = Some (VFloat q)
       /\ (0 <= q <= 1)%Q
       /\ dict_get "connections_enhanced" solution = Some (VInt z)
       /\ (Forall (fun p => 0 <= connections_enhanced p)%Z patterns -> (0 <= z)%Z)).
Proof.
  split.
  - intros. subst pattern. unfold extract_pattern; simpl.
    apply pattern_confidence_in_unit_interval.
  - intros patterns problem_context Hne Hall.
    destruct patterns as [| p ps]; [congruence|].
    unfold recombine_patterns.
    eexists; eexists; eexists.
    split; [reflexivity|].
    split; [reflexivity|].
    split.
    + rewrite <- (length_map confidence_score (p :: ps)).
      apply average_in_unit_interval.
      * discriminate.
      * apply Forall_map. exact Hall.
    + split; [reflexivity|].
      intros Hz. apply fold_zadd_nonneg; [|lia].
      apply Forall_map. exact Hz.
Qed.

(** ** Similarity search *)


Lemma insert_desc_perm {A : Type} (x : A * Q) (l : list (A * Q)) :
  Permutation (insert_desc x l) (x :: l).
Proof.
  induction l as [| y l IH]; simpl.
  - apply Permutation_refl.
  - destruct (Qltb (snd x) (snd y)).
    + eapply perm_trans; [apply perm_skip, IH | apply perm_swap].
    + apply Permutation_refl.
Qed.

Lemma sort_desc_perm {A : Type} (l : list (A * Q)) : Permutation (sort_desc l) l.
Proof.
  induction l as [| x l IH]; simpl.
  - apply perm_nil.
  - eapply perm_trans; [apply insert_desc_perm | apply perm_skip, IH].
Qed.





Lemma scored_filter_fst {A : Type} (score : A -> Q) (threshold : Q) (l : list A) :
  map fst (filter (fun '(_, similarity) => Qle_bool threshold similarity)
                  (map (fun x => (x, score x)) l))
  = filter (fun x => Qle_bool threshold (score x)) l.
Proof.
  induction l as [| x l IH]; simpl; [reflexivity|].
  destruct (Qle_bool threshold (score x)); simpl; rewrite IH; reflexivity.
Qed.




(** ** Persistence *)

Lemma all_str_map (l : list string) : all_str (map VStr l) = Returns l.
Proof.
  induction l as [| x l IH]; simpl; [reflexivity|].
  rewrite IH. reflexivity.
Qed.






Lemma load_patterns_nothing_to_read (fs : filesystem) (self : PatternLibrary) :
  fs (storage_path self) = Missing \/ fs (storage_path self) = NotJson ->
  load_patterns fs self = (self, Returns tt).
Proof.
  unfold load_patterns. intros [H | H]; rewrite H; reflexivity.
Qed.

(** C7, as the code has it: when there is no file at the path, or the file
    is not JSON text, creating a library raises nothing and leaves it with
    no pattern and no problem signature. *)
Theorem load_patterns_missing_or_not_json (fs : filesystem) (path : string) :
  fs path = Missing \/ fs path = NotJson ->
  init path fs = (new_library path, Returns tt)
  /\ patterns (fst (init path fs)) = []
  /\ problem_signatures (fst (init path fs)) = [].
Proof.
  intros H. unfold init.
  rewrite (load_patterns_nothing_to_read fs (new_library path) H).
  repeat split.
Qed.

(** C7, counterexample: a pattern file that holds the JSON text [[]] (a list
    where an object is expected) is read without a decoding error; the call
    of [get] on the list raises [AttributeError], which the [except] clause
    does not name. *)
Lemma load_patterns_wrong_shape_raises :
  init "patterns.json" (fun _ => Document (VList []))
    = (new_library "patterns.json", Raises AttributeError)
  /\ snd (init "patterns.json" (fun _ => Document (VList []))) <> Returns tt.
Proof.
  split; [reflexivity | discriminate].
Qed.

End PatternLibProperties.

Section PatternLibExamples.
Import PyStr PyNum PyVal PatternLib Reference.

(** A file whose second entry lacks its fields: the first pattern is stored,
    then the constructor raises [TypeError], which is not handled either. *)
Example load_patterns_stops_midway :
  init "patterns.json"
       (fun _ => Document
          (VDict [("patterns",
                   VDict [("0a1b2c3d", asdict_pattern pattern_a);
                          ("4e5f6a7b", VDict [])])]))
  = ({| storage_path := "patterns.json";
        patterns := [("0a1b2c3d", pattern_a)];
        problem_signatures := [] |},
     Raises TypeError).
Proof.
  reflexivity.
Qed.


Lemma load_patterns_missing_or_not_json_witness :
  init "patterns.json" (fun _ => NotJson) = (new_library "patterns.json", Returns tt).
Proof.
  apply (load_patterns_missing_or_not_json (fun _ => NotJson) "patterns.json").
  right. reflexivity.
Defined.

Lemma confidence_and_connections_in_range_witness :
  exists solution q z,
    recombine_patterns (rt := plain_runtime) [pattern_a; pattern_b] "slow builds"
      = VDict [("recombined_solution", VDict solution)]
    /\ dict_get "confidence_score" solution = Some (VFloat q)
    /\ (0 <= q <= 1)%Q
    /\ dict_get "connections_enhanced" solution = Some (VInt z)
    /\ (0 <= z)%Z.
Proof.
  destruct (proj2 (confidence_and_connections_in_range (rt := plain_runtime))
              [pattern_a; pattern_b] "slow builds")
    as (solution & q & z & H1 & H2 & H3 & H4 & H5).
  - discriminate.
  - repeat constructor; simpl; unfold Qle; simpl; lia.
  - exists solution, q, z. repeat split; try assumption; try apply H3.
    apply H5. repeat constructor; simpl; lia.
Defined.

End PatternLibExamples.

(* ------------------------------------------------------------------ *)
(** * Properties of problem_identifier.py *)

Section ProblemIdProperties.
Import PyStr Re PyNum PyVal ProblemId Reference.
Context {rt : PyRuntime}.

Lemma indicator_free_spec (text : string) :
  indicator_free text = true <->
  (forall sentence indicator_type keywords keyword,
     In sentence (UcpCore.sentences_of text) ->
     In (indicator_type, keywords) problem_indicators ->
     In keyword keywords ->
     str_in (lower keyword) (lower sentence) = false).
Proof.
  unfold indicator_free. rewrite forallb_forall. split.
  - intros H sentence t kws k Hs Ht Hk.
    specialize (H sentence Hs). rewrite forallb_forall in H.
    specialize (H (t, kws) Ht). simpl in H. rewrite forallb_forall in H.
    apply negb_true_iff, H, Hk.
  - intros H sentence Hs. apply forallb_forall. intros [t kws] Ht.
    apply forallb_forall. intros k Hk. apply negb_true_iff. eauto.
Qed.

Lemma indicator_keywords_lowercase (indicator_type : string)
  (keywords : list string) (keyword : string) :
  In (indicator_type, keywords) problem_indicators ->
  In keyword keywords ->
  lower keyword = keyword.
Proof.
  assert (H : forallb (fun '(_, kws) => forallb (fun k => String.eqb (lower k) k) kws)
                problem_indicators = true) by (vm_compute; reflexivity).
  rewrite forallb_forall in H. intros Ht Hk.
  specialize (H _ Ht). simpl in H. rewrite forallb_forall in H.
  apply String.eqb_eq, H, Hk.
Qed.

Lemma flat_map_nil {A B : Type} (f : A -> list B) (l : list A) :
  (forall x, In x l -> f x = []) -> flat_map f l = [].
Proof.
  induction l as [| x l IH]; simpl; intros H; [reflexivity|].
  rewrite (H x (or_introl eq_refl)), IH; [reflexivity|].
  intros y Hy. apply H. right. exact Hy.
Qed.

Lemma filter_nil {A : Type} (f : A -> bool) (l : list A) :
  (forall x, In x l -> f x = false) -> filter f l = [].
Proof.
  induction l as [| x l IH]; simpl; intros H; [reflexivity|].
  rewrite (H x (or_introl eq_refl)). apply IH.
  intros y Hy. apply H. right. exact Hy.
Qed.

Lemma detect_indicators_none (sentence_lower : string) :
  (forall indicator_type keywords keyword,
     In (indicator_type, keywords) problem_indicators ->
     In keyword keywords ->
     str_in keyword sentence_lower = false) ->
  detect_indicators sentence_lower = [].
Proof.
  intros H. unfold detect_indicators. apply flat_map_nil.
  intros [t kws] Ht. unfold those_in.
  rewrite filter_nil; [reflexivity|]. intros k Hk. eapply H; eassumption.
Qed.

Lemma detect_all_none (self : ProblemDetector) (source : string)
  (sentences : list string) :
  (forall sentence, In sentence sentences -> detect_indicators (lower sentence) = []) ->
  detect_all self sentences source = Returns [].
Proof.
  induction sentences as [| sentence rest IH]; simpl; intros H; [reflexivity|].
  unfold _extract_problems_from_sentence.
  rewrite (H sentence (or_introl eq_refl)). simpl.
  rewrite IH; [reflexivity|]. intros s Hs. apply H. right. exact Hs.
Qed.

(** C4: when no keyword of the six indicator categories occurs, ignoring
    case, in any sentence of the text, [analyze_text_for_problems] returns
    the empty list (and records nothing in the detector). *)
Theorem no_indicator_no_problem (self : ProblemDetector) (text source : string) :
  (forall sentence indicator_type keywords keyword,
     In sentence (UcpCore.sentences_of text) ->
     In (indicator_type, keywords) problem_indicators ->
     In keyword keywords ->
     str_in (lower keyword) (lower sentence) = false) ->
  analyze_text_for_problems self text source = Returns ([], self).
Proof.
  intros H. unfold analyze_text_for_problems.
  rewrite detect_all_none.
  - destruct self. reflexivity.
  - intros sentence Hs. apply detect_indicators_none.
    intros t kws k Ht Hk.
    rewrite <- (indicator_keywords_lowercase t kws k Ht Hk).
    eapply H; eassumption.
Qed.

Lemma connection_impact_shape (sentence : string) :
  (exists z, _calculate_connection_impact sentence = Returns z)
  \/ _calculate_connection_impact sentence = Raises ValueError.
Proof.
  unfold _calculate_connection_impact.
  destruct (findall (RPlus RDigit) sentence) as [| n ns]; [left; eexists; reflexivity|].
  destruct (filter _ _) as [| z zs]; simpl; [right; reflexivity | left; eexists; reflexivity].
Qed.

Lemma extract_at_most_one (self : ProblemDetector) (sentence source : string) :
  bounded_or_value_error 1 (_extract_problems_from_sentence self sentence source).
Proof.
  unfold _extract_problems_from_sentence.
  destruct (detect_indicators (lower sentence)) as [| i others]; simpl; [lia|].
  destruct (connection_impact_shape sentence) as [[z Hz] | Hz]; rewrite Hz; simpl;
    [lia | reflexivity].
Qed.

Lemma detect_all_bounded (self : ProblemDetector) (source : string)
  (sentences : list string) :
  bounded_or_value_error (List.length sentences) (detect_all self sentences source).
Proof.
  induction sentences as [| sentence rest IH]; simpl; [lia|].
  pose proof (extract_at_most_one self sentence source) as H1.
  destruct (_extract_problems_from_sentence self sentence source) as [ps | e |];
    simpl in *; [| assumption | contradiction].
  destruct (detect_all self rest source) as [ds | e |]; simpl in *;
    [| assumption | contradiction].
  rewrite length_app. lia.
Qed.

Lemma dedup_from_length (seen : list string) (problems : list DetectedProblem) :
  List.length (dedup_from seen problems) <= List.length problems.
Proof.
  revert seen. induction problems as [| p ps IH]; intros seen; simpl; [lia|].
  destruct (mem _ seen); simpl.
  - specialize (IH seen). lia.
  - specialize (IH (take 50 (lower (description p)) :: seen)). lia.
Qed.

Lemma strip_empty_of_empty (s : string) : truthy (strip s) = true -> truthy s = true.
Proof.
  destruct s; simpl; [discriminate | reflexivity].
Qed.

Lemma filter_map_length {A B : Type} (f : B -> bool) (g : A -> B) (h : A -> bool)
  (l : list A) :
  (forall x, f (g x) = true -> h x = true) ->
  List.length (filter f (map g l)) <= List.length (filter h l).
Proof.
  intros H. induction l as [| x l IH]; simpl; [lia|].
  destruct (f (g x)) eqn:E.
  - rewrite (H x E). simpl. lia.
  - destruct (h x); simpl; lia.
Qed.

(** C10: a sentence yields at most one problem, however many indicators it
    matches, so the list [analyze_text_for_problems] returns is no longer
    than the list of sentences, which is no longer than the list of
    non-empty pieces between the marks [.], [!] and [?].  The only other way
    the calls end is the [ValueError] of [max] over no number below 1000. *)
Theorem at_most_one_problem_per_sentence (self : ProblemDetector)
  (text source : string) :
  (forall sentence,
     match _extract_problems_from_sentence self sentence source with
     | Returns problems => List.length problems <= 1
     | Raises e => e = ValueError
     | Untyped => False
     end)
  /\ match analyze_text_for_problems self text source with
     | Returns (unique_problems, _) =>
         List.length unique_problems <= List.length (UcpCore.sentences_of text)
     | Raises e => e = ValueError
     | Untyped => False
     end
  /\ List.length (UcpCore.sentences_of text)
     <= List.length (filter truthy (split_on (fun c => char_in c ".!?") text)).
Proof.
  split; [|split].
  - intros sentence. apply (extract_at_most_one self sentence source).
  - unfold analyze_text_for_problems.
    pose proof (detect_all_bounded self source (UcpCore.sentences_of text)) as H.
    destruct (detect_all self (UcpCore.sentences_of text) source) as [ds | e |];
      simpl in *; [| assumption | contradiction].
    unfold _deduplicate_problems.
    pose proof (dedup_from_length [] ds). lia.
  - unfold UcpCore.sentences_of. apply filter_map_length. apply strip_empty_of_empty.
Qed.

End ProblemIdProperties.

Section ProblemIdExamples.
Import PyStr PyNum PyVal ProblemId Reference.

Lemma no_indicator_no_problem_witness :
  analyze_text_for_problems (rt := plain_runtime) detector_ab "All good. Fine!" "input"
  = Returns ([], detector_ab).
Proof.
  apply (no_indicator_no_problem (rt := plain_runtime) detector_ab "All good. Fine!" "input").
  apply indicator_free_spec. vm_compute. reflexivity.
Defined.

(** A sentence whose only number is 1000 or more: the maximum is taken over
    an empty sequence and the analysis raises. *)
Example analyze_raises_on_large_number :
  analyze_text_for_problems (rt := plain_runtime) detector_ab "slow 5000" "input"
  = Raises ValueError.
Proof.
  vm_compute. reflexivity.
Qed.

(** The sentence of the verification suite: one problem, classified
    coordination (first of the two domains that tie), urgency 0.2. *)
Example analyze_crashes_sentence :
  match analyze_text_for_problems (rt := plain_runtime) detector_ab
          "Our system frequently crashes and teams can't coordinate effectively"
          "verification" with
  | Returns ([problem], _) =>
      domain problem = "coordination"
      /\ (urgency_score problem == 0.2)%Q
      /\ constraints problem = ["coordinate"]
  | _ => False
  end.
Proof.
  vm_compute. repeat split.
Qed.

End ProblemIdExamples.

(* ------------------------------------------------------------------ *)
(** * Further properties: the matcher *)

Section MatcherProperties.
Import PyStr Re PyNum Reference.

(** Whatever a match returns, the continuation returned it, on a rest of
    the input that is no longer, and shorter if the pattern cannot match the
    empty string. *)
Lemma rx_match_continues {R : Type} (r : regex) :
  forall (prev : option ascii) (s : string) (cap : option string)
         (k : option ascii -> string -> option string -> option R) (x : R),
    rx_match r prev s cap k = Some x ->
    exists prev' s' cap',
      k prev' s' cap' = Some x
      /\ String.length s' <= String.length s
      /\ (never_empty r = true -> String.length s' < String.length s).
Proof.
  induction r as [| c | | | | | r1 IH1 r2 IH2 | r1 IH1 r2 IH2 | r IH | r IH];
    intros prev s cap k x H; simpl in H.
  - exists prev, s, cap. repeat split; [assumption | lia | discriminate].
  - destruct s as [| a s]; simpl in H; [discriminate|].
    destruct (ci_eq a c); [|discriminate].
    exists (Some a), s, cap. simpl. repeat split; [assumption | lia | lia].
  - destruct s as [| a s]; simpl in H; [discriminate|].
    destruct (is_digit a); [|discriminate].
    exists (Some a), s, cap. simpl. repeat split; [assumption | lia | lia].
  - destruct s as [| a s]; simpl in H; [discriminate|].
    destruct (is_word a); [|discriminate].
    exists (Some a), s, cap. simpl. repeat split; [assumption | lia | lia].
  - destruct s as [| a s]; simpl in H; [discriminate|].
    destruct (negb (ord a =? 10)); [|discriminate].
    exists (Some a), s, cap. simpl. repeat split; [assumption | lia | lia].
  - destruct (xorb (word_before prev) (word_at s)); [|discriminate].
    exists prev, s, cap. repeat split; [assumption | lia | discriminate].
  - apply IH1 in H. destruct H as (p1 & s1 & c1 & H & Hle1 & Hlt1).
    apply IH2 in H. destruct H as (p2 & s2 & c2 & H & Hle2 & Hlt2).
    exists p2, s2, c2. repeat split; [assumption | lia |].
    simpl. intros Hne. apply orb_true_iff in Hne. destruct Hne as [Hne | Hne].
    + specialize (Hlt1 Hne). lia.
    + specialize (Hlt2 Hne). lia.
  - simpl. destruct (rx_match r1 prev s cap k) as [y |] eqn:E.
    + inversion H; subst y. apply IH1 in E.
      destruct E as (p1 & s1 & c1 & E & Hle & Hlt).
      exists p1, s1, c1. repeat split; [assumption | lia |].
      intros Hne. apply andb_true_iff in Hne. apply Hlt, Hne.
    + apply IH2 in H. destruct H as (p2 & s2 & c2 & H & Hle & Hlt).
      exists p2, s2, c2. repeat split; [assumption | lia |].
      intros Hne. apply andb_true_iff in Hne. apply Hlt, Hne.
  - simpl.
    assert (Hstar : exists prev' s' cap',
               k prev' s' cap' = Some x /\ String.length s' <= String.length s).
    { revert H. generalize (String.length s) at 1. intros fuel.
      revert prev s cap. induction fuel as [| fuel IHf]; intros prev s cap H.
      - exists prev, s, cap. split; [assumption | lia].
      - match type of H with
        | match ?m with _ => _ end = _ => destruct m as [y |] eqn:E
        end.
        + inversion H; subst y. apply IH in E.
          destruct E as (p1 & s1 & c1 & E & Hle & _).
          destruct (String.length s1 <? String.length s) eqn:Hlt; [|discriminate].
          apply IHf in E. destruct E as (p2 & s2 & c2 & E & Hle2).
          exists p2, s2, c2. split; [assumption | lia].
        + exists prev, s, cap. split; [assumption | lia]. }
    destruct Hstar as (p' & s' & c' & Hk & Hle).
    exists p', s', c'. repeat split; [assumption | assumption | discriminate].
  - apply IH in H. destruct H as (p1 & s1 & c1 & H & Hle & Hlt).
    eexists p1, s1, _. repeat split; [exact H | lia | exact Hlt].
Qed.

Lemma match_here_consumes (r : regex) (prev : option ascii) (s : string)
  (n : nat) (item : string) :
  match_here r prev s = Some (n, item) ->
  n <= String.length s /\ (never_empty r = true -> 1 <= n).
Proof.
  unfold match_here. intros H. apply rx_match_continues in H.
  destruct H as (p' & s' & c' & H & Hle & Hlt).
  inversion H; subst. split; [lia|]. intros Hne. specialize (Hlt Hne). lia.
Qed.

(** The matches found and the characters left by their removal fit
    together in the text. *)
Lemma scan_count_bound (r : regex) :
  never_empty r = true ->
  forall (s : string) (skip : nat) (prev : option ascii),
    List.length (scan_findall r skip prev s) + String.length (scan_remove r skip prev s)
    <= String.length s.
Proof.
  intros Hne. induction s as [| c s IH]; intros skip prev.
  - destruct skip; simpl; [|lia].
    destruct (match_here r prev "") as [[n item] |] eqn:E; simpl; [|lia].
    apply match_here_consumes in E. destruct E as [Hle Hpos].
    specialize (Hpos Hne). simpl in Hle. lia.
  - destruct skip as [| skip]; simpl.
    + destruct (match_here r prev (String c s)) as [[n item] |] eqn:E.
      * apply match_here_consumes in E. destruct E as [_ Hpos].
        specialize (Hpos Hne). destruct n as [| n]; [lia|].
        simpl. rewrite Nat.sub_0_r. specialize (IH n (Some c)). lia.
      * simpl. specialize (IH 0 (Some c)). lia.
    + specialize (IH skip (Some c)). lia.
Qed.

Lemma findall_and_remove_fit (r : regex) (s : string) :
  never_empty r = true ->
  List.length (findall r s) + String.length (remove r s) <= String.length s.
Proof.
  intros Hne. apply scan_count_bound, Hne.
Qed.

(** ** Literal patterns *)











End MatcherProperties.

(* ------------------------------------------------------------------ *)
(** * Further properties of ucp_core.py *)

Section UcpCoreFurther.
Import PyStr Re PyNum UcpCore Reference.

Lemma of_nat_le (a b : nat) : a <= b -> (of_nat a <= of_nat b)%Q.
Proof.
  intros H. unfold of_nat, Qle; simpl. lia.
Qed.

Lemma fraction_in_unit (a b : nat) :
  a <= b -> (0 <= of_nat a / of_nat b <= 1)%Q.
Proof.
  intros H. split; [apply ratio_nonneg|].
  destruct b as [| b].
  - replace a with 0 by lia. unfold Qle; simpl; lia.
  - apply Qle_shift_div_r; [apply of_nat_pos; lia|].
    rewrite Qmult_1_l. apply of_nat_le, H.
Qed.

Lemma strlen_app (a b : string) :
  String.length (a ++ b) = String.length a + String.length b.
Proof.
  induction a as [| c a IH]; simpl; [reflexivity | rewrite IH; reflexivity].
Qed.

Lemma join_length_ge (sep : string) (parts : list string) :
  list_sum (map String.length parts) <= String.length (join sep parts).
Proof.
  induction parts as [| x rest IH]; simpl; [lia|].
  destruct rest as [| y rest]; [simpl; lia|].
  rewrite !strlen_app. simpl in IH |- *. lia.
Qed.

Lemma count_le_total_length (parts : list string) :
  Forall (fun s => truthy s = true) parts ->
  List.length parts <= list_sum (map String.length parts).
Proof.
  induction 1 as [| x rest Hx _ IH]; simpl; [lia|].
  destruct x; [discriminate | simpl; lia].
Qed.

Lemma list_sum_app_middle (a b c : list string) :
  list_sum (map String.length b)
  <= list_sum (map String.length (a ++ b ++ c)%list).
Proof.
  rewrite !map_app, !list_sum_app. lia.
Qed.

Lemma sentences_truthy (text : string) :
  Forall (fun s => truthy s = true) (sentences_of text).
Proof.
  apply Forall_forall. intros s H. unfold sentences_of in H.
  apply filter_In in H. apply H.
Qed.

Lemma in_removelast {A : Type} (x : A) (l : list A) : In x (removelast l) -> In x l.
Proof.
  induction l as [| y l IH]; simpl; [tauto|].
  destruct l as [| z l]; [simpl; tauto|].
  intros [H | H]; [left; exact H | right; apply IH, H].
Qed.

Lemma in_middle (x : string) (l : list string) : In x (middle l) -> In x l.
Proof.
  unfold middle. intros H. apply in_removelast in H.
  destruct l; [exact H | right; exact H].
Qed.

Lemma reasoning_in_sentences (text : string) (s : string) :
  In s (reasoning (extract_logical_chain text)) -> In s (sentences_of text).
Proof.
  unfold extract_logical_chain; simpl.
  destruct (filter _ (sentences_of text)) as [| r rs] eqn:E.
  - destruct (2 <? List.length (sentences_of text)); [apply in_middle | simpl; tauto].
  - rewrite <- E. intros H. apply filter_In in H. apply H.
Qed.

Lemma compress_via_chain (text : string) :
  let chain := extract_logical_chain (fst (strip_bias text)) in
  let core_logic :=
    ((if truthy (premise chain) then [premise chain] else [])
     ++ reasoning chain
     ++ (if truthy (conclusion chain) then [conclusion chain] else []))%list in
  compressed_length (compress text) = String.length (join ". " core_logic)
  /\ information_density (compress text)
     = (if 0 <? String.length (join ". " core_logic)
        then (of_nat (List.length (reasoning chain))
              / of_nat (String.length (join ". " core_logic)))%Q
        else 0%Q)
  /\ bias_score (compress text)
     = (if 0 <? String.length text
        then (of_nat (snd (strip_bias text)) / of_nat (String.length text))%Q
        else 0%Q)
  /\ logical_coherence (compress text) = confidence chain.
Proof.
  unfold compress. destruct (strip_bias text) as [compressed total]. simpl.
  repeat split.
Qed.

(** X1: the information density [compress] reports (reasoning sentences per
    character of the compressed text) lies between 0 and 1. *)
Theorem information_density_in_unit_interval (text : string) :
  (0 <= information_density (compress text) <= 1)%Q.
Proof.
  destruct (compress_via_chain text) as (_ & Hd & _). rewrite Hd. clear Hd.
  set (chain := extract_logical_chain (fst (strip_bias text))).
  match goal with |- context [join ". " ?l] => set (core_logic := l) end.
  destruct (0 <? String.length (join ". " core_logic));
    [| split; unfold Qle; simpl; lia].
  apply fraction_in_unit.
  eapply Nat.le_trans; [| apply join_length_ge].
  eapply Nat.le_trans; [| apply list_sum_app_middle].
  apply count_le_total_length.
  apply Forall_forall. intros s Hs.
  apply reasoning_in_sentences in Hs.
  pose proof (sentences_truthy (fst (strip_bias text))) as Hall.
  rewrite Forall_forall in Hall. apply Hall, Hs.
Qed.


Lemma strip_fold_bound (patterns : list regex) :
  Forall (fun r => never_empty r = true) patterns ->
  forall acc : string * nat,
    snd (fold_left strip_step patterns acc)
    + String.length (fst (fold_left strip_step patterns acc))
    <= snd acc + String.length (fst acc).
Proof.
  induction 1 as [| r rs Hr _ IH]; intros [compressed total]; simpl; [lia|].
  eapply Nat.le_trans; [apply IH|]. simpl.
  pose proof (findall_and_remove_fit r compressed Hr). lia.
Qed.

Lemma strip_bias_bound (text : string) :
  snd (strip_bias text) + String.length (fst (strip_bias text)) <= String.length text.
Proof.
  unfold strip_bias.
  eapply Nat.le_trans; [apply strip_fold_bound | simpl; lia].
  apply Forall_forall. intros r Hr.
  assert (H : forallb never_empty (List.concat (map snd bias_patterns)) = true)
    by (vm_compute; reflexivity).
  rewrite forallb_forall in H. apply H, Hr.
Qed.

(** X2: the bias score [compress] reports (bias matches per character of
    the input) lies between 0 and 1: every match is deleted from the text
    before the next pattern is counted, so the matches never outnumber the
    characters. *)
Theorem bias_score_in_unit_interval (text : string) :
  (0 <= bias_score (compress text) <= 1)%Q.
Proof.
  destruct (compress_via_chain text) as (_ & _ & Hb & _). rewrite Hb.
  destruct (0 <? String.length text); [| split; unfold Qle; simpl; lia].
  apply fraction_in_unit.
  pose proof (strip_bias_bound text). lia.
Qed.

Lemma confidence_cases (reasoning contradictions : list string) :
  (contradictions <> [] /\ _calculate_confidence reasoning contradictions = 0.0%Q)
  \/ (contradictions = []
      /\ (0.5 <= _calculate_confidence reasoning contradictions <= 1)%Q).
Proof.
  destruct contradictions as [| c cs]; [right | left; split; [discriminate | reflexivity]].
  split; [reflexivity|]. simpl. split.
  - apply py_min_lower_bound; [unfold Qle; simpl; lia|].
    pose proof (of_nat_nonneg (List.length reasoning)). lra.
  - eapply Qle_trans; [apply py_min_upper_bound | unfold Qle; simpl; lia].
Qed.

Lemma chain_confidence_levels_aux (text : string) :
  let chain := extract_logical_chain text in
  (contradictions chain <> [] /\ confidence chain = 0.0%Q)
  \/ (contradictions chain = [] /\ (0.5 <= confidence chain <= 1)%Q).
Proof.
  unfold extract_logical_chain; simpl. apply confidence_cases.
Qed.

Lemma confidence_at_most_one (text : string) :
  (0 <= confidence (extract_logical_chain text) <= 1)%Q.
Proof.
  destruct (chain_confidence_levels_aux text) as [[_ H] | [_ H]].
  - rewrite H. split; unfold Qle; simpl; lia.
  - split; [|apply H]. eapply Qle_trans; [|apply H]. unfold Qle; simpl; lia.
Qed.

(** X3: the confidence of an extracted logical chain is exactly 0.0 when a
    contradiction was found, and between 0.5 and 1 when none was. *)
Theorem chain_confidence_levels (text : string) :
  let chain := extract_logical_chain text in
  (contradictions chain <> [] /\ confidence chain = 0.0%Q)
  \/ (contradictions chain = [] /\ (0.5 <= confidence chain <= 1)%Q).
Proof.
  apply chain_confidence_levels_aux.
Qed.

Lemma py_max_upper_bound (a b c : Q) : (a <= c)%Q -> (b <= c)%Q -> (py_max a b <= c)%Q.
Proof.
  intros Ha Hb. unfold py_max. destruct (Qltb a b); assumption.
Qed.

Lemma compression_ratio_nonneg_aux (text : string) :
  (0 <= compression_ratio (compress text))%Q.
Proof.
  destruct (compress_fields text) as [_ Hr]. rewrite Hr.
  destruct (0 <? String.length text); [apply ratio_nonneg | apply Qle_refl].
Qed.

Lemma bias_score_nonneg_aux (text : string) : (0 <= bias_score (compress text))%Q.
Proof.
  destruct (compress_via_chain text) as (_ & _ & Hb & _). rewrite Hb.
  destruct (0 <? String.length text); [apply ratio_nonneg | apply Qle_refl].
Qed.

(** X4: the enhancement score [process] reports never exceeds 1, whatever
    the input. *)
Theorem enhancement_score_at_most_one (input_text : string) :
  (enhancement_score (process input_text) <= 1)%Q.
Proof.
  unfold process; simpl. unfold _calculate_enhancement_score.
  apply py_max_upper_bound; [unfold Qle; simpl; lia|].
  pose proof (compression_ratio_nonneg_aux input_text) as Hr.
  pose proof (confidence_at_most_one input_text) as [_ Hc].
  assert (Hp : (0 <= py_min 0.5 (bias_score (compress input_text)))%Q).
  { apply py_min_lower_bound; [unfold Qle; simpl; lia | apply bias_score_nonneg_aux]. }
  apply Qle_shift_div_r; [reflexivity|].
  destruct (validate_connection_axiom input_text); lra.
Qed.

(** ** Sentences *)

Lemma split_on_pieces_avoid (p : ascii -> bool) (s : string) :
  Forall (fun piece => all_chars (fun c => negb (p c)) piece = true) (split_on p s).
Proof.
  induction s as [| c s IH]; simpl.
  - constructor; [reflexivity | constructor].
  - destruct (p c) eqn:E.
    + constructor; [reflexivity | exact IH].
    + destruct (split_on p s) as [| h t].
      * constructor; [simpl; rewrite E; reflexivity | constructor].
      * inversion IH as [| ? ? Hh Ht]; subst.
        constructor; [simpl; rewrite E, Hh; reflexivity | exact Ht].
Qed.

Lemma all_chars_lstrip (q p : ascii -> bool) (s : string) :
  all_chars q s = true -> all_chars q (lstrip_by p s) = true.
Proof.
  induction s as [| c s IH]; simpl; [auto|].
  intros H. destruct (p c); [|exact H].
  apply andb_true_iff in H. apply IH, H.
Qed.

Lemma all_chars_rstrip (q p : ascii -> bool) (s : string) :
  all_chars q s = true -> all_chars q (rstrip_by p s) = true.
Proof.
  induction s as [| c s IH]; simpl; [auto|].
  intros H. apply andb_true_iff in H. destruct H as [Hc Hs].
  destruct (p c && is_empty (rstrip_by p s)); [reflexivity|].
  simpl. rewrite Hc. apply IH, Hs.
Qed.

Lemma rstrip_idempotent (p : ascii -> bool) (s : string) :
  rstrip_by p (rstrip_by p s) = rstrip_by p s.
Proof.
  induction s as [| c s IH]; simpl; [reflexivity|].
  destruct (p c && is_empty (rstrip_by p s)) eqn:E; [reflexivity|].
  simpl. rewrite IH, E. reflexivity.
Qed.

Lemma lstrip_starts_clean (p : ascii -> bool) (s : string) :
  starts_clean p (lstrip_by p s).
Proof.
  induction s as [| c s IH]; simpl; [exact I|].
  destruct (p c) eqn:E; [exact IH | exact E].
Qed.

Lemma rstrip_starts_clean (p : ascii -> bool) (s : string) :
  starts_clean p s -> starts_clean p (rstrip_by p s).
Proof.
  destruct s as [| c s]; simpl; [auto|].
  intros H. rewrite H. simpl. exact H.
Qed.

Lemma lstrip_of_clean (p : ascii -> bool) (s : string) :
  starts_clean p s -> lstrip_by p s = s.
Proof.
  destruct s as [| c s]; simpl; [reflexivity|].
  intros H. rewrite H. reflexivity.
Qed.

Lemma strip_idempotent (s : string) : strip (strip s) = strip s.
Proof.
  unfold strip.
  rewrite (lstrip_of_clean is_space (rstrip_by is_space (lstrip_by is_space s))).
  - apply rstrip_idempotent.
  - apply rstrip_starts_clean, lstrip_starts_clean.
Qed.

(** X5: every sentence the text is cut into is non-empty, has no white
    space at either end (stripping it again changes nothing) and contains
    none of the marks [.], [!], [?]. *)
Theorem sentences_are_clean (text sentence : string) :
  In sentence (sentences_of text) ->
  sentence <> ""
  /\ strip sentence = sentence
  /\ all_chars (fun c => negb (char_in c ".!?")) sentence = true.
Proof.
  unfold sentences_of. intros H. apply filter_In in H. destruct H as [H Ht].
  apply in_map_iff in H. destruct H as (piece & <- & Hp).
  split; [|split].
  - destruct (strip piece); [discriminate | discriminate].
  - apply strip_idempotent.
  - unfold strip. apply all_chars_rstrip, all_chars_lstrip.
    pose proof (split_on_pieces_avoid (fun c => char_in c ".!?") text) as Hall.
    rewrite Forall_forall in Hall. apply Hall, Hp.
Qed.

(** ** Texts without keywords *)








End UcpCoreFurther.

(* ------------------------------------------------------------------ *)
(** * Further properties of pattern_library.py *)

Section PatternLibFurther.
Import PyStr Re PyNum PyVal PatternLib Reference.
Context {rt : PyRuntime}.

(** ** Dictionaries *)

Lemma mem_In (k : string) (l : list string) : mem k l = true <-> In k l.
Proof.
  unfold mem. rewrite existsb_exists. split.
  - intros (x & Hx & E). apply String.eqb_eq in E. subst. exact Hx.
  - intros H. exists k. split; [exact H | apply String.eqb_refl].
Qed.

Lemma dict_get_set_same {V : Type} (k : string) (v : V) (d : dict V) :
  dict_get k (dict_set k v d) = Some v.
Proof.
  induction d as [| [k' v'] d IH]; simpl.
  - rewrite String.eqb_refl. reflexivity.
  - destruct (String.eqb k k') eqn:E; simpl.
    + rewrite String.eqb_refl. reflexivity.
    + rewrite E. exact IH.
Qed.

Lemma dict_get_set_other {V : Type} (k k0 : string) (v : V) (d : dict V) :
  k0 <> k -> dict_get k0 (dict_set k v d) = dict_get k0 d.
Proof.
  intros Hne. apply String.eqb_neq in Hne.
  induction d as [| [k' v'] d IH]; simpl.
  - rewrite Hne. reflexivity.
  - destruct (String.eqb_spec k k') as [<- | Hk]; simpl.
    + rewrite Hne. reflexivity.
    + rewrite IH. reflexivity.
Qed.

Lemma keys_dict_set {V : Type} (k : string) (v : V) (d : dict V) :
  keys (dict_set k v d) = if mem k (keys d) then keys d else (keys d ++ [k])%list.
Proof.
  induction d as [| [k' v'] d IH]; simpl; [reflexivity|].
  destruct (String.eqb_spec k k') as [<- | Hk]; simpl; [reflexivity|].
  unfold keys in *. rewrite IH. unfold mem. destruct (existsb _ _); reflexivity.
Qed.

Lemma keys_dict_set_nodup {V : Type} (k : string) (v : V) (d : dict V) :
  NoDup (keys d) -> NoDup (keys (dict_set k v d)).
Proof.
  intros H. rewrite keys_dict_set. destruct (mem k (keys d)) eqn:E; [exact H|].
  apply NoDup_app; [exact H | repeat constructor; simpl; tauto |].
  intros x Hx [<- | []]. apply mem_In in Hx. congruence.
Qed.

Lemma keys_dict_set_incl {V : Type} (k : string) (v : V) (d : dict V) :
  incl (keys d) (keys (dict_set k v d)).
Proof.
  rewrite keys_dict_set. destruct (mem k (keys d)); [apply incl_refl | apply incl_appl, incl_refl].
Qed.

(** ** Pattern extraction *)

(** X8: [extract_pattern] stores the pattern it returns under the pattern's
    id: looking the id up gives that pattern, every other id keeps what it
    had, ids stay distinct, and the library grows by one entry exactly when
    the id is new (a pattern of the same domain and approach is
    overwritten). *)
Theorem extract_pattern_stores (self : PatternLibrary)
  (problem_description solution_description implementation source : string) :
  let result :=
    extract_pattern self problem_description solution_description implementation source in
  let pattern := fst result in
  let library := snd result in
  dict_get (id pattern) (patterns library) = Some pattern
  /\ (forall pid, pid <> id pattern ->
        dict_get pid (patterns library) = dict_get pid (patterns self))
  /\ (NoDup (keys (patterns self)) -> NoDup (keys (patterns library)))
  /\ List.length (patterns library)
     = (if mem (id pattern) (keys (patterns self))
        then List.length (patterns self) else S (List.length (patterns self)))
  /\ problem_signatures library = problem_signatures self
  /\ storage_path library = storage_path self.
Proof.
  intros result pattern library. subst result pattern library.
  unfold extract_pattern; simpl.
  split; [apply dict_get_set_same|].
  split; [intros pid Hne; apply dict_get_set_other, Hne|].
  split; [apply keys_dict_set_nodup|].
  split; [|split; reflexivity].
  match goal with
  | |- List.length (dict_set ?k ?v ?d) = _ =>
      pose proof (keys_dict_set k v d) as Hk;
      apply (f_equal (@List.length string)) in Hk
  end.
  unfold keys in Hk at 1. rewrite length_map in Hk. rewrite Hk.
  destruct (mem _ _); unfold keys; [apply length_map|].
  rewrite length_app, length_map. simpl. lia.
Qed.

Lemma count_in_bound (keywords : list string) (s : string) :
  count_in keywords s <= List.length keywords.
Proof.
  unfold count_in. apply filter_length_le.
Qed.

Lemma parse_steps_nonempty (implementation : string) :
  _parse_implementation_steps implementation <> [].
Proof.
  unfold _parse_implementation_steps.
  destruct (flat_map _ _); discriminate.
Qed.

(** X9: a pattern built by [extract_pattern] always has at least one
    implementation step (the stripped implementation text itself when no
    line qualifies as a step), and its count of enhanced connections is
    between 0 and 9, the number of connection indicators. *)
Theorem extracted_pattern_fields (self : PatternLibrary)
  (problem_description solution_description implementation source : string) :
  let pattern :=
    fst (extract_pattern self problem_description solution_description
           implementation source) in
  implementation_steps pattern <> []
  /\ (0 <= connections_enhanced pattern <= 9)%Z
  /\ (Forall (fun line => is_step_line (strip line) = false)
             (split_lines implementation) ->
      implementation_steps pattern = [strip implementation]).
Proof.
  intros pattern. subst pattern. unfold extract_pattern; simpl.
  split; [apply parse_steps_nonempty|]. split.
  - unfold _calculate_connection_impact.
    match goal with
    | |- context [count_in ?k ?s] => pose proof (count_in_bound k s) as H
    end.
    simpl in H. lia.
  - intros H. unfold _parse_implementation_steps.
    rewrite flat_map_nil; [reflexivity|].
    intros line Hl. rewrite Forall_forall in H. rewrite (H line Hl). reflexivity.
Qed.

(** ** Choosing a domain *)

Lemma fold_best_from (l : list (string * nat)) :
  forall b : string * nat,
  exists r,
    fold_left best_step l (Some b) = Some r
    /\ snd b <= snd r
    /\ Forall (fun x => snd x <= snd r) l
    /\ (r = b
        \/ exists l1 l2,
             l = (l1 ++ r :: l2)%list
             /\ snd b < snd r
             /\ Forall (fun x => snd x < snd r) l1).
Proof.
  induction l as [| x l IH]; intros b; simpl.
  - exists b. repeat split; [lia | constructor | left; reflexivity].
  - destruct (snd b <? snd x) eqn:E.
    + apply Nat.ltb_lt in E.
      destruct (IH x) as (r & Hf & Hle & Hall & Hor).
      exists r. repeat split; [exact Hf | lia | constructor; assumption |].
      right. destruct Hor as [-> | (l1 & l2 & -> & Hlt & Hl1)].
      * exists [], l. repeat split; [lia | constructor].
      * exists (x :: l1), l2. repeat split; [lia | constructor; assumption].
    + apply Nat.ltb_ge in E.
      destruct (IH b) as (r & Hf & Hle & Hall & Hor).
      exists r. repeat split; [exact Hf | lia | constructor; [lia | assumption] |].
      destruct Hor as [-> | (l1 & l2 & -> & Hlt & Hl1)]; [left; reflexivity|].
      right. exists (x :: l1), l2. repeat split; [lia | constructor; [lia | assumption]].
Qed.

Lemma max_by_score_first_best (l : list (string * nat)) :
  (l = [] /\ max_by_score l = None)
  \/ exists r l1 l2,
       max_by_score l = Some r
       /\ l = (l1 ++ r :: l2)%list
       /\ Forall (fun x => snd x < snd r) l1
       /\ Forall (fun x => snd x <= snd r) l2.
Proof.
  destruct l as [| x l]; [left; split; reflexivity|]. right.
  unfold max_by_score. simpl. fold best_step.
  destruct (fold_best_from l x) as (r & Hf & Hle & Hall & Hor).
  change (fun (best : option (string * nat)) (x0 : string * nat) =>
            match best with
            | Some b => if snd b <? snd x0 then Some x0 else Some b
            | None => Some x0
            end) with best_step.
  destruct Hor as [-> | (l1 & l2 & -> & Hlt & Hl1)].
  - exists x, [], l. repeat split; [exact Hf | constructor | exact Hall].
  - exists r, (x :: l1), l2. repeat split.
    + exact Hf.
    + constructor; assumption.
    + apply Forall_app in Hall. destruct Hall as [_ Hall].
      inversion Hall; assumption.
Qed.

Lemma keyword_scores_split (table : list (string * list string)) (text_lower : string) :
  forall l1 r l2,
    keyword_scores table text_lower = (l1 ++ r :: l2)%list ->
    exists before keywords after,
      table = (before ++ (fst r, keywords) :: after)%list
      /\ snd r = count_in keywords text_lower
      /\ 0 < snd r
      /\ keyword_scores before text_lower = l1
      /\ keyword_scores after text_lower = l2.
Proof.
  unfold keyword_scores.
  induction table as [| [d kws] table IH]; intros l1 r l2 H; simpl in H.
  - destruct l1; discriminate.
  - destruct (0 <? count_in kws text_lower) eqn:E.
    + destruct l1 as [| y l1]; simpl in H; inversion H; subst.
      * exists [], kws, table. repeat split. apply Nat.ltb_lt, E.
      * destruct (IH _ _ _ H2) as (before & keywords & after & -> & Hs & Hp & Hb & Ha).
        exists ((d, kws) :: before), keywords, after. simpl. rewrite E, Hb.
        repeat split; assumption.
    + destruct (IH _ _ _ H) as (before & keywords & after & -> & Hs & Hp & Hb & Ha).
      exists ((d, kws) :: before), keywords, after. simpl. rewrite E.
      repeat split; assumption.
Qed.

Lemma keyword_scores_forall (table : list (string * list string)) (text_lower : string)
  (P : nat -> Prop) :
  P 0 ->
  Forall (fun x => P (snd x)) (keyword_scores table text_lower) ->
  Forall (fun entry => P (count_in (snd entry) text_lower)) table.
Proof.
  unfold keyword_scores. intros H0.
  induction table as [| [d kws] table IH]; simpl; intros H; [constructor|].
  destruct (0 <? count_in kws text_lower) eqn:E.
  - inversion H; subst. constructor; [assumption | apply IH; assumption].
  - apply Nat.ltb_ge in E. constructor; [|apply IH; assumption].
    simpl. replace (count_in kws text_lower) with 0 by lia. exact H0.
Qed.

Lemma classification_is_first_best (table : list (string * list string))
  (text_lower default : string) :
  classified table text_lower default
    (match max_by_score (keyword_scores table text_lower) with
     | Some (d, _) => d
     | None => default
     end).
Proof.
  destruct (max_by_score_first_best (keyword_scores table text_lower))
    as [[Hnil ->] | (r & l1 & l2 & -> & Hsplit & Hl1 & Hl2)].
  - left. split; [reflexivity|].
    apply (keyword_scores_forall table text_lower (fun n => n = 0)); [reflexivity|].
    rewrite Hnil. constructor.
  - right. destruct r as [d n].
    destruct (keyword_scores_split _ _ _ _ _ Hsplit)
      as (before & keywords & after & -> & Hs & Hp & Hb & Ha).
    simpl in *. subst n.
    exists before, keywords, after. repeat split; [exact Hp | |].
    + apply (keyword_scores_forall before text_lower
               (fun n => n < count_in keywords text_lower)); [exact Hp|].
      rewrite Hb. exact Hl1.
    + apply (keyword_scores_forall after text_lower
               (fun n => n <= count_in keywords text_lower)); [lia|].
      rewrite Ha. exact Hl2.
Qed.

(** X10: [_classify_domain] answers "general" when no domain keyword occurs
    in the lowered description; otherwise it answers a domain with at least
    one keyword found, whose number of keywords found is the greatest, and
    among domains that tie, the one declared first in the table. *)
Theorem classify_domain_first_best (problem_description : string) :
  classified domain_keywords (lower problem_description) "general"
    (_classify_domain problem_description).
Proof.
  unfold _classify_domain. apply classification_is_first_best.
Qed.

(** ** Similarity *)

Lemma similarity_in_unit_aux (sig : ProblemSignature) (p : SolutionPattern) :
  (0 <= _calculate_similarity sig p <= 1)%Q.
Proof.
  unfold _calculate_similarity.
  assert (Hf : exists f, (0 <= f <= 1)%Q /\
             f = match constraints sig with
                 | [] => 0.0%Q
                 | _ :: _ =>
                     (of_nat (List.length
                                (filter (fun constraint =>
                                           existsb (fun step =>
                                                      str_in (lower constraint) (lower step))
                                                   (implementation_steps p))
                                        (constraints sig)))
                      / of_nat (List.length (constraints sig)))%Q
                 end).
  { eexists. split; [|reflexivity].
    destruct (constraints sig) as [| c cs]; [split; unfold Qle; simpl; lia|].
    apply fraction_in_unit. apply filter_length_le. }
  destruct Hf as (f & [Hf0 Hf1] & <-).
  destruct (String.eqb (domain sig) (problem_domain p)); split; lra.
Qed.

Lemma find_similar_as_filter (self : PatternLibrary) (sig : ProblemSignature)
  (threshold : Q) :
  Permutation (find_similar_patterns self sig threshold)
    (filter (fun p => Qle_bool threshold (_calculate_similarity sig p))
            (values (patterns self))).
Proof.
  unfold find_similar_patterns.
  eapply perm_trans; [apply Permutation_map, sort_desc_perm|].
  rewrite (scored_filter_fst (_calculate_similarity sig)). apply Permutation_refl.
Qed.

Lemma filter_all {A : Type} (f : A -> bool) (l : list A) :
  (forall x, In x l -> f x = true) -> filter f l = l.
Proof.
  induction l as [| x l IH]; simpl; intros H; [reflexivity|].
  rewrite (H x (or_introl eq_refl)), IH; [reflexivity|].
  intros y Hy. apply H. right. exact Hy.
Qed.

(** X11: the similarity score is always between 0 and 1; hence a threshold
    of 0 or less lets every stored pattern through, and a threshold above 1
    lets none through. *)
Theorem similarity_range_and_extreme_thresholds (self : PatternLibrary)
  (problem_signature : ProblemSignature) (threshold : Q) :
  (forall pattern, 0 <= _calculate_similarity problem_signature pattern <= 1)%Q
  /\ ((threshold <= 0)%Q ->
      Permutation (find_similar_patterns self problem_signature threshold)
                  (values (patterns self)))
  /\ ((1 < threshold)%Q ->
      find_similar_patterns self problem_signature threshold = []).
Proof.
  split; [intros; apply similarity_in_unit_aux|]. split; intros Ht.
  - eapply perm_trans; [apply find_similar_as_filter|].
    rewrite filter_all; [apply Permutation_refl|].
    intros p _. apply Qle_bool_iff.
    destruct (similarity_in_unit_aux problem_signature p) as [H0 _]. lra.
  - apply Permutation_nil. apply Permutation_sym.
    eapply perm_trans; [apply find_similar_as_filter|].
    rewrite filter_nil; [apply Permutation_refl|].
    intros p _. destruct (Qle_bool threshold _) eqn:E; [|reflexivity].
    apply Qle_bool_iff in E.
    destruct (similarity_in_unit_aux problem_signature p) as [_ H1]. lra.
Qed.

Lemma Qltb_irrefl (q : Q) : Qltb q q = false.
Proof.
  unfold Qltb. apply negb_false_iff, Qle_bool_iff, Qle_refl.
Qed.

Lemma sort_desc_same_key {A : Type} (q : Q) (l : list (A * Q)) :
  Forall (fun x => snd x = q) l -> sort_desc l = l.
Proof.
  induction 1 as [| x l Hx Hl IH]; simpl; [reflexivity|].
  rewrite IH. destruct Hl as [| y l Hy Hl]; simpl; [reflexivity|].
  rewrite Hx, Hy, Qltb_irrefl. reflexivity.
Qed.

Lemma unconstrained_similarity (sig : ProblemSignature) (p : SolutionPattern) :
  constraints sig = [] ->
  _calculate_similarity sig p
  = if String.eqb (domain sig) (problem_domain p)
    then (1.0 * 0.6 + 0.0 * 0.4)%Q else (0.0 * 0.6 + 0.0 * 0.4)%Q.
Proof.
  intros Hc. unfold _calculate_similarity. rewrite Hc.
  destruct (String.eqb (domain sig) (problem_domain p)); reflexivity.
Qed.

Lemma filter_scored_by_domain (sig : ProblemSignature) (threshold : Q)
  (l : list SolutionPattern) :
  constraints sig = [] ->
  (0 < threshold)%Q -> (threshold <= 0.6)%Q ->
  filter (fun '(_, similarity) => Qle_bool threshold similarity)
         (map (fun pattern => (pattern, _calculate_similarity sig pattern)) l)
  = map (fun pattern => (pattern, (1.0 * 0.6 + 0.0 * 0.4)%Q))
        (filter (fun pattern => String.eqb (domain sig) (problem_domain pattern)) l).
Proof.
  intros Hc Hlo Hhi. induction l as [| p l IH]; simpl; [reflexivity|].
  rewrite (unconstrained_similarity sig p Hc).
  destruct (String.eqb (domain sig) (problem_domain p)).
  - replace (Qle_bool threshold (1.0 * 0.6 + 0.0 * 0.4)) with true
      by (symmetry; apply Qle_bool_iff; lra).
    simpl. rewrite IH. reflexivity.
  - destruct (Qle_bool threshold (0.0 * 0.6 + 0.0 * 0.4)) eqn:E.
    + apply Qle_bool_iff in E. lra.
    + exact IH.
Qed.

(** X12: for a signature without constraints and a threshold above 0 and at
    most 0.6 (the 0.3 both callers use), [find_similar_patterns] returns
    exactly the stored patterns of the signature's domain, in the order of
    the store. *)
Theorem unconstrained_query_selects_domain (self : PatternLibrary)
  (problem_signature : ProblemSignature) (threshold : Q) :
  constraints problem_signature = [] ->
  (0 < threshold)%Q -> (threshold <= 0.6)%Q ->
  find_similar_patterns self problem_signature threshold
  = filter (fun pattern =>
              String.eqb (domain problem_signature) (problem_domain pattern))
           (values (patterns self)).
Proof.
  intros Hc Hlo Hhi. unfold find_similar_patterns.
  rewrite (filter_scored_by_domain _ _ _ Hc Hlo Hhi).
  rewrite (sort_desc_same_key (1.0 * 0.6 + 0.0 * 0.4)%Q).
  - rewrite map_map. simpl. apply map_id.
  - apply Forall_map. apply Forall_forall. intros; reflexivity.
Qed.

(** ** Recombination *)

Lemma unique_steps_from_spec (steps : list string) :
  forall seen : list string,
    let unique := unique_steps_from seen steps in
    NoDup (map lower unique)
    /\ (forall s, In s unique -> In s steps /\ ~ In (lower s) seen)
    /\ (forall s, In s steps -> In (lower s) seen \/ In (lower s) (map lower unique)).
Proof.
  induction steps as [| step rest IH]; intros seen; simpl.
  - repeat split; [constructor | contradiction | contradiction | contradiction].
  - destruct (mem (lower step) seen) eqn:E.
    + destruct (IH seen) as (Hnd & Hin & Hcov). repeat split.
      * exact Hnd.
      * right. apply Hin, H.
      * apply Hin, H.
      * intros s [<- | Hs]; [left; apply mem_In, E | apply Hcov, Hs].
    + destruct (IH (lower step :: seen)) as (Hnd & Hin & Hcov).
      assert (Hfresh : ~ In (lower step) seen).
      { intros H. apply mem_In in H. congruence. }
      repeat split.
      * simpl. constructor; [|exact Hnd].
        intros H. apply in_map_iff in H. destruct H as (s & Hs & Hu).
        apply Hin in Hu. destruct Hu as [_ Hu]. apply Hu. left. symmetry. exact Hs.
      * destruct H as [<- | H]; [left; reflexivity | right; apply Hin, H].
      * destruct H as [<- | H]; [exact Hfresh|].
        apply Hin in H. destruct H as [_ H]. intros Hs. apply H. right. exact Hs.
      * intros s [<- | Hs]; [right; left; reflexivity|].
        destruct (Hcov s Hs) as [[Heq | Hseen] | Hu].
        -- right. left. exact Heq.
        -- left. exact Hseen.
        -- right. right. exact Hu.
Qed.

(** X13: recombining a non-empty list of patterns gives a solution whose
    implementation steps are steps of the input patterns, no two of them
    equal up to case, with every input step represented up to case; whose
    prerequisites are the distinct prerequisites of the inputs; and whose
    source patterns are the input ids in order. *)
Theorem recombination_merges_steps (patterns : list SolutionPattern)
  (problem_context : string) :
  patterns <> [] ->
  exists solution steps prereqs,
    recombine_patterns patterns problem_context
      = VDict [("recombined_solution", VDict solution)]
    /\ dict_get "implementation_steps" solution = Some (VList (map VStr steps))
    /\ NoDup (map lower steps)
    /\ (forall s, In s steps ->
          exists p, In p patterns /\ In s (implementation_steps p))
    /\ (forall p s, In p patterns -> In s (implementation_steps p) ->
          In (lower s) (map lower steps))
    /\ dict_get "prerequisites" solution = Some (VList (map VStr prereqs))
    /\ NoDup prereqs
    /\ (forall x, In x prereqs <->
          exists p, In p patterns /\ In x (prerequisites p))
    /\ dict_get "source_patterns" solution
       = Some (VList (map VStr (map id patterns))).
Proof.
  intros Hne. destruct patterns as [| p0 ps]; [congruence|].
  set (patterns := p0 :: ps).
  destruct (unique_steps_from_spec (flat_map implementation_steps patterns) [])
    as (Hnd & Hin & Hcov).
  pose proof (set_to_list_perm (flat_map prerequisites patterns)) as Hperm.
  eexists; eexists; eexists.
  split; [reflexivity|].
  split; [reflexivity|].
  split; [exact Hnd|].
  split.
  { intros s Hs. apply Hin in Hs. destruct Hs as [Hs _].
    apply in_flat_map in Hs. exact Hs. }
  split.
  { intros p s Hp Hs.
    destruct (Hcov s) as [[] | H]; [|exact H].
    apply in_flat_map. exists p. split; assumption. }
  split; [reflexivity|].
  split.
  { eapply Permutation_NoDup; [apply Permutation_sym, Hperm | apply NoDup_nodup]. }
  split; [|reflexivity].
  intros x. split.
  - intros Hx. apply (Permutation_in _ Hperm) in Hx. apply nodup_In in Hx.
    apply in_flat_map in Hx. exact Hx.
  - intros Hx. apply (Permutation_in _ (Permutation_sym Hperm)).
    apply nodup_In. apply in_flat_map. exact Hx.
Qed.

(** ** Loading *)


















End PatternLibFurther.

(* ------------------------------------------------------------------ *)
(** * Further properties of problem_identifier.py *)

Section ProblemIdFurther.
Import PyStr Re PyNum PyVal ProblemId Reference.
Context {rt : PyRuntime}.

(** X16: [_classify_sentence_domain] answers "general" when no classifier
    keyword occurs in the lowered sentence; otherwise the domain with the
    greatest number of keywords found, and of several such domains the one
    declared first (so the tie is not broken arbitrarily). *)
Theorem classify_sentence_first_best (sentence : string) :
  classified domain_classifiers (lower sentence) "general"
    (_classify_sentence_domain sentence).
Proof.
  unfold _classify_sentence_domain. apply classification_is_first_best.
Qed.

(** ** The fields of a detected problem *)

Lemma description_ends_with_sentence (sentence : string)
  (indicators : list (string * string)) :
  exists label, _generate_problem_description sentence indicators = label ++ sentence.
Proof.
  unfold _generate_problem_description.
  destruct indicators as [| [t k] rest]; cbn -[String.append].
  - eexists. reflexivity.
  - repeat match goal with
           | |- context [String.eqb t ?x] => destruct (String.eqb t x)
           end;
      eexists; reflexivity.
Qed.

Lemma qsum_constant_nonneg {A : Type} (q : Q) (l : list A) :
  (0 <= q <= 1)%Q -> (0 <= qsum (map (fun _ => q) l))%Q.
Proof.
  intros Hq. unfold qsum.
  apply (fold_qplus_bounds (map (fun _ => q) l)).
  apply Forall_map, Forall_forall. intros; exact Hq.
Qed.

Lemma urgency_range (sentence : string) (indicators : list (string * string)) :
  indicators <> [] ->
  (0.2 <= _calculate_urgency sentence indicators <= 1)%Q.
Proof.
  intros Hne. unfold _calculate_urgency. split.
  - apply py_min_lower_bound; [unfold Qle; simpl; lia|].
    destruct indicators as [| i rest]; [congruence|].
    pose proof (of_nat_succ (List.length rest)) as Hs.
    pose proof (of_nat_nonneg (List.length rest)) as Hn.
    match goal with
    | |- (_ <= _ + qsum (map ?f ?l))%Q =>
        pose proof (qsum_constant_nonneg 0.3%Q l) as Hq
    end.
    simpl List.length. rewrite Hs.
    assert (H03 : (0 <= 0.3 <= 1)%Q) by (split; unfold Qle; simpl; lia).
    specialize (Hq H03). lra.
  - eapply Qle_trans; [apply py_min_upper_bound | unfold Qle; simpl; lia].
Qed.

Lemma complexity_range (sentence : string) :
  (0 <= _calculate_complexity sentence <= 1)%Q.
Proof.
  unfold _calculate_complexity. split.
  - apply py_min_lower_bound; [unfold Qle; simpl; lia|].
    apply Qplus_nonneg.
    + apply qsum_constant_nonneg. split; unfold Qle; simpl; lia.
    + apply py_min_lower_bound; [unfold Qle; simpl; lia|].
      apply Qmult_le_0_compat; [apply of_nat_nonneg | unfold Qle; simpl; lia].
  - eapply Qle_trans; [apply py_min_upper_bound | unfold Qle; simpl; lia].
Qed.

Lemma int_of_digits_nonneg (num : string) : (0 <= int_of_digits num)%Z.
Proof.
  unfold int_of_digits.
  assert (H : forall l acc, (0 <= acc)%Z ->
            (0 <= fold_left (fun acc c => 10 * acc + Z.of_nat (ord c - 48)) l acc)%Z).
  { induction l as [| c l IH]; intros acc Hacc; cbn [fold_left]; [exact Hacc|].
    apply IH. pose proof (Nat2Z.is_nonneg (ord c - 48)). nia. }
  apply H. lia.
Qed.

Lemma fold_zmax_range (lo hi : Z) (xs : list Z) :
  Forall (fun n => lo <= n < hi)%Z xs ->
  forall x, (lo <= x < hi)%Z -> (lo <= fold_left Z.max xs x < hi)%Z.
Proof.
  induction 1 as [| y xs Hy _ IH]; intros x Hx; simpl; [exact Hx|].
  apply IH. lia.
Qed.

Lemma connection_impact_range (sentence : string) (z : Z) :
  _calculate_connection_impact sentence = Returns z -> (0 <= z <= 1005)%Z.
Proof.
  unfold _calculate_connection_impact.
  match goal with
  | |- context [count_in ?k ?s] =>
      pose proof (count_in_bound k s) as Hc; simpl in Hc; set (impact := count_in k s) in *
  end.
  destruct (findall (RPlus RDigit) sentence) as [| n ns].
  - intros Hr. inversion Hr. lia.
  - set (small := filter _ _).
    assert (Hsmall : Forall (fun n => 0 <= n < 1000)%Z small).
    { subst small. apply Forall_forall. intros x Hx.
      apply filter_In in Hx. destruct Hx as [Hx Hlt].
      apply Z.ltb_lt in Hlt. apply in_map_iff in Hx. destruct Hx as (d & <- & _).
      pose proof (int_of_digits_nonneg d). lia. }
    destruct small as [| x xs]; simpl; [discriminate|].
    inversion Hsmall as [| ? ? Hx Hxs]; subst.
    pose proof (fold_zmax_range 0 1000 xs Hxs x Hx) as Hm.
    intros Hr. inversion Hr. lia.
Qed.

Lemma extract_fields (self : ProblemDetector) (sentence source : string)
  (problems : list DetectedProblem) :
  _extract_problems_from_sentence self sentence source = Returns problems ->
  Forall (fun problem =>
            evidence problem = [sentence]
            /\ (exists label, description problem = label ++ sentence)
            /\ description problem
               = _generate_problem_description sentence
                   (detect_indicators (lower sentence))
            /\ (0.2 <= urgency_score problem <= 1)%Q
            /\ (0 <= complexity_score problem <= 1)%Q
            /\ (0 <= connection_impact problem <= 1005)%Z)
         problems.
Proof.
  unfold _extract_problems_from_sentence.
  destruct (detect_indicators (lower sentence)) as [| i others] eqn:Ei.
  - intros H. inversion H. constructor.
  - destruct (_calculate_connection_impact sentence) as [z | e |] eqn:Ec; simpl;
      [| discriminate | discriminate].
    intros H. inversion H; subst. constructor; [|constructor]. simpl.
    split; [reflexivity|].
    split; [apply description_ends_with_sentence|].
    split; [reflexivity|].
    split; [apply urgency_range; discriminate|].
    split; [apply complexity_range | apply (connection_impact_range sentence z Ec)].
Qed.

Lemma detect_all_fields (self : ProblemDetector) (source : string)
  (sentences : list string) :
  forall detected,
    detect_all self sentences source = Returns detected ->
    Forall (fun problem =>
              exists sentence,
                In sentence sentences
                /\ _extract_problems_from_sentence self sentence source
                   = Returns [problem])
           detected.
Proof.
  induction sentences as [| sentence rest IH]; intros detected H; simpl in H.
  - inversion H. constructor.
  - destruct (_extract_problems_from_sentence self sentence source)
      as [ps | e |] eqn:E; simpl in H; [| discriminate | discriminate].
    destruct (detect_all self rest source) as [ds | e |] eqn:Er; simpl in H;
      [| discriminate | discriminate].
    inversion H; subst. apply Forall_app. split.
    + pose proof (extract_at_most_one self sentence source) as Hone.
      rewrite E in Hone. simpl in Hone.
      destruct ps as [| p ps]; [constructor|].
      destruct ps; [|simpl in Hone; lia].
      constructor; [|constructor]. exists sentence. split; [left; reflexivity | exact E].
    + eapply Forall_impl; [|apply (IH ds eq_refl)].
      intros p (s & Hs & Hp). exists s. split; [right; exact Hs | exact Hp].
Qed.

Lemma dedup_from_spec (problems : list DetectedProblem) :
  forall seen : list string,
    let unique := dedup_from seen problems in
    NoDup (map problem_key unique)
    /\ (forall p, In p unique -> In p problems /\ ~ In (problem_key p) seen)
    /\ (forall p, In p problems ->
          In (problem_key p) seen \/ In (problem_key p) (map problem_key unique)).
Proof.
  induction problems as [| problem rest IH]; intros seen; simpl.
  - repeat split; [constructor | contradiction | contradiction | contradiction].
  - fold (problem_key problem).
    destruct (mem (problem_key problem) seen) eqn:E.
    + destruct (IH seen) as (Hnd & Hin & Hcov). repeat split.
      * exact Hnd.
      * right. apply Hin, H.
      * apply Hin, H.
      * intros p [<- | Hp]; [left; apply mem_In, E | apply Hcov, Hp].
    + destruct (IH (problem_key problem :: seen)) as (Hnd & Hin & Hcov).
      assert (Hfresh : ~ In (problem_key problem) seen).
      { intros H. apply mem_In in H. congruence. }
      repeat split.
      * simpl. constructor; [|exact Hnd].
        intros H. apply in_map_iff in H. destruct H as (p & Hp & Hu).
        apply Hin in Hu. destruct Hu as [_ Hu]. apply Hu. left. symmetry. exact Hp.
      * destruct H as [<- | H]; [left; reflexivity | right; apply Hin, H].
      * destruct H as [<- | H]; [exact Hfresh|].
        apply Hin in H. destruct H as [_ H]. intros Hs. apply H. right. exact Hs.
      * intros p [<- | Hp]; [right; left; reflexivity|].
        destruct (Hcov p Hp) as [[Heq | Hseen] | Hu].
        -- right. left. exact Heq.
        -- left. exact Hseen.
        -- right. right. exact Hu.
Qed.

Lemma analyze_returns_inv (self : ProblemDetector) (text source : string)
  (result : list DetectedProblem) (self' : ProblemDetector) :
  analyze_text_for_problems self text source = Returns (result, self') ->
  exists detected,
    detect_all self (UcpCore.sentences_of text) source = Returns detected
    /\ result = dedup_from [] detected
    /\ self' = {| pattern_library := pattern_library self;
                  detected_problems :=
                    fold_left (fun d problem => dict_set (id problem) problem d)
                              result (detected_problems self) |}.
Proof.
  unfold analyze_text_for_problems, _deduplicate_problems.
  destruct (detect_all self (UcpCore.sentences_of text) source) as [ds | e |];
    simpl; [| discriminate | discriminate].
  intros H. inversion H; subst. exists ds. repeat split.
Qed.

(** X17: every problem [analyze_text_for_problems] returns is about one
    sentence of the text: its evidence is that sentence, its description is
    a label followed by the sentence, its urgency is between 0.2 and 1, its
    complexity between 0 and 1, and its connection impact between 0 and
    1005 (six keywords and a number below 1000). *)
Theorem returned_problems_are_well_formed (self : ProblemDetector)
  (text source : string) (result : list DetectedProblem) (self' : ProblemDetector) :
  analyze_text_for_problems self text source = Returns (result, self') ->
  Forall (fun problem =>
            exists sentence,
              In sentence (UcpCore.sentences_of text)
              /\ evidence problem = [sentence]
              /\ (exists label, description problem = label ++ sentence)
              /\ (0.2 <= urgency_score problem <= 1)%Q
              /\ (0 <= complexity_score problem <= 1)%Q
              /\ (0 <= connection_impact problem <= 1005)%Z)
         result.
Proof.
  intros H. apply analyze_returns_inv in H.
  destruct H as (detected & Hd & -> & _).
  apply Forall_forall. intros p Hp.
  destruct (dedup_from_spec detected []) as (_ & Hin & _).
  apply Hin in Hp. destruct Hp as [Hp _].
  pose proof (detect_all_fields self source _ _ Hd) as Hall.
  rewrite Forall_forall in Hall. destruct (Hall p Hp) as (sentence & Hs & He).
  apply extract_fields in He. inversion He as [| ? ? Hf _]; subst.
  destruct Hf as (Hev & Hdesc & _ & Hu & Hc & Hi).
  exists sentence. repeat split; try assumption; try apply Hu; try apply Hc; try apply Hi.
Qed.

Lemma detect_all_covers (self : ProblemDetector) (source : string)
  (sentences : list string) :
  forall detected,
    detect_all self sentences source = Returns detected ->
    forall sentence,
      In sentence sentences ->
      detect_indicators (lower sentence) <> [] ->
      exists problem,
        In problem detected
        /\ description problem
           = _generate_problem_description sentence (detect_indicators (lower sentence)).
Proof.
  induction sentences as [| s rest IH]; intros detected H sentence Hin Hind;
    simpl in H; [contradiction|].
  destruct (_extract_problems_from_sentence self s source) as [ps | e |] eqn:E;
    simpl in H; [| discriminate | discriminate].
  destruct (detect_all self rest source) as [ds | e |] eqn:Er; simpl in H;
    [| discriminate | discriminate].
  inversion H; subst. destruct Hin as [-> | Hin].
  - pose proof (extract_fields self sentence source ps E) as Hf.
    unfold _extract_problems_from_sentence in E.
    destruct (detect_indicators (lower sentence)) as [| i others] eqn:Ei; [congruence|].
    destruct (_calculate_connection_impact sentence); simpl in E;
      [| discriminate | discriminate].
    inversion E; subst. inversion Hf as [| ? ? Hp _]; subst.
    eexists. split; [apply in_or_app; left; left; reflexivity|]. simpl. reflexivity.
  - destruct (IH ds eq_refl sentence Hin Hind) as (p & Hp & Hd).
    exists p. split; [apply in_or_app; right; exact Hp | exact Hd].
Qed.

(** X18: the problems returned have pairwise different deduplication keys
    (the first 50 characters of the lowered description), and every
    sentence with an indicator keyword is represented by a returned problem
    that has the key of the sentence's own description. *)
Theorem returned_problems_are_deduplicated (self : ProblemDetector)
  (text source : string) (result : list DetectedProblem) (self' : ProblemDetector) :
  analyze_text_for_problems self text source = Returns (result, self') ->
  NoDup (map problem_key result)
  /\ (forall sentence,
        In sentence (UcpCore.sentences_of text) ->
        detect_indicators (lower sentence) <> [] ->
        exists problem,
          In problem result
          /\ problem_key problem
             = take 50 (lower (_generate_problem_description sentence
                                 (detect_indicators (lower sentence))))).
Proof.
  intros H. apply analyze_returns_inv in H.
  destruct H as (detected & Hd & -> & _).
  destruct (dedup_from_spec detected []) as (Hnd & _ & Hcov).
  split; [exact Hnd|].
  intros sentence Hs Hind.
  destruct (detect_all_covers self source _ _ Hd sentence Hs Hind) as (p & Hp & Hdesc).
  destruct (Hcov p Hp) as [[] | Hk].
  apply in_map_iff in Hk. destruct Hk as (q & Hq & Hin).
  exists q. split; [exact Hin|]. rewrite Hq. unfold problem_key. rewrite Hdesc.
  reflexivity.
Qed.

(** ** When the analysis raises *)






(** ** Recording *)

Lemma fold_record_keys (problems : list DetectedProblem) :
  forall d : dict DetectedProblem,
    let d' := fold_left (fun d problem => dict_set (id problem) problem d) problems d in
    incl (keys d) (keys d')
    /\ (forall problem, In problem problems -> In (id problem) (keys d'))
    /\ (forall k, In k (keys d') ->
          In k (keys d) \/ exists problem, In problem problems /\ id problem = k).
Proof.
  induction problems as [| p rest IH]; intros d; simpl.
  - repeat split; [apply incl_refl | contradiction | intros k H; left; exact H].
  - destruct (IH (dict_set (id p) p d)) as (Hincl & Hin & Hback).
    pose proof (keys_dict_set_incl (id p) p d) as Hstep.
    repeat split.
    + eapply incl_tran; eassumption.
    + intros q [<- | Hq]; [|apply Hin, Hq].
      apply Hincl. rewrite keys_dict_set.
      destruct (mem (id p) (keys d)) eqn:E; [apply mem_In, E|].
      apply in_or_app. right. left. reflexivity.
    + intros k Hk. destruct (Hback k Hk) as [Hd | (q & Hq & Hid)].
      * rewrite keys_dict_set in Hd. destruct (mem (id p) (keys d)); [left; exact Hd|].
        apply in_app_or in Hd. destruct Hd as [Hd | [<- | []]]; [left; exact Hd|].
        right. exists p. split; [left; reflexivity | reflexivity].
      * right. exists q. split; [right; exact Hq | exact Hid].
Qed.

(** X20: a returning analysis leaves the pattern library as it was and
    records its problems in the detector: every id recorded before is still
    recorded, every returned problem's id is recorded, and nothing else
    is. *)
Theorem analysis_records_problems (self : ProblemDetector) (text source : string)
  (result : list DetectedProblem) (self' : ProblemDetector) :
  analyze_text_for_problems self text source = Returns (result, self') ->
  pattern_library self' = pattern_library self
  /\ incl (keys (detected_problems self)) (keys (detected_problems self'))
  /\ (forall problem, In problem result -> In (id problem) (keys (detected_problems self')))
  /\ (forall k, In k (keys (detected_problems self')) ->
        In k (keys (detected_problems self))
        \/ exists problem, In problem result /\ id problem = k).
Proof.
  intros H. apply analyze_returns_inv in H.
  destruct H as (detected & _ & _ & ->). simpl.
  split; [reflexivity|]. apply fold_record_keys.
Qed.

(** ** Scanning the library and ranking *)

(** X21: [scan_system_patterns] reports a gap for exactly those of the four
    critical domains that no stored pattern has as its domain, so it
    reports nothing exactly when all four are covered, and never more than
    four problems. *)
Theorem scan_reports_uncovered_domains (self : ProblemDetector) :
  (forall problem,
     In problem (scan_system_patterns self) <->
     exists d, problem = gap_problem d
               /\ In d critical_domains
               /\ ~ In d (covered_domains self))
  /\ (scan_system_patterns self = [] <-> incl critical_domains (covered_domains self))
  /\ List.length (scan_system_patterns self) <= 4.
Proof.
  unfold scan_system_patterns. split; [|split].
  - intros problem. rewrite in_map_iff. split.
    + intros (d & <- & Hd). apply filter_In in Hd. destruct Hd as [Hd Hm].
      exists d. repeat split; [exact Hd|].
      intros Hc. apply mem_In in Hc. rewrite Hc in Hm. discriminate.
    + intros (d & -> & Hd & Hc). exists d. split; [reflexivity|].
      apply filter_In. split; [exact Hd|].
      destruct (mem d (covered_domains self)) eqn:E; [|reflexivity].
      apply mem_In in E. contradiction.
  - split.
    + intros H d Hd. apply map_eq_nil in H.
      destruct (mem d (covered_domains self)) eqn:E; [apply mem_In, E|].
      assert (Hin : In d (filter (fun d => negb (mem d (covered_domains self)))
                            critical_domains)).
      { apply filter_In. split; [exact Hd | rewrite E; reflexivity]. }
      rewrite H in Hin. contradiction.
    + intros H. rewrite filter_nil; [reflexivity|].
      intros d Hd. apply H, mem_In in Hd. rewrite Hd. reflexivity.
  - rewrite length_map.
    eapply Nat.le_trans; [apply filter_length_le | simpl; lia].
Qed.


End ProblemIdFurther.

(* ------------------------------------------------------------------ *)
(** * Properties of solution_generator.py *)

Section SolutionGenProperties.
Import PyStr Re PyNum PyVal SolutionGen Reference.
Context {rt : PyRuntime} {ph : PlanHash}.

Lemma connection_steps_length (problem : ProblemId.DetectedProblem) :
  exists specific,
    _generate_connection_steps problem
    = (["Establish communication channels between all stakeholders";
        "Create shared documentation and knowledge base";
        "Implement feedback collection and response mechanism"] ++ specific)%list
    /\ (List.length specific = 0 \/ List.length specific = 2).
Proof.
  unfold _generate_connection_steps, get_default. simpl.
  repeat match goal with
         | |- context [String.eqb ?a ?b] => destruct (String.eqb a b)
         end;
    eexists; split; try reflexivity; simpl; auto.
Qed.

Lemma apply_axiom_on_recombination (patterns : list PatternLib.SolutionPattern)
  (problem_context : string) (problem : ProblemId.DetectedProblem) :
  patterns <> [] ->
  exists steps prereqs,
    _apply_connection_axiom
      (PatternLib.recombine_patterns patterns problem_context) problem
    = Returns
        [("implementation_steps",
          VList (map VStr
                   (map (fun step => _enhance_step_for_connections step problem) steps
                    ++ _generate_connection_steps problem)%list));
         ("prerequisites", VList (map VStr prereqs));
         ("confidence_score",
          VFloat (qsum (map PatternLib.confidence_score patterns)
                  / of_nat (List.length patterns))%Q);
         ("connections_enhanced",
          VInt (zsum (map PatternLib.connections_enhanced patterns)
                + Z.of_nat (List.length (_generate_connection_steps problem)))%Z);
         ("source_patterns", VList (map VStr (map PatternLib.id patterns)));
         ("problem_context", VStr problem_context)].
Proof.
  intros Hne. destruct patterns as [| p ps]; [congruence|].
  eexists; eexists.
  unfold _apply_connection_axiom, PatternLib.recombine_patterns.
  cbn [dict_get String.eqb Ascii.eqb Bool.eqb bind].
  unfold PatternLib.as_str_list. rewrite all_str_map.
  cbn [dict_get dict_set String.eqb Ascii.eqb Bool.eqb bind PatternLib.as_int].
  reflexivity.
Qed.

Lemma generate_from_patterns (self : SolutionGenerator)
  (problem : ProblemId.DetectedProblem) :
  let applicable :=
    PatternLib.find_similar_patterns (pattern_library self)
      (_create_problem_signature problem) 0.3%Q in
  applicable <> [] ->
  exists steps metrics,
    let connection_steps := _generate_connection_steps problem in
    let plan :=
      (opening_steps (ProblemId.domain problem)
       ++ (map (fun step => _enhance_step_for_connections step problem) steps
           ++ connection_steps)
       ++ closing_steps)%list in
    let solution :=
      {| id := "sol_" ++ ProblemId.id problem ++ "_"
               ++ format_03d (hash_of_plan plan mod 1000)%Z;
         problem_id := ProblemId.id problem;
         approach := _determine_approach applicable;
         implementation_plan := plan;
         resource_requirements := _estimate_resources plan;
         success_metrics := metrics;
         risk_factors := _identify_risks plan problem;
         connection_enhancement :=
           (zsum (map PatternLib.connections_enhanced applicable)
            + Z.of_nat (List.length connection_steps))%Z;
         confidence_score :=
           (qsum (map PatternLib.confidence_score applicable)
            / of_nat (List.length applicable))%Q;
         pattern_sources := map PatternLib.id applicable;
         execution_time_estimate := _estimate_execution_time plan |} in
    generate_solution self problem
    = Returns (solution,
               {| problem_detector := problem_detector self;
                  generated_solutions :=
                    dict_set (id solution) solution (generated_solutions self) |}).
Proof.
  intros applicable Hne.
  destruct (apply_axiom_on_recombination applicable
              (ProblemId.description problem) problem Hne) as (steps & prereqs & Ha).
  unfold generate_solution. fold applicable.
  destruct applicable as [| p ps] eqn:Eapp; [congruence|].
  exists steps. eexists.
  rewrite Ha.
  cbn [bind]. unfold _create_implementation_plan.
  cbn [dict_get String.eqb Ascii.eqb Bool.eqb bind].
  unfold PatternLib.as_str_list. rewrite all_str_map.
  cbn [bind]. unfold _define_success_metrics.
  cbn [dict_get String.eqb Ascii.eqb Bool.eqb bind PatternLib.as_int PatternLib.as_float].
  reflexivity.
Qed.

Lemma estimate_of_long_plan (plan : list string) :
  11 <= List.length plan ->
  _estimate_execution_time plan = "1-2 months"
  \/ _estimate_execution_time plan = "2-3 months".
Proof.
  intros H. unfold _estimate_execution_time.
  destruct (List.length plan <=? 5) eqn:E5; [apply Nat.leb_le in E5; lia|].
  destruct (List.length plan <=? 8) eqn:E8; [apply Nat.leb_le in E8; lia|].
  destruct (List.length plan <=? 12); [left | right]; reflexivity.
Qed.

(** X23: when at least one stored pattern applies, the plan of the
    generated solution is the three opening steps, then the recombined and
    connection steps (at least three), then the five closing steps; so it
    has at least 11 steps and its time estimate is "1-2 months" or
    "2-3 months", never one of the two shorter buckets.  The solution is
    recorded under its id and refers back to the problem. *)
Theorem pattern_based_plan_shape (self : SolutionGenerator)
  (problem : ProblemId.DetectedProblem)
  (solution : GeneratedSolution) (self' : SolutionGenerator) :
  PatternLib.find_similar_patterns (pattern_library self)
    (_create_problem_signature problem) 0.3%Q <> [] ->
  generate_solution self problem = Returns (solution, self') ->
  (exists middle,
     implementation_plan solution
     = (opening_steps (ProblemId.domain problem) ++ middle ++ closing_steps)%list
     /\ 3 <= List.length middle)
  /\ 11 <= List.length (implementation_plan solution)
  /\ (execution_time_estimate solution = "1-2 months"
      \/ execution_time_estimate solution = "2-3 months")
  /\ dict_get (id solution) (generated_solutions self') = Some solution
  /\ problem_detector self' = problem_detector self
  /\ problem_id solution = ProblemId.id problem.
Proof.
  intros Hne Hgen.
  destruct (generate_from_patterns self problem Hne) as (steps & metrics & Hexp).
  cbv zeta in Hexp. rewrite Hexp in Hgen. inversion Hgen; subst; clear Hgen.
  cbn [implementation_plan execution_time_estimate id generated_solutions
       problem_detector problem_id].
  destruct (connection_steps_length problem) as (specific & Hc & Hlen).
  assert (Hmid : 3 <= List.length
                   (map (fun step => _enhance_step_for_connections step problem) steps
                    ++ _generate_connection_steps problem)%list).
  { rewrite length_app, Hc, length_app. simpl. lia. }
  assert (Hplan : 11 <= List.length
                    (opening_steps (ProblemId.domain problem)
                     ++ (map (fun step => _enhance_step_for_connections step problem) steps
                         ++ _generate_connection_steps problem)
                     ++ closing_steps)%list).
  { rewrite length_app, (length_app _ closing_steps). simpl List.length at 1 3. lia. }
  split; [eexists; split; [reflexivity | exact Hmid]|].
  split; [exact Hplan|].
  split; [apply estimate_of_long_plan, Hplan|].
  split; [apply dict_get_set_same|].
  split; reflexivity.
Qed.

(** ** What the fixed steps entail *)

Lemma prefix_app (n a b : string) : prefix n a = true -> prefix n (a ++ b) = true.
Proof.
  revert a. induction n as [| x n IH]; intros a H; [destruct (a ++ b); reflexivity|].
  destruct a as [| c a]; simpl in *; [discriminate|].
  destruct (ascii_dec x c); [apply IH, H | discriminate].
Qed.

Lemma str_in_app_l (n a b : string) : str_in n a = true -> str_in n (a ++ b) = true.
Proof.
  induction a as [| c a IH]; intros H.
  - simpl in H. rewrite orb_false_r in H.
    destruct n; [|discriminate]. destruct b; reflexivity.
  - change (str_in n (String c a)) with (prefix n (String c a) || str_in n a) in H.
    change (str_in n (String c a ++ b))
      with (prefix n (String c a ++ b) || str_in n (a ++ b)).
    apply orb_true_iff in H. apply orb_true_iff. destruct H as [H | H].
    + left. apply prefix_app, H.
    + right. apply IH, H.
Qed.

Lemma str_in_app_r (n a b : string) : str_in n b = true -> str_in n (a ++ b) = true.
Proof.
  intros H. induction a as [| c a IH]; [exact H|].
  change (str_in n (String c a ++ b))
    with (prefix n (String c a ++ b) || str_in n (a ++ b)).
  rewrite IH. apply orb_true_r.
Qed.

Lemma lower_app (a b : string) : lower (a ++ b) = lower a ++ lower b.
Proof.
  induction a as [| c a IH]; simpl; [reflexivity | rewrite IH; reflexivity].
Qed.

Lemma str_in_joined (n sep s : string) (parts : list string) :
  In s parts -> str_in n (lower s) = true ->
  str_in n (lower (join sep parts)) = true.
Proof.
  intros Hin Hs. induction parts as [| x rest IH]; [contradiction|].
  destruct rest as [| y rest].
  - destruct Hin as [-> | []]. exact Hs.
  - change (join sep (x :: y :: rest)) with (x ++ sep ++ join sep (y :: rest)).
    rewrite !lower_app. destruct Hin as [-> | Hin].
    + apply str_in_app_l, Hs.
    + apply str_in_app_r, str_in_app_r, IH, Hin.
Qed.

Lemma append_if_keeps (cond : bool) (x y : string) (xs : list string) :
  In y xs -> In y (append_if cond x xs).
Proof.
  unfold append_if. destruct cond; [|auto]. intros H. apply in_or_app. left. exact H.
Qed.

Lemma append_if_adds (x : string) (xs : list string) : In x (append_if true x xs).
Proof.
  unfold append_if. apply in_or_app. right. left. reflexivity.
Qed.

Lemma set_to_list_in (x : string) (l : list string) :
  In x (set_to_list l) <-> In x l.
Proof.
  pose proof (set_to_list_perm l) as Hperm. split; intros H.
  - apply (Permutation_in _ Hperm) in H. apply nodup_In in H. exact H.
  - apply (Permutation_in _ (Permutation_sym Hperm)). apply nodup_In. exact H.
Qed.

Lemma resources_of_long_plan (plan : list string) :
  incl closing_steps plan -> 8 < List.length plan ->
  incl ["development_time"; "stakeholder_coordination"; "testing_environment";
        "monitoring_tools"; "deployment_infrastructure"; "documentation_effort";
        "project_management"]
       (resources_of plan).
Proof.
  intros Hclose Hlen.
  assert (Hin : forall n s, In s closing_steps -> str_in n (lower s) = true ->
                  str_in n (lower (join " " plan)) = true).
  { intros n s Hs Hn. apply (str_in_joined n " " s plan); [apply Hclose, Hs | exact Hn]. }
  unfold resources_of.
  rewrite (Hin "test" "Test solution with pilot group");
    [| simpl; tauto | vm_compute; reflexivity].
  rewrite (Hin "monitor" "Monitor success metrics and adjust as needed");
    [| simpl; tauto | vm_compute; reflexivity].
  rewrite (Hin "deploy" "Create rollout plan for full deployment");
    [| simpl; tauto | vm_compute; reflexivity].
  rewrite (Hin "document" "Document lessons learned for pattern library");
    [| simpl; tauto | vm_compute; reflexivity].
  apply Nat.ltb_lt in Hlen. rewrite Hlen.
  intros r Hr.
  repeat (destruct Hr as [<- | Hr];
          [ repeat first [ apply append_if_adds
                         | apply append_if_keeps ]; simpl; tauto | ]).
  contradiction.
Qed.

Lemma risks_of_plan (plan : list string) (problem : ProblemId.DetectedProblem) :
  incl closing_steps plan ->
  In "Identify all stakeholders and dependencies" plan ->
  incl ["Implementation complexity higher than estimated";
        "Pilot results may not scale to full deployment";
        "Stakeholder resistance or misalignment"]
       (_identify_risks plan problem).
Proof.
  intros Hclose Hopen. unfold _identify_risks.
  rewrite (str_in_joined "pilot" " " "Test solution with pilot group" plan);
    [| apply Hclose; simpl; tauto | vm_compute; reflexivity].
  rewrite (str_in_joined "stakeholder" " "
             "Identify all stakeholders and dependencies" plan);
    [| exact Hopen | vm_compute; reflexivity].
  intros r Hr. apply in_or_app. left.
  repeat (destruct Hr as [<- | Hr];
          [ repeat first [ apply append_if_adds
                         | apply append_if_keeps ]; simpl; tauto | ]).
  contradiction.
Qed.

(** X24: because of the fixed opening and closing steps, every
    pattern-based solution requires the testing environment, monitoring
    tools, deployment infrastructure, documentation effort and project
    management besides the two base resources, and lists the pilot and the
    stakeholder risk besides the base risk: for such plans these checks on
    the plan text never fail. *)
Theorem pattern_based_resources_and_risks (self : SolutionGenerator)
  (problem : ProblemId.DetectedProblem)
  (solution : GeneratedSolution) (self' : SolutionGenerator) :
  PatternLib.find_similar_patterns (pattern_library self)
    (_create_problem_signature problem) 0.3%Q <> [] ->
  generate_solution self problem = Returns (solution, self') ->
  incl ["development_time"; "stakeholder_coordination"; "testing_environment";
        "monitoring_tools"; "deployment_infrastructure"; "documentation_effort";
        "project_management"]
       (resource_requirements solution)
  /\ incl ["Implementation complexity higher than estimated";
           "Pilot results may not scale to full deployment";
           "Stakeholder resistance or misalignment"]
          (risk_factors solution).
Proof.
  intros Hne Hgen.
  destruct (generate_from_patterns self problem Hne) as (steps & metrics & Hexp).
  cbv zeta in Hexp. rewrite Hexp in Hgen. inversion Hgen; subst; clear Hgen.
  cbn [resource_requirements risk_factors].
  set (plan := (opening_steps (ProblemId.domain problem)
                ++ (map (fun step => _enhance_step_for_connections step problem) steps
                    ++ _generate_connection_steps problem)
                ++ closing_steps)%list).
  assert (Hclose : incl closing_steps plan).
  { subst plan. apply incl_appr, incl_appr, incl_refl. }
  assert (Hopen : In "Identify all stakeholders and dependencies" plan).
  { subst plan. apply in_or_app. left. simpl. tauto. }
  assert (Hlen : 8 < List.length plan).
  { subst plan. rewrite length_app, length_app, length_app.
    destruct (connection_steps_length problem) as (specific & Hc & _).
    rewrite Hc, length_app. simpl. lia. }
  split.
  - intros r Hr. unfold _estimate_resources. apply set_to_list_in.
    apply (resources_of_long_plan plan Hclose Hlen), Hr.
  - apply risks_of_plan; assumption.
Qed.

(** ** Novel solutions *)

Lemma novel_plan_length (domain : string) :
  List.length
    (get_default domain
       ["Analyze problem systematically";
        "Design solution with connection enhancement";
        "Implement incrementally with validation";
        "Deploy with monitoring";
        "Iterate based on feedback"]
       domain_templates) = 5.
Proof.
  unfold get_default, domain_templates. cbn [dict_get].
  repeat match goal with
         | |- context [String.eqb domain ?x] => destruct (String.eqb domain x)
         end;
    reflexivity.
Qed.

Lemma max_one_spec (n : Z) : max_one n = Z.max 1 n.
Proof.
  unfold max_one. destruct (1 <? n)%Z eqn:E.
  - apply Z.ltb_lt in E. lia.
  - apply Z.ltb_ge in E. lia.
Qed.

(** X25: when no stored pattern applies, [generate_solution] returns a
    novel solution and leaves the generator as it was (the solution is not
    recorded).  The solution has a five-step plan, enhances at least one
    connection ([max(1, impact)]), and states "2-4 weeks" although the
    step-count rule gives "1-2 weeks" for its plan. *)
Theorem novel_solution_shape (self : SolutionGenerator)
  (problem : ProblemId.DetectedProblem) :
  PatternLib.find_similar_patterns (pattern_library self)
    (_create_problem_signature problem) 0.3%Q = [] ->
  let solution := _generate_novel_solution problem in
  generate_solution self problem = Returns (solution, self)
  /\ approach solution = "novel_synthesis"
  /\ pattern_sources solution = []
  /\ List.length (implementation_plan solution) = 5
  /\ connection_enhancement solution = Z.max 1 (ProblemId.connection_impact problem)
  /\ execution_time_estimate solution = "2-4 weeks"
  /\ _estimate_execution_time (implementation_plan solution) = "1-2 weeks".
Proof.
  intros Hnone solution. subst solution.
  split; [unfold generate_solution; rewrite Hnone; reflexivity|].
  unfold _generate_novel_solution.
  cbn [approach pattern_sources implementation_plan connection_enhancement
       execution_time_estimate].
  repeat split.
  - apply novel_plan_length.
  - apply max_one_spec.
  - unfold _estimate_execution_time. rewrite novel_plan_length. reflexivity.
Qed.

(** ** Ranges *)

Lemma applicable_are_stored (library : PatternLib.PatternLibrary)
  (sig : PatternLib.ProblemSignature) (threshold : Q) (p : PatternLib.SolutionPattern) :
  In p (PatternLib.find_similar_patterns library sig threshold) ->
  In p (values (PatternLib.patterns library)).
Proof.
  intros H.
  apply (Permutation_in _ (find_similar_as_filter library sig threshold)) in H.
  apply filter_In in H. apply H.
Qed.

(** X26: [generate_solution] always returns a solution for the problem it
    was given.  If every stored pattern has a non-negative connection count
    and a confidence between 0 and 1, the solution enhances at least one
    connection and its confidence is between 0 and 1. *)
Theorem generated_solution_in_range (self : SolutionGenerator)
  (problem : ProblemId.DetectedProblem) :
  (exists solution self',
     generate_solution self problem = Returns (solution, self')
     /\ problem_id solution = ProblemId.id problem)
  /\ (Forall (fun p => (0 <= PatternLib.connections_enhanced p)%Z
                       /\ (0 <= PatternLib.confidence_score p <= 1)%Q)
             (values (PatternLib.patterns (pattern_library self))) ->
      forall solution self',
        generate_solution self problem = Returns (solution, self') ->
        (1 <= connection_enhancement solution)%Z
        /\ (0 <= confidence_score solution <= 1)%Q).
Proof.
  destruct (PatternLib.find_similar_patterns (pattern_library self)
              (_create_problem_signature problem) 0.3%Q) as [| p ps] eqn:Eapp.
  - assert (Hgen : generate_solution self problem
                   = Returns (_generate_novel_solution problem, self))
      by (unfold generate_solution; rewrite Eapp; reflexivity).
    split; [eexists; eexists; split; [exact Hgen | reflexivity]|].
    intros _ solution self' H. rewrite Hgen in H. inversion H; subst.
    unfold _generate_novel_solution; cbn [connection_enhancement confidence_score].
    rewrite max_one_spec. split; [lia | split; unfold Qle; simpl; lia].
  - assert (Hne : PatternLib.find_similar_patterns (pattern_library self)
                    (_create_problem_signature problem) 0.3%Q <> [])
      by (rewrite Eapp; discriminate).
    destruct (generate_from_patterns self problem Hne) as (steps & metrics & Hexp).
    cbv zeta in Hexp.
    split; [eexists; eexists; split; [exact Hexp | reflexivity]|].
    intros Hstore solution self' H. rewrite Hexp in H. inversion H; subst; clear H.
    cbn [connection_enhancement confidence_score].
    assert (Happ : Forall (fun p => (0 <= PatternLib.connections_enhanced p)%Z
                                    /\ (0 <= PatternLib.confidence_score p <= 1)%Q)
                     (PatternLib.find_similar_patterns (pattern_library self)
                        (_create_problem_signature problem) 0.3%Q)).
    { apply Forall_forall. intros q Hq. apply applicable_are_stored in Hq.
      rewrite Forall_forall in Hstore. apply Hstore, Hq. }
    split.
    + assert (0 <= zsum (map PatternLib.connections_enhanced
                           (PatternLib.find_similar_patterns (pattern_library self)
                              (_create_problem_signature problem) 0.3%Q)))%Z.
      { apply fold_zadd_nonneg; [|lia]. apply Forall_map.
        eapply Forall_impl; [|exact Happ]. intros q Hq. apply Hq. }
      lia.
    + rewrite <- (length_map PatternLib.confidence_score).
      apply average_in_unit_interval.
      * rewrite Eapp. discriminate.
      * apply Forall_map. eapply Forall_impl; [|exact Happ]. intros q Hq. apply Hq.
Qed.

(** ** The approach *)

Lemma nodup_all_equal (a : string) (l : list string) :
  l <> [] -> (forall x, In x l -> x = a) -> nodup string_dec l = [a].
Proof.
  induction l as [| x l IH]; intros Hne Hall; [congruence|].
  simpl. destruct (in_dec string_dec x l) as [Hin | Hnin].
  - apply IH; [destruct l; [contradiction | discriminate]|].
    intros y Hy. apply Hall. right. exact Hy.
  - destruct l as [| y l].
    + simpl. rewrite (Hall x (or_introl eq_refl)). reflexivity.
    + exfalso. apply Hnin. left.
      rewrite (Hall x (or_introl eq_refl)), (Hall y (or_intror (or_introl eq_refl))).
      reflexivity.
Qed.

(** X27: the approach of a recombination is the approach its patterns
    share when they all have the same one, and "hybrid_recombination" as
    soon as two of them differ; without patterns it is "novel_synthesis". *)
Theorem determine_approach_cases (patterns : list PatternLib.SolutionPattern) :
  (patterns = [] -> _determine_approach patterns = "novel_synthesis")
  /\ (forall a,
        patterns <> [] ->
        (forall p, In p patterns -> PatternLib.solution_approach p = a) ->
        _determine_approach patterns = a)
  /\ (forall p q,
        In p patterns -> In q patterns ->
        PatternLib.solution_approach p <> PatternLib.solution_approach q ->
        _determine_approach patterns = "hybrid_recombination").
Proof.
  split; [intros ->; reflexivity|]. split.
  - intros a Hne Hall. destruct patterns as [| p0 ps]; [congruence|].
    unfold _determine_approach.
    rewrite (nodup_all_equal a); [reflexivity | discriminate |].
    intros x Hx. apply in_map_iff in Hx. destruct Hx as (p & <- & Hp). apply Hall, Hp.
  - intros p q Hp Hq Hdiff. destruct patterns as [| p0 ps]; [contradiction|].
    unfold _determine_approach.
    destruct (nodup string_dec (map PatternLib.solution_approach (p0 :: ps)))
      as [| a [| b rest]] eqn:E; try reflexivity.
    exfalso. apply Hdiff.
    assert (Hone : forall x, In x (p0 :: ps) -> PatternLib.solution_approach x = a).
    { intros x Hx.
      assert (Hin : In (PatternLib.solution_approach x)
                       (nodup string_dec (map PatternLib.solution_approach (p0 :: ps)))).
      { apply nodup_In. apply in_map. exact Hx. }
      rewrite E in Hin. destruct Hin as [H | []]. symmetry. exact H. }
    rewrite (Hone p Hp), (Hone q Hq). reflexivity.
Qed.

(** ** The autonomous cycle *)

Lemma generate_returns_aux (self : SolutionGenerator)
  (problem : ProblemId.DetectedProblem) :
  exists solution self',
    generate_solution self problem = Returns (solution, self')
    /\ problem_detector self' = problem_detector self.
Proof.
  destruct (PatternLib.find_similar_patterns (pattern_library self)
              (_create_problem_signature problem) 0.3%Q) as [| p ps] eqn:Eapp.
  - exists (_generate_novel_solution problem), self.
    split; [unfold generate_solution; rewrite Eapp; reflexivity | reflexivity].
  - assert (Hne : PatternLib.find_similar_patterns (pattern_library self)
                    (_create_problem_signature problem) 0.3%Q <> [])
      by (rewrite Eapp; discriminate).
    destruct (generate_from_patterns self problem Hne) as (steps & metrics & Hexp).
    cbv zeta in Hexp. eexists; eexists. split; [exact Hexp | reflexivity].
Qed.




Lemma prioritize_same (d1 d2 : ProblemId.ProblemDetector) :
  ProblemId.detected_problems d1 = ProblemId.detected_problems d2 ->
  ProblemId.prioritize_problems d1 = ProblemId.prioritize_problems d2.
Proof.
  unfold ProblemId.prioritize_problems. intros ->. reflexivity.
Qed.




End SolutionGenProperties.

(* ------------------------------------------------------------------ *)
(** * Properties of ucp_system.py *)

Section UcpSystemProperties.
Import PyStr Re PyNum PyVal UcpSystem Reference.
Context {rt : PyRuntime} {ph : PlanHash}.

Lemma fold_zadd_shift (xs : list Z) (a : Z) :
  fold_left Z.add xs a = (a + fold_left Z.add xs 0)%Z.
Proof.
  revert a. induction xs as [| x xs IH]; intros a; simpl; [lia|].
  rewrite (IH (a + x)%Z), (IH x). lia.
Qed.

Lemma solve_each_spec (problems : list ProblemId.DetectedProblem) :
  forall (generator : SolutionGen.SolutionGenerator)
         (summaries : list SolutionSummary) (total : Z),
  exists more total' generator',
    solve_each generator problems summaries total
    = Returns ((summaries ++ more)%list, total', generator')
    /\ map summary_problem_id more = map ProblemId.id problems
    /\ total' = (total + zsum (map summary_connection_enhancement more))%Z
    /\ SolutionGen.problem_detector generator'
       = SolutionGen.problem_detector generator.
Proof.
  induction problems as [| problem rest IH]; intros generator summaries total.
  - exists [], total, generator. simpl. rewrite app_nil_r.
    repeat split. unfold zsum. simpl. lia.
  - destruct (generate_returns_aux generator problem) as (solution & g1 & Hgen & Hdet).
    cbn [solve_each]. rewrite Hgen. cbn [bind].
    match goal with
    | |- context [solve_each g1 rest (summaries ++ [?summary])%list ?t] =>
        destruct (IH g1 (summaries ++ [summary])%list t)
          as (more & total' & g' & Hs & Hids & Ht & Hd);
        exists (summary :: more), total', g'
    end.
    rewrite Hs, <- app_assoc. simpl.
    repeat split.
    + rewrite Hids. reflexivity.
    + rewrite Ht. unfold zsum. simpl.
      rewrite (fold_zadd_shift _ (SolutionGen.connection_enhancement solution)). lia.
    + rewrite Hd, Hdet. reflexivity.
Qed.

Lemma append_empty_r (s : string) : (s ++ "")%string = s.
Proof. induction s as [| c s IH]; simpl; [| rewrite IH]; reflexivity. Qed.

Lemma join_headed (sep x : string) (rest : list string) :
  exists more, join sep (x :: rest) = (x ++ more)%string.
Proof.
  destruct rest as [| y rest].
  - exists ""%string. simpl. symmetry. apply append_empty_r.
  - eexists. cbn [join]. reflexivity.
Qed.

(** X29: the response of [_generate_ucp_response] is never the empty string;
    it is the fixed sentence for no action when the logical chain has no
    conclusion and there are neither problems nor solutions; and when the chain
    has a conclusion the response begins with it. *)
Theorem response_never_empty
  (core_result : UcpCore.ProcessResult)
  (problems : list ProblemId.DetectedProblem) (solutions : list SolutionSummary) :
  let conclusion := UcpCore.conclusion (UcpCore.logical_chain core_result) in
  let response := _generate_ucp_response core_result problems solutions in
  response <> ""%string
  /\ (conclusion = ""%string -> problems = [] -> solutions = [] ->
      response = default_response)
  /\ (conclusion <> ""%string ->
      exists rest, response = (conclusion ++ rest)%string).
Proof.
  intros conclusion response. subst response.
  unfold _generate_ucp_response. fold conclusion. clearbody conclusion.
  remember (if truthy conclusion then [conclusion] else []) as p0 eqn:Ep0.
  assert (Hp0 : conclusion = ""%string /\ p0 = []
                \/ conclusion <> ""%string /\ p0 = [conclusion]).
  { subst p0. destruct conclusion; [left | right]; split;
      reflexivity || discriminate. }
  clear Ep0.
  match goal with
  | |- context [match ?parts with [] => default_response | _ :: _ => _ end] =>
      assert (Hshape : exists ys, parts = (p0 ++ ys)%list
                /\ (forall y, In y ys -> y <> ""%string)
                /\ (problems = [] -> solutions = [] -> ys = []))
  end.
  { destruct problems as [| pr prs], solutions as [| so sos];
      match goal with
      | |- context [(0 <? ?t)%Z] => destruct (0 <? t)%Z eqn:Hpos
      end;
      try (unfold zsum in Hpos; simpl in Hpos; discriminate Hpos);
      try (exists []; rewrite app_nil_r;
           split; [reflexivity | split; [intros y [] | intros; reflexivity]]);
      try (rewrite <- ?app_assoc; eexists; split; [reflexivity |];
           split; [| discriminate || (intros _ Hd; discriminate Hd)];
           intros y Hy; simpl in Hy;
           repeat (destruct Hy as [<- | Hy]; [discriminate |]); destruct Hy). }
  destruct Hshape as (ys & -> & Hys & Hnone).
  destruct Hp0 as [[Hc ->] | [Hc ->]].
  - simpl. repeat split.
    + destruct ys as [| y ys']; [discriminate |].
      destruct (join_headed ". " y ys') as [more ->].
      pose proof (Hys y (or_introl eq_refl)) as Hy.
      destruct y; [congruence | discriminate].
    + intros _ Hp Hs. rewrite (Hnone Hp Hs). reflexivity.
    + intros Hc'. congruence.
  - cbn [app]. destruct (join_headed ". " conclusion ys) as [more Hj].
    repeat split.
    + rewrite Hj. destruct conclusion; [congruence | discriminate].
    + intros Hc'. congruence.
    + intros _. exists more. exact Hj.
Qed.

(** X30: [process_input] fails only when the analysis of the text fails, and
    then with the same exception.  When the analysis returns, the call
    returns: it reports every detected problem, solves the first three of
    them in order when solutions are enabled and none otherwise, reports as
    total enhancement the sum over the solutions it lists, adds exactly one
    session with these counts to the history, and leaves the problem
    detector as the analysis left it. *)
Theorem process_input_counts
  (self : UCPSystem) (session_start finish : Q) (input_text : string)
  (enable_autonomous : bool) :
  match ProblemId.analyze_text_for_problems
          (SolutionGen.problem_detector (solution_generator self))
          input_text "user_input" with
  | Returns (problems, detector) =>
      exists result self',
        process_input self session_start finish input_text enable_autonomous
        = Returns (result, self')
        /\ map detail_id (detailed_problems result) = map ProblemId.id problems
        /\ problems_detected result = List.length problems
        /\ map summary_problem_id (generated_solutions result)
           = (if enable_autonomous
              then map ProblemId.id (firstn 3 problems) else [])
        /\ result_solutions_generated result
           = List.length (generated_solutions result)
        /\ total_connection_enhancement result
           = zsum (map summary_connection_enhancement (generated_solutions result))
        /\ (exists session,
              session_history self' = (session_history self ++ [session])%list
              /\ id session = session_id result
              /\ problems_identified session = problems_detected result
              /\ solutions_generated session = result_solutions_generated result
              /\ connection_enhancement session
                 = total_connection_enhancement result)
        /\ SolutionGen.problem_detector (solution_generator self') = detector
  | Raises e =>
      process_input self session_start finish input_text enable_autonomous
      = Raises e
  | Untyped =>
      process_input self session_start finish input_text enable_autonomous
      = Untyped
  end.
Proof.
  unfold process_input.
  destruct (ProblemId.analyze_text_for_problems _ input_text "user_input")
    as [[problems detector] | e |] eqn:Han; cbn [bind]; try reflexivity.
  set (generator := {| SolutionGen.problem_detector := detector;
                       SolutionGen.generated_solutions := _ |}).
  assert (Hcase :
    exists sums total g',
      (match problems with
       | _ :: _ =>
           if enable_autonomous
           then solve_each generator (firstn 3 problems) [] 0%Z
           else Returns ([], 0%Z, generator)
       | [] => Returns ([], 0%Z, generator)
       end) = Returns (sums, total, g')
      /\ map summary_problem_id sums
         = (if enable_autonomous then map ProblemId.id (firstn 3 problems) else [])
      /\ total = zsum (map summary_connection_enhancement sums)
      /\ SolutionGen.problem_detector g' = detector).
  { destruct problems as [| pr prs].
    - exists [], 0%Z, generator. repeat split. destruct enable_autonomous; reflexivity.
    - destruct enable_autonomous.
      + destruct (solve_each_spec (firstn 3 (pr :: prs)) generator [] 0%Z)
          as (more & total & g' & Hs & Hids & Ht & Hd).
        exists more, total, g'. rewrite Hs. simpl in Ht. repeat split; assumption.
      + exists [], 0%Z, generator. repeat split. }
  destruct Hcase as (sums & total & g' & -> & Hids & Ht & Hd).
  cbn [bind]. eexists. eexists. split; [reflexivity |].
  cbn [detailed_problems problems_detected generated_solutions
       result_solutions_generated total_connection_enhancement
       session_history solution_generator session_id].
  repeat split; try assumption.
  - rewrite map_map. reflexivity.
  - eexists. split; [reflexivity |]. repeat split.
Qed.

End UcpSystemProperties.

(* ------------------------------------------------------------------ *)
(** * The further properties at concrete inputs *)

Section UcpCoreFurtherExamples.
Import PyStr Re PyNum UcpCore Reference.

Lemma sentences_are_clean_witness :
  "Builds are slow" <> ""
  /\ strip "Builds are slow" = "Builds are slow"
  /\ all_chars (fun c => negb (char_in c ".!?")) "Builds are slow" = true.
Proof.
  apply (sentences_are_clean "Builds are slow. Fix them!" "Builds are slow").
  vm_compute. left. reflexivity.
Defined.



End UcpCoreFurtherExamples.

Section PatternLibFurtherExamples.
Import PyStr PyNum PyVal PatternLib Reference.

Lemma unconstrained_query_selects_domain_witness :
  find_similar_patterns library_ab signature_efficiency 0.3%Q
  = filter (fun pattern =>
              String.eqb (domain signature_efficiency) (problem_domain pattern))
           (values (patterns library_ab)).
Proof.
  apply (unconstrained_query_selects_domain library_ab signature_efficiency 0.3%Q).
  - reflexivity.
  - reflexivity.
  - discriminate.
Defined.

Lemma recombination_merges_steps_witness :
  exists solution steps prereqs,
    recombine_patterns (rt := plain_runtime) [pattern_a; pattern_b] "slow builds"
      = VDict [("recombined_solution", VDict solution)]
    /\ dict_get "implementation_steps" solution = Some (VList (map VStr steps))
    /\ NoDup (map lower steps)
    /\ (forall s, In s steps ->
          exists p, In p [pattern_a; pattern_b] /\ In s (implementation_steps p))
    /\ (forall p s, In p [pattern_a; pattern_b] -> In s (implementation_steps p) ->
          In (lower s) (map lower steps))
    /\ dict_get "prerequisites" solution = Some (VList (map VStr prereqs))
    /\ NoDup prereqs
    /\ (forall x, In x prereqs <->
          exists p, In p [pattern_a; pattern_b] /\ In x (prerequisites p))
    /\ dict_get "source_patterns" solution
       = Some (VList (map VStr (map id [pattern_a; pattern_b]))).
Proof.
  apply (recombination_merges_steps (rt := plain_runtime)
           [pattern_a; pattern_b] "slow builds").
  discriminate.
Defined.


Lemma extracted_pattern_fields_witness :
  implementation_steps
    (fst (extract_pattern (rt := plain_runtime) (new_library "patterns.json")
            "The build is slow" "Cache the dependencies" "just cache them" "user"))
  = ["just cache them"].
Proof.
  apply (proj2 (proj2 (extracted_pattern_fields (rt := plain_runtime)
                         (new_library "patterns.json") "The build is slow"
                         "Cache the dependencies" "just cache them" "user"))).
  vm_compute. repeat constructor.
Defined.

Lemma similarity_range_and_extreme_thresholds_witness :
  find_similar_patterns library_ab signature_efficiency 2%Q = [].
Proof.
  apply (proj2 (proj2 (similarity_range_and_extreme_thresholds
                         library_ab signature_efficiency 2%Q))).
  reflexivity.
Defined.

End PatternLibFurtherExamples.

Section ProblemIdFurtherExamples.
Import PyStr PyNum PyVal ProblemId Reference.

Lemma returned_problems_are_well_formed_witness :
  exists result self',
    analyze_text_for_problems (rt := plain_runtime) detector_ab
      "The build is slow. We waste 30 hours" "user_input" = Returns (result, self')
    /\ List.length result = 2
    /\ Forall (fun problem =>
                 exists sentence,
                   In sentence (UcpCore.sentences_of "The build is slow. We waste 30 hours")
                   /\ evidence problem = [sentence]
                   /\ (exists label, description problem = label ++ sentence)
                   /\ (0.2 <= urgency_score problem <= 1)%Q
                   /\ (0 <= complexity_score problem <= 1)%Q
                   /\ (0 <= connection_impact problem <= 1005)%Z)
              result.
Proof.
  eexists. eexists. split; [vm_compute; reflexivity |].
  split; [reflexivity |].
  eapply (returned_problems_are_well_formed (rt := plain_runtime) detector_ab
            "The build is slow. We waste 30 hours" "user_input").
  vm_compute. reflexivity.
Defined.

Lemma returned_problems_are_deduplicated_witness :
  exists result self',
    analyze_text_for_problems (rt := plain_runtime) detector_ab
      "The build is slow. The build is slow" "user_input" = Returns (result, self')
    /\ List.length result = 1
    /\ NoDup (map problem_key result).
Proof.
  eexists. eexists. split; [vm_compute; reflexivity |].
  split; [reflexivity |].
  eapply proj1.
  eapply (returned_problems_are_deduplicated (rt := plain_runtime) detector_ab
            "The build is slow. The build is slow" "user_input").
  vm_compute. reflexivity.
Defined.

Lemma analysis_records_problems_witness :
  exists result self',
    analyze_text_for_problems (rt := plain_runtime) detector_ab
      "The build is slow" "user_input" = Returns (result, self')
    /\ List.length result = 1
    /\ pattern_library self' = library_ab
    /\ (forall problem, In problem result ->
          In (id problem) (keys (detected_problems self'))).
Proof.
  eexists. eexists. split; [vm_compute; reflexivity |].
  split; [reflexivity |].
  match goal with
  | |- pattern_library ?s' = _ /\ (forall problem, In problem ?r -> _) =>
      destruct (analysis_records_problems (rt := plain_runtime) detector_ab
                  "The build is slow" "user_input" r s') as (Hl & _ & Hin & _)
  end.
  - vm_compute. reflexivity.
  - split; [exact Hl | exact Hin].
Defined.

End ProblemIdFurtherExamples.

Section SolutionGenExamples.
Import PyStr PyNum PyVal SolutionGen Reference.

Lemma pattern_based_plan_shape_witness :
  exists solution self',
    generate_solution (rt := plain_runtime) (ph := plain_plan_hash)
      generator_ab problem_slow = Returns (solution, self')
    /\ 11 <= List.length (implementation_plan solution)
    /\ (execution_time_estimate solution = "1-2 months"
        \/ execution_time_estimate solution = "2-3 months")
    /\ dict_get (id solution) (generated_solutions self') = Some solution.
Proof.
  eexists. eexists. split; [vm_compute; reflexivity |].
  match goal with
  | |- _ /\ _ /\ dict_get _ (generated_solutions ?s') = Some ?sol =>
      destruct (pattern_based_plan_shape (rt := plain_runtime) (ph := plain_plan_hash)
                  generator_ab problem_slow sol s') as (_ & Hlen & Htime & Hrec & _)
  end.
  - vm_compute. discriminate.
  - vm_compute. reflexivity.
  - repeat split; assumption.
Defined.

Lemma pattern_based_resources_and_risks_witness :
  exists solution self',
    generate_solution (rt := plain_runtime) (ph := plain_plan_hash)
      generator_ab problem_slow = Returns (solution, self')
    /\ incl ["development_time"; "stakeholder_coordination"; "testing_environment";
             "monitoring_tools"; "deployment_infrastructure"; "documentation_effort";
             "project_management"]
            (resource_requirements solution)
    /\ incl ["Implementation complexity higher than estimated";
             "Pilot results may not scale to full deployment";
             "Stakeholder resistance or misalignment"]
            (risk_factors solution).
Proof.
  eexists. eexists. split; [vm_compute; reflexivity |].
  eapply (pattern_based_resources_and_risks (rt := plain_runtime)
            (ph := plain_plan_hash) generator_ab problem_slow).
  - vm_compute. discriminate.
  - vm_compute. reflexivity.
Defined.

Lemma novel_solution_shape_witness :
  generate_solution (rt := plain_runtime) (ph := plain_plan_hash)
    generator_empty problem_slow
  = Returns (_generate_novel_solution (rt := plain_runtime) problem_slow,
             generator_empty)
  /\ connection_enhancement
       (_generate_novel_solution (rt := plain_runtime) problem_slow) = 2%Z.
Proof.
  destruct (novel_solution_shape (rt := plain_runtime) (ph := plain_plan_hash)
              generator_empty problem_slow) as (Hgen & _ & _ & _ & Hc & _).
  - reflexivity.
  - split; [exact Hgen | rewrite Hc; reflexivity].
Defined.

Lemma generated_solution_in_range_witness :
  exists solution self',
    generate_solution (rt := plain_runtime) (ph := plain_plan_hash)
      generator_ab problem_slow = Returns (solution, self')
    /\ (1 <= connection_enhancement solution)%Z
    /\ (0 <= confidence_score solution <= 1)%Q.
Proof.
  eexists. eexists. split; [vm_compute; reflexivity |].
  eapply (proj2 (generated_solution_in_range (rt := plain_runtime)
                   (ph := plain_plan_hash) generator_ab problem_slow)).
  - repeat constructor; simpl; try lia; discriminate.
  - vm_compute. reflexivity.
Defined.

Lemma determine_approach_cases_witness :
  _determine_approach [pattern_a; pattern_b] = "hybrid_recombination".
Proof.
  apply (proj2 (proj2 (determine_approach_cases [pattern_a; pattern_b]))
           pattern_a pattern_b).
  - simpl. tauto.
  - simpl. tauto.
  - discriminate.
Defined.

End SolutionGenExamples.

Section UcpSystemExamples.
Import PyStr PyNum PyVal UcpSystem Reference.

Lemma response_never_empty_witness :
  _generate_ucp_response (UcpCore.process "") [] [] = default_response.
Proof.
  apply (proj1 (proj2 (response_never_empty (UcpCore.process "") [] [])));
    reflexivity.
Defined.

End UcpSystemExamples.
